(** * Scene state storage and stateful scene bootstrap

    A shallow embedding of two units of the kernel:

    - [packages/shared/apis/SceneStateStorageController/SceneStateStorageController.ts]
      (the RPC controller that saves, publishes and reloads a scene state), and
    - [packages/scene-system/stateful.scene.system.ts]
      (the worker that boots a stateful scene and wires it to the renderer).

    Both are asynchronous TypeScript.  An [async] method is embedded as a
    computation in a state-and-exception monad: the state carries the fields
    the method mutates and the chronological trace of the calls it made to
    its collaborators; a rejected promise (or a [throw]) is the outcome
    [Throw].  Collaborators that live outside these two files (the builder
    server client, the content client, the renderer bridge, the session
    store, ...) are oracles: functions that map the history so far and the
    arguments of the call to the call's outcome.  Every theorem quantifies
    over all oracles unless it says otherwise. *)

From Stdlib Require Import String Ascii List ZArith Bool Lia Permutation.
Import ListNotations.
Open Scope list_scope.
Open Scope string_scope.

Set Implicit Arguments.

(** ** JavaScript values shared by both units *)

Module Js.

(** What a [throw] carries.  [JsError name message] is an [Error] object
    (or a subclass such as [TypeError]); [JsThrown s] is any other thrown
    value, kept by the text its string conversion yields. *)
Inductive Exn : Type :=
| JsError (name message : string)
| JsThrown (rendered : string).

(** [new Error(msg)] *)
Definition Error (msg : string) : Exn := JsError "Error" msg.

(** The [TypeError] raised by a property access on [undefined]. *)
Definition TypeError (msg : string) : Exn := JsError "TypeError" msg.

Definition is_empty (s : string) : bool :=
  match s with EmptyString => true | String _ _ => false end.

(** The template literal [`${error}`]: [Error.prototype.toString] for error
    objects. *)
Definition toString (e : Exn) : string :=
  match e with
  | JsError name message =>
      if is_empty name then message
      else if is_empty message then name
      else name ++ ": " ++ message
  | JsThrown s => s
  end.


(** [String.prototype.includes], the decision procedure for [contains]. *)
Fixpoint includes (s sub : string) : bool :=
  String.prefix sub s ||
  match s with
  | EmptyString => false
  | String _ s' => includes s' sub
  end.

(** The settlement of a promise, or the completion of a synchronous call. *)
Inductive Outcome (A : Type) : Type :=
| Ret (a : A)
| Throw (e : Exn).
Arguments Ret {A} a.
Arguments Throw {A} e.

Definition returns {A} (o : Outcome A) : bool :=
  match o with Ret _ => true | Throw _ => false end.

(** Computations over a state [W]; the state survives a [Throw], as the
    side effects of a JavaScript function survive its exception. *)
Definition M (W A : Type) : Type := W -> Outcome A * W.

Definition ret {W A} (a : A) : M W A := fun w => (Ret a, w).

Definition throw {W A} (e : Exn) : M W A := fun w => (Throw e, w).

Definition bind {W A B} (m : M W A) (k : A -> M W B) : M W B :=
  fun w =>
    match m w with
    | (Ret a, w') => k a w'
    | (Throw e, w') => (Throw e, w')
    end.

(** [try { m } catch (error) { h error }] *)
Definition try_catch {W A} (m : M W A) (h : Exn -> M W A) : M W A :=
  fun w =>
    match m w with
    | (Ret a, w') => (Ret a, w')
    | (Throw e, w') => h e w'
    end.

Definition gets {W A} (f : W -> A) : M W A := fun w => (Ret (f w), w).

Definition modify {W} (f : W -> W) : M W unit := fun w => (Ret tt, f w).

(** A synchronous helper that may throw and leaves no trace. *)
Definition lift {W A} (o : Outcome A) : M W A := fun w => (o, w).

(** ** [Map] and [Set]

    A JavaScript [Map] keeps its entries in insertion order; [set] on a key
    already present replaces the value in place.  Keys here are strings. *)
Definition JsMap (V : Type) : Type := list (string * V).

Fixpoint map_set {V} (k : string) (v : V) (m : JsMap V) : JsMap V :=
  match m with
  | [] => [(k, v)]
  | (k', v') :: m' =>
      if String.eqb k k' then (k, v) :: m' else (k', v') :: map_set k v m'
  end.

(** [new Map(entries)] *)
Definition map_of_entries {V} (entries : list (string * V)) : JsMap V :=
  fold_left (fun m kv => map_set (fst kv) (snd kv) m) entries [].

Definition map_keys {V} (m : JsMap V) : list string := List.map fst m.

Definition map_values {V} (m : JsMap V) : list V := List.map snd m.

(** [Set.prototype.add]: insertion order, first occurrence kept. *)
Fixpoint set_add (x : string) (s : list string) : list string :=
  match s with
  | [] => [x]
  | y :: s' => if String.eqb x y then s else y :: set_add x s'
  end.

(** [Array.prototype.find] *)
Fixpoint find_first {A} (p : A -> bool) (l : list A) : option A :=
  match l with
  | [] => None
  | x :: l' => if p x then Some x else find_first p l'
  end.

End Js.

Declare Scope js_scope.
Delimit Scope js_scope with js.
Notation "x <- m ;; k" := (Js.bind m (fun x => k))
  (at level 61, m at next level, right associativity) : js_scope.
Notation "m ;; k" := (Js.bind m (fun _ => k))
  (at level 61, right associativity) : js_scope.

(** ** The wire format and the scene graph

    [SerializedSceneState] (declared in [./types]) is the flat list of
    entities, each with its ordered list of typed components.  A component
    value is [any] in the source; the controller only ever reads its
    [assetId] property, so the value is kept as that optional property and
    the rest of its JSON text. *)

Module Scene.

Definition AssetId : Type := string.

Record ComponentValue : Type := {
  assetId : option AssetId;
  payload : string
}.

Record Component : Type := {
  type : Z;
  value : ComponentValue
}.

Record SerializedEntity : Type := {
  id : string;
  components : list Component
}.

Record SerializedSceneState : Type := {
  entities : list SerializedEntity
}.

(** Modelled from the spec: [StorableSceneState] is declared in
    [./StorableSceneStateTranslation], which is not among the sources.  The
    storable format "differs from wire format only in being suitable for
    stable hashing", so it has the shape of the wire format. *)
Record StorableSceneState : Type := {
  storable_entities : list SerializedEntity
}.

(** Modelled from the spec: [SceneStateDefinition]
    ([scene-system/stateful-scene/SceneStateDefinition]) is not among the
    sources.  It is the scene graph: entities by id, each owning its
    components; [new SceneStateDefinition()] is the graph with zero
    entities. *)
Definition SceneStateDefinition : Type := list (string * list Component).

Definition new_SceneStateDefinition : SceneStateDefinition := [].

(** JavaScript truthiness of [value.assetId]: [undefined] and the empty
    string are falsy. *)
Definition truthy_assetId (v : ComponentValue) : bool :=
  match assetId v with
  | Some a => negb (Js.is_empty a)
  | None => false
  end.

End Scene.

(** ** SceneStateStorageController *)

Module Controller.
Import Js Scene.
Local Open Scope js_scope.

(** *** Types of [./types] and of the collaborators, as far as the
    controller looks into them *)

Definition Blob : Type := string.
Definition Buffer : Type := string.
Definition AuthChain : Type := string.
Definition Layout : Type := string.
Definition BuilderAsset : Type := string.
Definition BuilderComponent : Type := string.

(** A [Response] of [fetch]: the HTTP status and the body.  The promise of
    [fetch] is fulfilled with every response that arrives, whatever its
    status, and rejected only when none arrives. *)
Record Response : Type := {
  response_status : Z;
  response_body : string
}.

(** [response.ok]: the status is in the range 200-299. *)
Definition response_ok (r : Response) : bool :=
  ((200 <=? response_status r) && (response_status r <=? 299))%Z.

Record ContentMapping : Type := {
  file : string;
  hash : string
}.

Record Asset : Type := {
  asset_id : AssetId;
  baseUrl : string;
  mappings : list ContentMapping
}.

Record BuilderProject : Type := {
  project_id : string;
  title : string;
  description : string;
  creation_coords : option string
}.

Record BuilderScene : Type := {
  scene_components : list (string * BuilderComponent);
  scene_rest : string
}.

Record BuilderManifest : Type := {
  project : BuilderProject;
  scene : BuilderScene
}.

Record SceneSource : Type := {
  rotation : option string;
  layout : option Layout;
  point : option string
}.

Record SceneDisplay : Type := {
  display_title : option string;
  display_description : option string;
  navmapThumbnail : option string
}.

(** [land.sceneJsonData] *)
Record SceneJson : Type := {
  display : option SceneDisplay;
  source : option SceneSource;
  scene_base : string;
  scene_parcels : list string;
  json_rest : string
}.

Record SceneDeploymentSourceMetadata : Type := {
  origin : string;
  version : Z;
  projectId : string;
  md_rotation : string;
  md_layout : Layout;
  md_point : string
}.

Record ExplorerIdentity : Type := {
  rawAddress : string;
  credentials : string
}.

Record DeploymentResult : Type := {
  ok : bool;
  error : option string
}.

(** A deployed entity as the content server returns it. *)
Record Entity : Type := {
  content : option (list ContentMapping)
}.

(** [CONTENT_PATH] of [./types]: a constant table that is not among the
    sources; its entries are parameters. *)
Record ContentPath : Type := {
  DEFINITION_FILE : string;
  BUNDLED_GAME_FILE : string;
  SCENE_FILE : string;
  SCENE_THUMBNAIL : string;
  ASSETS : string;
  MODELS_FOLDER : string
}.

Record PublishArgs : Type := {
  arg_sceneId : string;
  arg_sceneName : string;
  arg_sceneDescription : string;
  arg_sceneScreenshot : string;
  arg_sceneState : SerializedSceneState
}.

(** *** Calls to collaborators, and the trace *)

Inductive Call : Type :=
(* BuilderServerAPIManager *)
| GetBuilderManifestFromProjectId (projectId : string)
| GetBuilderManifestFromLandCoordinates (land : string)
| ApiCreateProjectWithCoords (coordinates : string)
| ToBuilderFromStateDefinitionFormat
| UpdateProjectManifest (manifest : BuilderManifest)
| UpdateProjectThumbnail (projectId : string) (thumbnail : Blob)
| GetBuilderAssets (ids : list AssetId)
| GetConvertedAssets (ids : list AssetId)
| AddBuilderAssets (assets : list BuilderAsset)
| BuilderManifestFromSerializedState (state : SerializedSceneState)
(* the renderer bridge, getUnityInstance() *)
| SendBuilderProjectInfo (title description : string) (isNewEmptyProject : bool)
| SendPublishSceneResult (result : DeploymentResult)
| SendSceneAssets (assets : list BuilderAsset)
(* network and buffers *)
| Fetch (url : string)
| ResponseBlob (url : string)
| BlobToBuffer (blob : Blob)
(* ContentClient *)
| BuildEntity (pointers : list string) (files : JsMap Buffer)
    (metadata : SceneJson * SceneDeploymentSourceMetadata)
| DeployEntity (files : JsMap Buffer) (entityId : string) (authChain : AuthChain)
| FetchEntityById (cid : string)
| DownloadContent (hash : string)
(* atomicHelpers/persistentStorage *)
| SaveToPersistentStorage (key : string) (state : StorableSceneState)
| GetFromPersistentStorage (key : string)
(* defaultLogger *)
| LogError (message : string) (cause : string)
| LogWarn (message : string)
(* atomicHelpers/math *)
| Uuid
(* promises that are started and not awaited; [.catch] routes their
   rejection to the logger *)
| SpawnUpdateProjectManifest (manifest : BuilderManifest)
| SpawnPublishSceneState (args : PublishArgs).

(** One entry per completed call: how it was made and how it ended. *)
Inductive Event : Type :=
| Done (c : Call)
| Failed (c : Call) (e : Exn).

Definition History : Type := list Event.

Definition call_of (ev : Event) : Call :=
  match ev with Done c => c | Failed c _ => c end.

Definition is_deployEntity (c : Call) : bool :=
  match c with DeployEntity _ _ _ => true | _ => false end.

Definition is_buildEntity (c : Call) : bool :=
  match c with BuildEntity _ _ _ => true | _ => false end.


(** The three awaits of a download task. *)
Definition is_downloadCall (c : Call) : bool :=
  match c with Fetch _ | ResponseBlob _ | BlobToBuffer _ => true | _ => false end.

Definition is_fetch (c : Call) : bool :=
  match c with Fetch _ => true | _ => false end.

(** Calls to the content client. *)
Definition is_contentClient (c : Call) : bool :=
  match c with
  | BuildEntity _ _ _ | DeployEntity _ _ _ | FetchEntityById _ | DownloadContent _ => true
  | _ => false
  end.

(** The calls of [updateProjectDetails]: the sync of the builder server's
    manifest record. *)
Definition is_manifestSync (c : Call) : bool :=
  match c with
  | ToBuilderFromStateDefinitionFormat
  | UpdateProjectManifest _
  | UpdateProjectThumbnail _ _ => true
  | _ => false
  end.

(** A [buildEntity] that resolved, a [deployEntity] that resolved. *)
Definition is_built (ev : Event) : bool :=
  match ev with Done (BuildEntity _ _ _) => true | _ => false end.

Definition is_deployed (ev : Event) : bool :=
  match ev with Done (DeployEntity _ _ _) => true | _ => false end.

(** The manifest sync ran to its end: its last call, the thumbnail update,
    resolved. *)
Definition is_synced (ev : Event) : bool :=
  match ev with Done (UpdateProjectThumbnail _ _) => true | _ => false end.

Definition is_publishResult (c : Call) : bool :=
  match c with SendPublishSceneResult _ => true | _ => false end.

(** How many calls of a kind a trace holds. *)
Definition count_calls (p : Call -> bool) (t : History) : nat :=
  length (filter (fun ev => p (call_of ev)) t).

(** A failed asset file download: one of the three awaits of a download
    task ([fetch], [response.blob()], [blobToBuffer]) was rejected.
    [blobToBuffer] also converts the thumbnail; a rejection there is counted
    as well, which only widens what is proved about failed downloads. *)
Definition is_failedDownload (ev : Event) : bool :=
  match ev with
  | Failed (Fetch _) _ | Failed (ResponseBlob _) _ | Failed (BlobToBuffer _) _ => true
  | _ => false
  end.

(** *** The environment: configuration, constants and oracles *)

Record Env : Type := {
  (* config *)
  DEBUG : bool;
  CONTENT_PATH : ContentPath;
  (* CLASS_ID.GLTF_SHAPE of @dcl/legacy-ecs *)
  GLTF_SHAPE : Z;
  (* shared/session/selectors over the store *)
  getCurrentIdentity : History -> option ExplorerIdentity;
  (* ParcelIdentity: the parts no method writes *)
  parcel_cid : string;
  parcel_sceneId : string;
  parcel_mappings : list ContentMapping;
  (* BuilderServerAPIManager *)
  api_getBuilderManifestFromProjectId :
    History -> string -> ExplorerIdentity -> Outcome (option BuilderManifest);
  api_getBuilderManifestFromLandCoordinates :
    History -> string -> ExplorerIdentity -> Outcome (option BuilderManifest);
  api_createProjectWithCoords :
    History -> string -> ExplorerIdentity -> Outcome BuilderManifest;
  api_updateProjectManifest :
    History -> BuilderManifest -> ExplorerIdentity -> Outcome unit;
  api_updateProjectThumbnail :
    History -> string -> Blob -> ExplorerIdentity -> Outcome unit;
  api_getBuilderAssets : History -> list AssetId -> Outcome (list BuilderAsset);
  api_getConvertedAssets : History -> list AssetId -> Outcome (JsMap Asset);
  api_addBuilderAssets : History -> list BuilderAsset -> Outcome unit;
  api_builderManifestFromSerializedState :
    History -> string -> string -> string -> list string ->
    option string -> option string -> string ->
    SerializedSceneState -> option Layout -> Outcome (option BuilderManifest);
  (* format translators: they read foreign data and may reject it *)
  fromBuildertoStateDefinitionFormat :
    BuilderScene -> option SceneSource -> Outcome SceneStateDefinition;
  toBuilderFromStateDefinitionFormat :
    History -> SceneStateDefinition -> option BuilderManifest ->
    option (option SceneSource) -> Outcome BuilderManifest;
  (* whether the manifest that toBuilderFromStateDefinitionFormat has just
     returned holds, as its project, the very object that is the project of
     the manifest it was handed (as when it returns that manifest, or a
     shallow copy of it) *)
  shares_project : History -> bool;
  deserializeSceneState : SerializedSceneState -> Outcome SceneStateDefinition;
  fromSerializedStateToStorableFormat :
    SerializedSceneState -> Outcome StorableSceneState;
  fromStorableFormatToSerializedState :
    StorableSceneState -> Outcome SerializedSceneState;
  transformBuilderComponent :
    option SceneSource -> BuilderComponent -> Outcome BuilderComponent;
  createGameFile : SerializedSceneState -> JsMap Asset -> Outcome string;
  base64ToBlob : string -> Outcome Blob;
  JSON_parse_storable : Buffer -> Outcome StorableSceneState;
  JSON_parse_assets : Buffer -> Outcome (list BuilderAsset);
  (* renderers of in-memory values: total *)
  serializeSceneState : SceneStateDefinition -> SerializedSceneState;
  getLayoutFromParcels : list string -> Layout;
  JSON_stringify_storable : StorableSceneState -> Buffer;
  JSON_stringify_sceneJson : SceneJson -> Buffer;
  JSON_stringify_assets : list BuilderAsset -> Buffer;
  toString_base64 : Buffer -> string;
  uuid : History -> string;
  (* network and buffers *)
  fetch : History -> string -> Outcome Response;
  response_blob : History -> Response -> Outcome Blob;
  blobToBuffer : History -> Blob -> Outcome Buffer;
  (* the event loop: of the download tasks that are rejected, the position
     of the one that is rejected first *)
  first_rejection : History -> nat;
  (* the JavaScript engine: the message of the TypeError it throws when a
     property is read of undefined, by the name of the property *)
  undefined_read_message : string -> string;
  (* ContentClient and Authenticator *)
  client_buildEntity :
    History -> list string -> JsMap Buffer ->
    SceneJson * SceneDeploymentSourceMetadata -> Outcome (JsMap Buffer * string);
  signPayload : ExplorerIdentity -> string -> Outcome AuthChain;
  client_deployEntity :
    History -> JsMap Buffer -> string -> AuthChain -> Outcome unit;
  client_fetchEntityById : History -> string -> Outcome Entity;
  client_downloadContent : History -> string -> Outcome Buffer;
  (* atomicHelpers/persistentStorage *)
  saveToPersistentStorage :
    History -> string -> StorableSceneState -> Outcome unit;
  getFromPersistentStorage :
    History -> string -> Outcome (option StorableSceneState)
}.

(** *** The controller's mutable state *)

Record World : Type := {
  trace : History;
  (* private builderManifest!: BuilderManifest *)
  builderManifest : option BuilderManifest;
  (* private transformTranslator!: SceneTransformTranslator, by the source
     it was constructed from *)
  transformTranslator : option (option SceneSource);
  (* this.parcelIdentity.land.sceneJsonData, a shared object *)
  sceneJsonData : SceneJson
}.

Definition add_events (evs : History) (w : World) : World :=
  {| trace := (trace w ++ evs)%list;
     builderManifest := builderManifest w;
     transformTranslator := transformTranslator w;
     sceneJsonData := sceneJsonData w |}.

Definition log (ev : Event) (w : World) : World := add_events [ev] w.

Definition set_builderManifest (m : option BuilderManifest) (w : World) : World :=
  {| trace := trace w;
     builderManifest := m;
     transformTranslator := transformTranslator w;
     sceneJsonData := sceneJsonData w |}.

Definition set_transformTranslator (t : option SceneSource) (w : World) : World :=
  {| trace := trace w;
     builderManifest := builderManifest w;
     transformTranslator := Some t;
     sceneJsonData := sceneJsonData w |}.

Definition set_sceneJsonData (j : SceneJson) (w : World) : World :=
  {| trace := trace w;
     builderManifest := builderManifest w;
     transformTranslator := transformTranslator w;
     sceneJsonData := j |}.

(** The events a run appended to the trace it started from. *)
Definition events_since (w w' : World) : History :=
  skipn (length (trace w)) (trace w').

(** A call to a collaborator: the oracle sees the history, and the call is
    recorded with the way it ended. *)
Definition call {A} (c : Call) (o : History -> Outcome A) : M World A :=
  fun w =>
    let r := o (trace w) in
    (r, log (match r with Ret _ => Done c | Throw e => Failed c e end) w).

(** A call that cannot fail: a message to the renderer or to the logger. *)
Definition emit (c : Call) : M World unit :=
  call c (fun _ => Ret tt).

(** The tasks of a [Promise.all].  They were all started when the array of
    promises was built, and each of them runs to its own end whatever
    becomes of the others.  The trace lists their calls task by task, in
    list order.  When the tasks settle one after the other this is their
    order in time, one of the orders the event loop allows; for the tasks
    that are still pending when the [await] throws, it lists calls that
    complete after the method's handler ran. *)
Fixpoint settle_all {W A} (tasks : list (M W A)) (w : W) : list (Outcome A) * W :=
  match tasks with
  | [] => ([], w)
  | t :: ts =>
      let (r, w1) := t w in
      let (rs, w2) := settle_all ts w1 in
      (r :: rs, w2)
  end.

Fixpoint fulfilled {A} (rs : list (Outcome A)) : list A :=
  match rs with
  | [] => []
  | Ret a :: rs' => a :: fulfilled rs'
  | Throw _ :: rs' => fulfilled rs'
  end.

Fixpoint rejections {A} (rs : list (Outcome A)) : list Exn :=
  match rs with
  | [] => []
  | Ret _ :: rs' => rejections rs'
  | Throw e :: rs' => e :: rejections rs'
  end.

(** [Promise.all] under [await]: the results in the order of the tasks
    when every task was fulfilled; otherwise the [await] throws the
    rejection that came first in time, which need not be that of the first
    task of the list: [first_rejection] is its position among the
    rejections. *)
Definition promise_all {W A} (first_rejection : W -> nat) (tasks : list (M W A))
  : M W (list A) :=
  fun w =>
    let (rs, w') := settle_all tasks w in
    match rejections rs with
    | [] => (Ret (fulfilled rs), w')
    | e :: es => (Throw (nth (first_rejection w') (e :: es) e), w')
    end.

Definition set_title_description (t d : string) (m : BuilderManifest) : BuilderManifest :=
  {| project := {| project_id := project_id (project m);
                   title := t;
                   description := d;
                   creation_coords := creation_coords (project m) |};
     scene := scene m |}.

Definition clear_creation_coords (m : BuilderManifest) : BuilderManifest :=
  {| project := {| project_id := project_id (project m);
                   title := title (project m);
                   description := description (project m);
                   creation_coords := None |};
     scene := scene m |}.

Definition set_scene_components
    (cs : list (string * BuilderComponent)) (m : BuilderManifest) : BuilderManifest :=
  {| project := project m;
     scene := {| scene_components := cs; scene_rest := scene_rest (scene m) |} |}.

Definition set_display (d : SceneDisplay) (j : SceneJson) : SceneJson :=
  {| display := Some d;
     source := source j;
     scene_base := scene_base j;
     scene_parcels := scene_parcels j;
     json_rest := json_rest j |}.

Definition identity_not_found : string :=
  "Identity not found when trying to deploy an entity".

Definition scene_state_key (sceneId : string) : string :=
  "scene-state-" ++ sceneId.

(** *** The methods *)

Section Methods.

Variable env : Env.

(** [private getIdentity()] *)
Definition getIdentity : M World ExplorerIdentity :=
  identity <- gets (fun w => getCurrentIdentity env (trace w)) ;;
  match identity with
  | Some identity => ret identity
  | None => throw (Error identity_not_found)
  end.

(** [this.builderManifest.project]: the field is declared with [!] and is
    [undefined] until a project was loaded or created. *)
Definition read_builderManifest : M World BuilderManifest :=
  current <- gets builderManifest ;;
  match current with
  | Some manifest => ret manifest
  | None => throw (TypeError (undefined_read_message env "project"))
  end.

(** [getProjectManifest(projectId)] *)
Definition getProjectManifest (projectId : string)
  : M World (option SerializedSceneState) :=
  identity <- getIdentity ;;
  manifest <- call (GetBuilderManifestFromProjectId projectId)
                (fun h => api_getBuilderManifestFromProjectId env h projectId identity) ;;
  match manifest with
  | None => ret None
  | Some manifest =>
      emit (SendBuilderProjectInfo
              (title (project manifest)) (description (project manifest)) false) ;;
      modify (set_builderManifest (Some manifest)) ;;
      src <- gets (fun w => source (sceneJsonData w)) ;;
      modify (set_transformTranslator src) ;;
      definition <- lift (fromBuildertoStateDefinitionFormat env (scene manifest) src) ;;
      ret (Some (serializeSceneState env definition))
  end.

(** [getProjectManifestByCoordinates(land)] *)
Definition getProjectManifestByCoordinates (land : string)
  : M World (option SerializedSceneState) :=
  identity <- getIdentity ;;
  newProject <- call (GetBuilderManifestFromLandCoordinates land)
                  (fun h => api_getBuilderManifestFromLandCoordinates env h land identity) ;;
  match newProject with
  | Some newProject =>
      emit (SendBuilderProjectInfo
              (title (project newProject)) (description (project newProject)) false) ;;
      modify (set_builderManifest (Some newProject)) ;;
      src <- gets (fun w => source (sceneJsonData w)) ;;
      modify (set_transformTranslator src) ;;
      translatedManifest <-
        lift (fromBuildertoStateDefinitionFormat env (scene newProject) src) ;;
      ret (Some (serializeSceneState env translatedManifest))
  | None => ret None
  end.

(** [createProjectWithCoords(coordinates)] *)
Definition createProjectWithCoords (coordinates : string) : M World bool :=
  identity <- getIdentity ;;
  newProject <- call (ApiCreateProjectWithCoords coordinates)
                  (fun h => api_createProjectWithCoords env h coordinates identity) ;;
  emit (SendBuilderProjectInfo
          (title (project newProject)) (description (project newProject)) true) ;;
  modify (set_builderManifest (Some newProject)) ;;
  src <- gets (fun w => source (sceneJsonData w)) ;;
  modify (set_transformTranslator src) ;;
  ret true.

(** [saveSceneState(serializedSceneState)] *)
Definition saveSceneState (serializedSceneState : SerializedSceneState)
  : M World DeploymentResult :=
  try_catch
    (sceneState <- lift (deserializeSceneState env serializedSceneState) ;;
     current <- gets builderManifest ;;
     translator <- gets transformTranslator ;;
     manifest <- call ToBuilderFromStateDefinitionFormat
                   (fun h => toBuilderFromStateDefinitionFormat env h sceneState
                               current translator) ;;
     identity <- getIdentity ;;
     call (UpdateProjectManifest manifest)
       (fun h => api_updateProjectManifest env h manifest identity) ;;
     ret {| ok := true; error := None |})
    (fun e =>
       emit (LogError "Saving manifest failed" (toString e)) ;;
       ret {| ok := false; error := Some (toString e) |}).

(** [private updateProjectDetails(sceneState, sceneName, sceneDescription,
    thumbnailBlob)].  The title and the description are written in place
    into the project of the manifest that the translator returned.  The
    translator was handed [this.builderManifest]; when the project it
    returned is the very object held there, the two writes are writes to
    the controller's manifest as well. *)
Definition updateProjectDetails (sceneState : SerializedSceneState)
    (sceneName sceneDescription : string) (thumbnailBlob : Blob) : M World unit :=
  deserializedSceneState <- lift (deserializeSceneState env sceneState) ;;
  current <- gets builderManifest ;;
  translator <- gets transformTranslator ;;
  translated <- call ToBuilderFromStateDefinitionFormat
                  (fun h => toBuilderFromStateDefinitionFormat env h
                              deserializedSceneState current translator) ;;
  shared <- gets (fun w => shares_project env (trace w)) ;;
  (* Update the project info *)
  let manifest := set_title_description sceneName sceneDescription translated in
  (if shared then
     modify (fun w =>
       set_builderManifest
         (option_map (set_title_description sceneName sceneDescription)
                     (builderManifest w)) w)
   else ret tt) ;;
  identity <- getIdentity ;;
  call (UpdateProjectManifest manifest)
    (fun h => api_updateProjectManifest env h manifest identity) ;;
  identity' <- getIdentity ;;
  call (UpdateProjectThumbnail (project_id (project manifest)) thumbnailBlob)
    (fun h => api_updateProjectThumbnail env h
                (project_id (project manifest)) thumbnailBlob identity').

(** [saveProjectInfo(sceneState, projectName, projectDescription,
    projectScreenshot)] *)
Definition saveProjectInfo (sceneState : SerializedSceneState)
    (projectName projectDescription projectScreenshot : string) : M World bool :=
  try_catch
    (thumbnailBlob <- lift (base64ToBlob env projectScreenshot) ;;
     updateProjectDetails sceneState projectName projectDescription thumbnailBlob ;;
     ret true)
    (fun e =>
       emit (LogError "Project details updating failed" (toString e)) ;;
       ret false).

(** The loop shared by [getAllBuilderAssets] and [getAllAssets]: the ids of
    the GLTF shape components whose [assetId] is truthy, in a [Set]. *)
Definition add_entity_assetIds (assetIds : list AssetId) (entity : SerializedEntity)
  : list AssetId :=
  fold_left
    (fun s c => match assetId (value c) with
                | Some a => set_add a s
                | None => s
                end)
    (filter (fun c => Z.eqb (type c) (GLTF_SHAPE env) && truthy_assetId (value c))
            (components entity))
    assetIds.

Definition collectAssetIds (state : SerializedSceneState) : list AssetId :=
  fold_left add_entity_assetIds (entities state) [].

(** [private getAllBuilderAssets(state)] *)
Definition getAllBuilderAssets (state : SerializedSceneState)
  : M World (list BuilderAsset) :=
  let ids := collectAssetIds state in
  call (GetBuilderAssets ids) (fun h => api_getBuilderAssets env h ids).

(** [private getAllAssets(state)] *)
Definition getAllAssets (state : SerializedSceneState) : M World (JsMap Asset) :=
  let ids := collectAssetIds state in
  call (GetConvertedAssets ids) (fun h => api_getConvertedAssets env h ids).

(** [sendAssetsToRenderer(state)] *)
Definition sendAssetsToRenderer (state : SerializedSceneState) : M World string :=
  assets <- getAllBuilderAssets state ;;
  emit (SendSceneAssets assets) ;;
  ret "OK".

(** The path-to-url map that [downloadAssetFiles] gathers. *)
Definition add_asset_mappings (allMappings : JsMap string) (asset : Asset)
  : JsMap string :=
  fold_left
    (fun m fh => map_set (MODELS_FOLDER (CONTENT_PATH env) ++ "/" ++ file fh)
                         (baseUrl asset ++ "/" ++ hash fh) m)
    (mappings asset) allMappings.

Definition gatherMappings (assets : JsMap Asset) : JsMap string :=
  fold_left add_asset_mappings (map_values assets) [].

(** One download task: the [async] callback of the [map].  The response
    is read whatever its status: the task does not look at [response.ok]. *)
Definition download (entry : string * string) : M World (string * Buffer) :=
  let (path, url) := entry in
  response <- call (Fetch url) (fun h => fetch env h url) ;;
  blob <- call (ResponseBlob url) (fun h => response_blob env h response) ;;
  buffer <- call (BlobToBuffer blob) (fun h => blobToBuffer env h blob) ;;
  ret (path, buffer).

(** [private downloadAssetFiles(assets)] *)
Definition downloadAssetFiles (assets : JsMap Asset) : M World (JsMap Buffer) :=
  result <- promise_all (fun w => first_rejection env (trace w))
              (List.map download (gatherMappings assets)) ;;
  ret (map_of_entries result).

Definition or_else {A} (o : option A) (d : A) : A :=
  match o with Some a => a | None => d end.

(** The [source] block of the deployment metadata. *)
Definition sourceMetadata (projectId : string) (j : SceneJson)
  : SceneDeploymentSourceMetadata :=
  {| origin := "builder-in-world";
     version := 1;
     projectId := projectId;
     md_rotation :=
       or_else (match source j with Some s => rotation s | None => None end) "east";
     md_layout :=
       or_else (match source j with Some s => layout s | None => None end)
               (getLayoutFromParcels env (scene_parcels j));
     md_point :=
       or_else (match source j with Some s => point s | None => None end)
               (scene_base j) |}.

(** The fixed entries of the deployment bundle, in the order of the array
    literal. *)
Definition fixedFiles (storableFormat : StorableSceneState) (gameFile : string)
    (sceneJson : SceneJson) (thumbnail : Buffer) (assetsArray : list BuilderAsset)
  : list (string * Buffer) :=
  [ (DEFINITION_FILE (CONTENT_PATH env), JSON_stringify_storable env storableFormat);
    (BUNDLED_GAME_FILE (CONTENT_PATH env), gameFile);
    (SCENE_FILE (CONTENT_PATH env), JSON_stringify_sceneJson env sceneJson);
    (SCENE_THUMBNAIL (CONTENT_PATH env), thumbnail);
    (ASSETS (CONTENT_PATH env), JSON_stringify_assets env assetsArray) ].

Definition fixedPaths : list string :=
  [ DEFINITION_FILE (CONTENT_PATH env);
    BUNDLED_GAME_FILE (CONTENT_PATH env);
    SCENE_FILE (CONTENT_PATH env);
    SCENE_THUMBNAIL (CONTENT_PATH env);
    ASSETS (CONTENT_PATH env) ].

(** The body of the [try] block of [publishSceneState].  The content
    client is built from the store ([getContentClient]) without a call to a
    collaborator. *)
Definition deploy (sceneName sceneDescription sceneScreenshot : string)
    (sceneState : SerializedSceneState) (storableFormat : StorableSceneState)
  : M World DeploymentResult :=
  thumbnailBlob <- lift (base64ToBlob env sceneScreenshot) ;;
  (* Fetch all asset metadata *)
  assets <- getAllAssets sceneState ;;
  assetsArray <- getAllBuilderAssets sceneState ;;
  (* Download asset files *)
  models <- downloadAssetFiles assets ;;
  (* Generate game file *)
  gameFile <- lift (createGameFile env sceneState assets) ;;
  (* Prepare scene.json: the display block is written into the shared
     sceneJsonData object *)
  modify (fun w =>
    set_sceneJsonData
      (set_display {| display_title := Some sceneName;
                      display_description := Some sceneDescription;
                      navmapThumbnail := Some (SCENE_THUMBNAIL (CONTENT_PATH env)) |}
                   (sceneJsonData w)) w) ;;
  sceneJson <- gets sceneJsonData ;;
  (* Group all entity files *)
  thumbnail <- call (BlobToBuffer thumbnailBlob)
                 (fun h => blobToBuffer env h thumbnailBlob) ;;
  let entityFiles :=
    map_of_entries
      (fixedFiles storableFormat gameFile sceneJson thumbnail assetsArray ++ models)%list in
  (* Build the entity *)
  let parcels := scene_parcels sceneJson in
  manifest <- read_builderManifest ;;
  let metadata := (sceneJson, sourceMetadata (project_id (project manifest)) sceneJson) in
  built <- call (BuildEntity parcels entityFiles metadata)
             (fun h => client_buildEntity env h parcels entityFiles metadata) ;;
  let (files, entityId) := built : JsMap Buffer * string in
  (* Sign entity id *)
  identity <- getIdentity ;;
  authChain <- lift (signPayload env identity entityId) ;;
  call (DeployEntity files entityId authChain)
    (fun h => client_deployEntity env h files entityId authChain) ;;
  (* Update the project name, desc and thumbnail. unlink coordinates from
     builder project *)
  manifest' <- read_builderManifest ;;
  modify (set_builderManifest (Some (clear_creation_coords manifest'))) ;;
  updateProjectDetails sceneState sceneName sceneDescription thumbnailBlob ;;
  ret {| ok := true; error := None |}.

(** [publishSceneState(sceneId, sceneName, sceneDescription, sceneScreenshot,
    sceneState)] *)
Definition publishSceneState (sceneId sceneName sceneDescription sceneScreenshot : string)
    (sceneState : SerializedSceneState) : M World DeploymentResult :=
  storableFormat <- lift (fromSerializedStateToStorableFormat env sceneState) ;;
  result <-
    (if DEBUG env then
       call (SaveToPersistentStorage (scene_state_key sceneId) storableFormat)
         (fun h => saveToPersistentStorage env h (scene_state_key sceneId) storableFormat) ;;
       ret {| ok := true; error := None |}
     else
       try_catch
         (deploy sceneName sceneDescription sceneScreenshot sceneState storableFormat)
         (fun e =>
            emit (LogError "Deployment failed" (toString e)) ;;
            ret {| ok := false; error := Some (toString e) |})) ;;
  emit (SendPublishSceneResult result) ;;
  ret result.

(** [xs.find(({ file }) => file === name)?.hash], kept only when truthy. *)
Definition hash_of_file (name : string) (xs : list ContentMapping) : option string :=
  match find_first (fun entry => String.eqb (file entry) name) xs with
  | Some entry => if is_empty (hash entry) then None else Some (hash entry)
  | None => None
  end.

(** [getStoredState(sceneId)].  Outside DEBUG mode the content client is
    built before the [try]; building it calls no collaborator. *)
Definition getStoredState (sceneId : string) : M World (option SerializedSceneState) :=
  if DEBUG env then
    sceneState <- call (GetFromPersistentStorage (scene_state_key sceneId))
                    (fun h => getFromPersistentStorage env h (scene_state_key sceneId)) ;;
    match sceneState with
    | Some sceneState =>
        state <- lift (fromStorableFormatToSerializedState env sceneState) ;;
        ret (Some state)
    | None =>
        emit (LogWarn ("Couldn't find a local scene state for scene " ++ sceneId)) ;;
        ret None
    end
  else
    try_catch
      (scene <- call (FetchEntityById (parcel_cid env))
                  (fun h => client_fetchEntityById env h (parcel_cid env)) ;;
       match hash_of_file (DEFINITION_FILE (CONTENT_PATH env))
                          (or_else (content scene) []) with
       | Some definitionHash =>
           definitionBuffer <- call (DownloadContent definitionHash)
                                 (fun h => client_downloadContent env h definitionHash) ;;
           definitionFile <- lift (JSON_parse_storable env definitionBuffer) ;;
           state <- lift (fromStorableFormatToSerializedState env definitionFile) ;;
           ret (Some state)
       | None =>
           emit (LogWarn
                   ("Couldn't find a definition file on the content server for the current scene ("
                    ++ parcel_cid env ++ ")")) ;;
           ret None
       end)
      (fun e =>
         emit (LogError
                 ("Failed to fetch the current scene (" ++ parcel_cid env
                  ++ ") from the content server")
                 (toString e)) ;;
         ret None).

(** [Object.entries(components).reduce(...)]: every component goes through
    the transform translator, keys kept. *)
Fixpoint transformComponents (src : option SceneSource)
    (cs : list (string * BuilderComponent))
  : M World (list (string * BuilderComponent)) :=
  match cs with
  | [] => ret []
  | (k, v) :: cs' =>
      v' <- lift (transformBuilderComponent env src v) ;;
      rest <- transformComponents src cs' ;;
      ret ((k, v') :: rest)
  end.

(** [createProjectFromStateDefinition()].  The two promises that the method
    starts and does not await (the manifest update and the publication) are
    recorded by the event of their start: their completion is not part of
    this call, and [.catch] hands their rejection to the logger. *)
Definition createProjectFromStateDefinition : M World (option SerializedSceneState) :=
  sceneJson <- gets sceneJsonData ;;
  let sceneId := parcel_sceneId env in
  let baseParcel := scene_base sceneJson in
  let parcels := scene_parcels sceneJson in
  let title_ := match display sceneJson with Some d => display_title d | None => None end in
  let description_ :=
    match display sceneJson with Some d => display_description d | None => None end in
  try_catch
    (serializedScene <- getStoredState sceneId ;;
     match serializedScene with
     | Some serializedScene =>
         identity <- getIdentity ;;
         match hash_of_file (ASSETS (CONTENT_PATH env)) (parcel_mappings env) with
         | Some assetsFileHash =>
             assetJson <- call (DownloadContent assetsFileHash)
                            (fun h => client_downloadContent env h assetsFileHash) ;;
             assets <- lift (JSON_parse_assets env assetJson) ;;
             call (AddBuilderAssets assets) (fun h => api_addBuilderAssets env h assets)
         | None => ret tt
         end ;;
         id1 <- call Uuid (fun h => Ret (uuid env h)) ;;
         id2 <- call Uuid (fun h => Ret (uuid env h)) ;;
         layout_ <- gets (fun w => match source (sceneJsonData w) with
                                   | Some s => layout s
                                   | None => None
                                   end) ;;
         made <- call (BuilderManifestFromSerializedState serializedScene)
                   (fun h => api_builderManifestFromSerializedState env h id1 id2
                               baseParcel parcels title_ description_
                               (rawAddress identity) serializedScene layout_) ;;
         match made with
         | Some made =>
             src <- gets (fun w => source (sceneJsonData w)) ;;
             modify (set_transformTranslator src) ;;
             transformed <- transformComponents src (scene_components (scene made)) ;;
             let manifest := set_scene_components transformed made in
             emit (SendBuilderProjectInfo
                     (title (project manifest)) (description (project manifest)) false) ;;
             modify (set_builderManifest (Some manifest)) ;;
             emit (SpawnUpdateProjectManifest manifest) ;;
             thumbnail <-
               match hash_of_file (SCENE_THUMBNAIL (CONTENT_PATH env))
                                  (parcel_mappings env) with
               | Some thumbnailHash =>
                   thumbnailBuffer <- call (DownloadContent thumbnailHash)
                                        (fun h => client_downloadContent env h thumbnailHash) ;;
                   ret (toString_base64 env thumbnailBuffer)
               | None => ret ""
               end ;;
             emit (SpawnPublishSceneState
                     {| arg_sceneId := sceneId;
                        arg_sceneName := title (project manifest);
                        arg_sceneDescription := description (project manifest);
                        arg_sceneScreenshot := thumbnail;
                        arg_sceneState := serializedScene |}) ;;
             ret (Some serializedScene)
         | None => ret None
         end
     | None => ret None
     end)
    (fun e =>
       emit (LogError
               ("Failed creating project from state definition at coords " ++ baseParcel)
               (toString e)) ;;
       ret None).

End Methods.

(** What the local persistent storage holds under [key] after the calls of
    [h]: the value of the latest write that succeeded. *)
Fixpoint last_saved (key : string) (h : History) : option StorableSceneState :=
  match h with
  | [] => None
  | ev :: h' =>
      match last_saved key h' with
      | Some s => Some s
      | None =>
          match ev with
          | Done (SaveToPersistentStorage k s) =>
              if String.eqb k key then Some s else None
          | _ => None
          end
      end
  end.


(** The asset references of a scene state: [a] is the [assetId] of a GLTF
    shape component of one of its entities ([undefined] and the empty
    string count as no asset id, as in the source's filter). *)
Definition carries (env : Env) (state : SerializedSceneState) (a : AssetId) : Prop :=
  exists e c,
    In e (entities state) /\ In c (components e) /\
    type c = GLTF_SHAPE env /\ assetId (value c) = Some a /\ a <> "".

End Controller.

(** ** The stateful scene worker: [StatefulWebWorkerScene.systemDidEnable]

    The worker is one JavaScript task.  It runs without interruption between
    two [await]s; while it is suspended at an [await], and after it has
    returned, the event loop may run the listeners that are registered at
    that moment.  The only listeners of interest are those that
    [rendererActor.forwardChangesTo] registers: they apply the changes made
    in the renderer to the local scene definition. *)

Module StatefulScene.
Import Js Scene.
Local Open Scope js_scope.

(** A renderer-originated change of one component of one entity. *)
Record Change : Type := {
  change_entity : string;
  change_type : Z;
  change_value : option ComponentValue
}.

Definition Land : Type := string.

Inductive Call : Type :=
| GetParcel
| GetIsEmpty
| GetInititalSceneState
| SendAssetsFromScene (definition : SceneStateDefinition)
| SendStateTo (definition : SceneStateDefinition)
| Log (message : string)
| ForwardChangesTo
| SendInitFinished
| Subscribe (event : string).

Inductive Event : Type :=
| Done (c : Call)
| Failed (c : Call) (e : Exn)
(* a listener registered by forwardChangesTo ran on a renderer change *)
| Applied (change : Change).

Definition History : Type := list Event.

Record Env : Type := {
  (* ParcelIdentity *)
  getParcel : History -> Outcome (string * Land);
  getIsEmpty : History -> Outcome bool;
  (* BuilderStatefulActor *)
  getInititalSceneState : History -> Outcome SceneStateDefinition;
  sendAssetsFromScene : History -> SceneStateDefinition -> Outcome unit;
  (* the changes the renderer delivers while the task is suspended *)
  inbound : History -> list Change;
  (* what a forwarded change does to the scene definition *)
  applyChange : Change -> SceneStateDefinition -> SceneStateDefinition
}.

Record World : Type := {
  trace : History;
  (* private sceneDefinition!: SceneStateDefinition *)
  sceneDefinition : option SceneStateDefinition;
  (* whether the listeners of forwardChangesTo are registered *)
  forwarding : bool
}.

(** The worker as it is constructed. *)
Definition fresh : World :=
  {| trace := []; sceneDefinition := None; forwarding := false |}.

Definition log (ev : Event) (w : World) : World :=
  {| trace := (trace w ++ [ev])%list;
     sceneDefinition := sceneDefinition w;
     forwarding := forwarding w |}.

Definition set_sceneDefinition (d : SceneStateDefinition) (w : World) : World :=
  {| trace := trace w; sceneDefinition := Some d; forwarding := forwarding w |}.

Definition set_forwarding (w : World) : World :=
  {| trace := trace w; sceneDefinition := sceneDefinition w; forwarding := true |}.

Definition is_signal (ev : Event) : bool :=
  match ev with Done SendInitFinished => true | _ => false end.

Definition is_subscription (ev : Event) : bool :=
  match ev with Done ForwardChangesTo => true | _ => false end.

Definition is_applied (ev : Event) : bool :=
  match ev with Applied _ => true | _ => false end.

Definition is_push (ev : Event) : bool :=
  match ev with Done (SendStateTo _) => true | _ => false end.

Definition is_backend (ev : Event) : bool :=
  match ev with
  | Done GetInititalSceneState | Failed GetInititalSceneState _
  | Done (SendAssetsFromScene _) | Failed (SendAssetsFromScene _) _ => true
  | _ => false
  end.

Definition count (p : Event -> bool) (t : History) : nat :=
  length (filter p t).

Section Worker.

Variable env : Env.

(** Modelled from the spec: [RendererStatefulActor] is not among the
    sources.  Its [forwardChangesTo] subscribes to the renderer's change
    events and applies each "directly to the Scene Graph"; so the event loop
    hands a renderer change to the forwarding listeners when they are
    registered, and to nobody before that. *)
Definition deliver (w : World) (change : Change) : World :=
  if forwarding w then
    log (Applied change)
      {| trace := trace w;
         sceneDefinition := option_map (applyChange env change) (sceneDefinition w);
         forwarding := forwarding w |}
  else w.

Definition deliver_all (changes : list Change) (w : World) : World :=
  fold_left deliver changes w.

(** A synchronous call on a collaborator. *)
Definition emit (c : Call) : M World unit :=
  fun w => (Ret tt, log (Done c) w).

(** [await] of a collaborator's promise: the task is suspended, the event
    loop delivers what the renderer sent meanwhile, then the promise
    settles. *)
Definition await {A} (c : Call) (o : History -> Outcome A) : M World A :=
  fun w =>
    let w1 := deliver_all (inbound env (trace w)) w in
    let r := o (trace w1) in
    (r, log (match r with Ret _ => Done c | Throw e => Failed c e end) w1).

(** [private listenToEvents(sceneId)]: three subscriptions to the scene's
    state events (publish, save, save project info). *)
Definition listenToEvents : M World unit :=
  emit (Subscribe "stateEvent") ;;
  emit (Subscribe "stateEvent") ;;
  emit (Subscribe "stateEvent").

(** [async systemDidEnable()] *)
Definition systemDidEnable : M World unit :=
  parcel <- await GetParcel (getParcel env) ;;
  isEmpty <- await GetIsEmpty (getIsEmpty env) ;;
  (if negb isEmpty then
     definition <- await GetInititalSceneState (getInititalSceneState env) ;;
     modify (set_sceneDefinition definition) ;;
     await (SendAssetsFromScene definition)
       (fun h => sendAssetsFromScene env h definition) ;;
     emit (SendStateTo definition) ;;
     emit (Log "Sent initial load")
   else
     modify (set_sceneDefinition new_SceneStateDefinition)) ;;
  emit ForwardChangesTo ;;
  modify set_forwarding ;;
  emit SendInitFinished ;;
  listenToEvents.

(** The life of the worker: initialization, then the changes the renderer
    sends afterwards. *)
Definition session (later : list Change) : Outcome unit * World :=
  let (r, w) := systemDidEnable fresh in
  (r, deliver_all later w).

End Worker.

End StatefulScene.

(** ** The storable format *)

Module StorableSceneStateTranslation.
Import Js Scene.

(** The components of an entity in the canonical order of the storable
    format: by component type, components of one type in their given
    order. *)
Fixpoint insert_component (c : Component) (cs : list Component) : list Component :=
  match cs with
  | [] => [c]
  | d :: cs' =>
      if (type c <=? type d)%Z then c :: cs else d :: insert_component c cs'
  end.

Definition canonical_components (cs : list Component) : list Component :=
  fold_right insert_component [] cs.

Definition canonical_entity (e : SerializedEntity) : SerializedEntity :=
  {| id := id e; components := canonical_components (components e) |}.

(** Modelled from the spec: [fromSerializedStateToStorableFormat] lives in
    [./StorableSceneStateTranslation], which is not among the sources.  The
    storable format "differs from wire format only in being suitable for
    stable hashing (deterministic key ordering)": the entities are kept, and
    the components of each entity are put in a deterministic order. *)
Definition fromSerializedStateToStorableFormat (state : SerializedSceneState)
  : StorableSceneState :=
  {| storable_entities := List.map canonical_entity (entities state) |}.

(** Modelled from the spec: [fromStorableFormatToSerializedState], from the
    same missing file.  The storable document is read back as a wire
    state. *)
Definition fromStorableFormatToSerializedState (state : StorableSceneState)
  : SerializedSceneState :=
  {| entities := storable_entities state |}.

(** Two wire states are structurally equivalent modulo component ordering:
    the same entities in the same order, each with the same components up
    to a permutation. *)
Definition equivalent_entity (e e' : SerializedEntity) : Prop :=
  id e = id e' /\ Permutation (components e) (components e').

Definition equivalent (s s' : SerializedSceneState) : Prop :=
  Forall2 equivalent_entity (entities s) (entities s').

Fixpoint sorted_by_type (cs : list Component) : Prop :=
  match cs with
  | [] => True
  | c :: cs' =>
      match cs' with
      | [] => True
      | d :: _ => (type c <= type d)%Z
      end /\ sorted_by_type cs'
  end.

End StorableSceneStateTranslation.

(** ** Concrete scenes and environments

    The scene of the specification's scenarios (entity [E1] with a
    transform, entity [E2] with a shape that refers to asset ["abc"]) and a
    family of environments in which every collaborator answers, apart from
    what the five switches select: the DEBUG flag, the signed-in identity,
    the outcome of a manifest update, the outcome of an asset fetch, and
    whether the translator to the builder format answers with a manifest of
    its own or with the manifest it was handed. *)

Module Samples.
Import Js Scene Controller.

Definition paths : ContentPath :=
  {| DEFINITION_FILE := "scene-state-definition.json";
     BUNDLED_GAME_FILE := "bin/game.js";
     SCENE_FILE := "scene.json";
     SCENE_THUMBNAIL := "scene-thumbnail.png";
     ASSETS := "assets.json";
     MODELS_FOLDER := "models" |}.

Definition transform : Component :=
  {| type := 1; value := {| assetId := None; payload := "position (0,0,0)" |} |}.

Definition shape : Component :=
  {| type := 54; value := {| assetId := Some "abc"; payload := "src" |} |}.

Definition two_entities : SerializedSceneState :=
  {| entities := [ {| id := "E1"; components := [transform] |};
                   {| id := "E2"; components := [shape] |} ] |}.

Definition alice : ExplorerIdentity :=
  {| rawAddress := "0xa11ce"; credentials := "key" |}.

Definition manifest : BuilderManifest :=
  {| project := {| project_id := "p1";
                   title := "Plaza";
                   description := "A plaza";
                   creation_coords := Some "0,0" |};
     scene := {| scene_components := []; scene_rest := "" |} |}.

Definition sceneJson : SceneJson :=
  {| display := None;
     source := None;
     scene_base := "0,0";
     scene_parcels := ["0,0"];
     json_rest := "" |}.

Definition abc : Asset :=
  {| asset_id := "abc";
     baseUrl := "https://builder/contents";
     mappings := [ {| file := "abc/model.glb"; hash := "Qm1" |} ] |}.

Definition env (debug : bool) (identity : option ExplorerIdentity)
    (update : Outcome unit) (fetched : Outcome Response) (echo : bool) : Env :=
  {| DEBUG := debug;
     CONTENT_PATH := paths;
     GLTF_SHAPE := 54;
     getCurrentIdentity := fun _ => identity;
     parcel_cid := "cid";
     parcel_sceneId := "scene";
     parcel_mappings := [];
     api_getBuilderManifestFromProjectId := fun _ _ _ => Ret (Some manifest);
     api_getBuilderManifestFromLandCoordinates := fun _ _ _ => Ret (Some manifest);
     api_createProjectWithCoords := fun _ _ _ => Ret manifest;
     api_updateProjectManifest := fun _ _ _ => update;
     api_updateProjectThumbnail := fun _ _ _ _ => Ret tt;
     api_getBuilderAssets := fun _ ids => Ret ids;
     api_getConvertedAssets := fun _ ids => Ret (List.map (fun a => (a, abc)) ids);
     api_addBuilderAssets := fun _ _ => Ret tt;
     api_builderManifestFromSerializedState :=
       fun _ _ _ _ _ _ _ _ _ _ => Ret (Some manifest);
     fromBuildertoStateDefinitionFormat := fun _ _ => Ret [];
     toBuilderFromStateDefinitionFormat :=
       fun _ _ current _ =>
         Ret (if echo then match current with Some m => m | None => manifest end
              else manifest);
     shares_project :=
       fun h => echo && match rev h with
                        | Done ToBuilderFromStateDefinitionFormat :: _ => true
                        | _ => false
                        end;
     deserializeSceneState :=
       fun s => Ret (List.map (fun e => (id e, components e)) (entities s));
     fromSerializedStateToStorableFormat :=
       fun s => Ret (StorableSceneStateTranslation.fromSerializedStateToStorableFormat s);
     fromStorableFormatToSerializedState :=
       fun s => Ret (StorableSceneStateTranslation.fromStorableFormatToSerializedState s);
     transformBuilderComponent := fun _ c => Ret c;
     createGameFile := fun _ _ => Ret "game";
     base64ToBlob := fun s => Ret s;
     JSON_parse_storable := fun _ => Ret {| storable_entities := [] |};
     JSON_parse_assets := fun _ => Ret [];
     serializeSceneState :=
       fun d => {| entities :=
                     List.map (fun e => {| id := fst e; components := snd e |}) d |};
     getLayoutFromParcels := fun _ => "1x1";
     JSON_stringify_storable := fun _ => "definition";
     JSON_stringify_sceneJson := fun _ => "scene";
     JSON_stringify_assets := fun _ => "assets";
     toString_base64 := fun b => b;
     uuid := fun _ => "uuid";
     fetch := fun _ _ => fetched;
     response_blob := fun _ r => Ret (response_body r);
     blobToBuffer := fun _ b => Ret b;
     first_rejection := fun _ => 0;
     undefined_read_message :=
       fun property =>
         "Cannot read properties of undefined (reading '" ++ property ++ "')";
     client_buildEntity := fun _ _ files _ => Ret (files, "entity");
     signPayload := fun _ _ => Ret "signature";
     client_deployEntity := fun _ _ _ _ => Ret tt;
     client_fetchEntityById := fun _ _ => Ret {| content := None |};
     client_downloadContent := fun _ _ => Ret "bytes";
     saveToPersistentStorage := fun _ _ _ => Ret tt;
     getFromPersistentStorage := fun h key => Ret (last_saved key h) |}.

(** The response of a server that has the file. *)
Definition found : Response :=
  {| response_status := 200; response_body := "response" |}.

(** The response of a server that does not have it. *)
Definition not_found : Response :=
  {| response_status := 404; response_body := "Not Found" |}.

(** Everything answers and [alice] is signed in. *)
Definition online : Env := env false (Some alice) (Ret tt) (Ret found) false.

(** Nobody is signed in. *)
Definition signed_out : Env := env false None (Ret tt) (Ret found) false.



(** Asset files cannot be fetched. *)
Definition no_downloads : Env :=
  env false (Some alice) (Ret tt) (Throw (Error "Failed to fetch")) false.

(** The builder server rejects manifest updates. *)
Definition no_updates : Env :=
  env false (Some alice) (Throw (Error "Failed to fetch")) (Ret found) false.

(** The asset files are gone: the server answers every download with 404. *)
Definition missing_files : Env :=
  env false (Some alice) (Ret tt) (Ret not_found) false.

(** The translator to the builder format answers with the manifest it was
    handed. *)
Definition echoing : Env := env false (Some alice) (Ret tt) (Ret found) true.


(** The bundle and the metadata that publishing [two_entities] as "Plaza"
    hands to [buildEntity] when everything answers. *)
Definition bundle : JsMap Buffer :=
  [ ("scene-state-definition.json", "definition");
    ("bin/game.js", "game");
    ("scene.json", "scene");
    ("scene-thumbnail.png", "shot");
    ("assets.json", "assets");
    ("models/abc/model.glb", "response") ].

(** The bundle of the same publication when the server answers the
    download of the model with [not_found]. *)
Definition broken_bundle : JsMap Buffer :=
  [ ("scene-state-definition.json", "definition");
    ("bin/game.js", "game");
    ("scene.json", "scene");
    ("scene-thumbnail.png", "shot");
    ("assets.json", "assets");
    ("models/abc/model.glb", "Not Found") ].

Definition published : SceneJson :=
  set_display {| display_title := Some "Plaza";
                 display_description := Some "A plaza";
                 navmapThumbnail := Some "scene-thumbnail.png" |} sceneJson.

Definition metadata : SceneJson * SceneDeploymentSourceMetadata :=
  (published, sourceMetadata online "p1" published).

(** A controller that has a project loaded. *)
Definition world : World :=
  {| trace := [];
     builderManifest := Some manifest;
     transformTranslator := Some None;
     sceneJsonData := sceneJson |}.

(** A worker environment: the parcel is empty or holds one entity; the
    renderer sends [sent] while the worker waits for [getIsEmpty]. *)
Definition edit : StatefulScene.Change :=
  {| StatefulScene.change_entity := "E1";
     StatefulScene.change_type := 1;
     StatefulScene.change_value := None |}.

Definition worker (empty : bool) (sent : list StatefulScene.Change)
  : StatefulScene.Env :=
  {| StatefulScene.getParcel := fun _ => Ret ("cid", "land");
     StatefulScene.getIsEmpty := fun _ => Ret empty;
     StatefulScene.getInititalSceneState := fun _ => Ret [("E1", [transform])];
     StatefulScene.sendAssetsFromScene := fun _ _ => Ret tt;
     StatefulScene.inbound :=
       fun h => match h with
                | [StatefulScene.Done StatefulScene.GetParcel] => sent
                | _ => []
                end;
     StatefulScene.applyChange := fun _ d => d |}.

End Samples.

(** ** Further observations on the controller's traces *)

Module Observations.
Import Js Scene Controller.

(** Messages to the renderer, through [getUnityInstance()]. *)
Definition is_renderer (c : Call) : bool :=
  match c with
  | SendBuilderProjectInfo _ _ _ | SendPublishSceneResult _ | SendSceneAssets _ => true
  | _ => false
  end.

(** Lines written through [defaultLogger]. *)
Definition is_logged (c : Call) : bool :=
  match c with LogError _ _ | LogWarn _ => true | _ => false end.

Definition is_manifestUpdate (c : Call) : bool :=
  match c with UpdateProjectManifest _ => true | _ => false end.

Definition is_thumbnailUpdate (c : Call) : bool :=
  match c with UpdateProjectThumbnail _ _ => true | _ => false end.

(** An [updateProjectManifest] that resolved. *)
Definition is_manifestUpdated (ev : Event) : bool :=
  match ev with Done (UpdateProjectManifest _) => true | _ => false end.

(** Requests that create or change something on the builder server. *)
Definition is_builderWrite (c : Call) : bool :=
  match c with
  | ApiCreateProjectWithCoords _
  | UpdateProjectManifest _
  | UpdateProjectThumbnail _ _
  | SpawnUpdateProjectManifest _ => true
  | _ => false
  end.

(** The promises a method starts and leaves behind. *)
Definition is_spawn (c : Call) : bool :=
  match c with
  | SpawnUpdateProjectManifest _ | SpawnPublishSceneState _ => true
  | _ => false
  end.



(** The translation to the builder's format resolved. *)
Definition is_translated (ev : Event) : bool :=
  match ev with Done ToBuilderFromStateDefinitionFormat => true | _ => false end.


(** The controller's own fields are the same in both worlds. *)
Definition same_fields (w w' : World) : Prop :=
  builderManifest w' = builderManifest w /\
  transformTranslator w' = transformTranslator w /\
  sceneJsonData w' = sceneJsonData w.

(** [m'] is [m] with the title and the description of its project
    replaced by [t] and [d], and nothing else changed. *)
Definition retitled (t d : string) (m m' : BuilderManifest) : Prop :=
  title (project m') = t /\
  description (project m') = d /\
  project_id (project m') = project_id (project m) /\
  creation_coords (project m') = creation_coords (project m) /\
  scene m' = scene m.


(** The download tasks of [entries], started at the history [h] and all of
    them fulfilled: the events [devs] they leave, task after task, and the
    entries [models] they return, each the path of its task with the buffer
    that [blobToBuffer] made of the body of the response to the task's
    url. *)
Fixpoint downloaded (env : Env) (h : History) (entries : list (string * string))
    (devs : History) (models : list (string * Buffer)) : Prop :=
  match entries, models with
  | [], [] => devs = []
  | (path, url) :: entries', (path', buffer) :: models' =>
      path' = path /\
      exists response blob devs',
        fetch env h url = Ret response /\
        response_blob env (h ++ [Done (Fetch url)])%list response = Ret blob /\
        blobToBuffer env (h ++ [Done (Fetch url); Done (ResponseBlob url)])%list blob
        = Ret buffer /\
        devs = Done (Fetch url) :: Done (ResponseBlob url) :: Done (BlobToBuffer blob)
               :: devs' /\
        downloaded env
          (h ++ [Done (Fetch url); Done (ResponseBlob url); Done (BlobToBuffer blob)])%list
          entries' devs' models'
  | _, _ => False
  end.

(** Between [w] and [w'] the project [m] was made the controller's current
    project, after the one [request] to the builder server, and the
    renderer was told its title and description. *)
Definition installed (w w' : World) (request : Call) (m : BuilderManifest)
    (isNewEmptyProject : bool) : Prop :=
  builderManifest w' = Some m /\
  transformTranslator w' = Some (source (sceneJsonData w)) /\
  sceneJsonData w' = sceneJsonData w /\
  events_since w w'
  = [ Done request;
      Done (SendBuilderProjectInfo (title (project m)) (description (project m))
              isNewEmptyProject) ].

End Observations.


(** ** Looking a path up in the gathered mappings *)

Module MapLookup.
Import Js Scene Controller.

(** [Map.prototype.get] *)
Fixpoint map_get {V} (k : string) (m : JsMap V) : option V :=
  match m with
  | [] => None
  | (k', v) :: m' => if String.eqb k' k then Some v else map_get k m'
  end.

(** The value of the last entry of a list that has the key [k]. *)
Fixpoint last_bound {V} (k : string) (entries : list (string * V)) : option V :=
  match entries with
  | [] => None
  | (k', v) :: rest =>
      match last_bound k rest with
      | Some v' => Some v'
      | None => if String.eqb k' k then Some v else None
      end
  end.

(** The pairs of path and url that the loops of [downloadAssetFiles] pass
    to [allMappings.set], in the order of the calls: asset after asset, and
    within an asset mapping after mapping. *)
Definition asset_files (env : Env) (assets : JsMap Asset) : list (string * string) :=
  flat_map
    (fun asset =>
       List.map (fun fh => (MODELS_FOLDER (CONTENT_PATH env) ++ "/" ++ file fh,
                            baseUrl asset ++ "/" ++ hash fh))
                (mappings asset))
    (map_values assets).

End MapLookup.

(** ** Further sample situations *)

Module Scenarios.
Import Js Scene Controller.

(** A controller that has no project yet. *)
Definition unloaded : World :=
  {| trace := [];
     builderManifest := None;
     transformTranslator := None;
     sceneJsonData := Samples.sceneJson |}.

(** Two assets that both ship a file named [model.glb]. *)
Definition chair : Asset :=
  {| asset_id := "chair";
     baseUrl := "https://builder/contents";
     mappings := [ {| file := "model.glb"; hash := "QmChair" |};
                   {| file := "chair.png"; hash := "QmWood" |} ] |}.

Definition table : Asset :=
  {| asset_id := "table";
     baseUrl := "https://builder/contents";
     mappings := [ {| file := "model.glb"; hash := "QmTable" |} ] |}.

Definition furniture : JsMap Asset := [("chair", chair); ("table", table)].

End Scenarios.


(** ** [blobToBuffer]: a promise around a node-style callback *)

Module Promises.
Import Js Scene Controller.

(** The state of a promise.  It settles once: [resolve] and [reject] do
    nothing to a promise that is settled. *)
Inductive Settlement (A : Type) : Type :=
| Pending
| Fulfilled (a : A)
| Rejected (e : Exn).
Arguments Pending {A}.
Arguments Fulfilled {A} a.
Arguments Rejected {A} e.

Definition resolve {A} (a : A) (s : Settlement A) : Settlement A :=
  match s with Pending => Fulfilled a | _ => s end.

Definition reject {A} (e : Exn) (s : Settlement A) : Settlement A :=
  match s with Pending => Rejected e | _ => s end.

(** One invocation of the callback by [toBuffer]: [err] is an error or
    [null]; [buffer] is [undefined] when there is an error. *)
Record Invocation : Type := {
  err : option Exn;
  buffer : option Buffer
}.

(** [(err, buffer) => { if (err) reject(err); resolve(buffer) }] *)
Definition callback (i : Invocation) (s : Settlement (option Buffer))
  : Settlement (option Buffer) :=
  let s' := match err i with
            | Some e => reject e s
            | None => s
            end in
  resolve (buffer i) s'.

(** [blobToBuffer(blob)], given what [toBuffer] does with the blob: it
    throws at once, inside the executor, or it returns and invokes the
    callback some number of times. *)
Definition blobToBuffer (toBuffer : Blob -> Outcome (list Invocation)) (blob : Blob)
  : Settlement (option Buffer) :=
  match toBuffer blob with
  | Throw e => reject e Pending
  | Ret invocations => fold_left (fun s i => callback i s) invocations Pending
  end.

End Promises.

(** ** The listeners of [listenToEvents] *)

Module StateEvents.
Import Js Scene.
Local Open Scope js_scope.

(** The payload of a state event, as far as the listeners read it. *)
Record Payload : Type := {
  payload_title : string;
  payload_description : string;
  payload_screenshot : string
}.

(** [data] of a ['stateEvent']; a payload may be missing. *)
Record StateEvent : Type := {
  event_type : string;
  event_payload : option Payload
}.

(** The requests to the [SceneStateStorageController], over RPC. *)
Inductive Request : Type :=
| PublishSceneState (sceneId title description screenshot : string)
    (state : SerializedSceneState)
| SaveSceneState (state : SerializedSceneState)
| SaveProjectInfo (state : SerializedSceneState) (title description screenshot : string).

Inductive Event : Type :=
(* a request was made; its promise settled this way *)
| Fulfilled (r : Request)
| Rejected (r : Request) (e : Exn)
(* this.devToolsAdapter.error(error) *)
| DevToolsError (e : Exn)
(* defaultLogger.error(context, error) *)
| LoggerError (context : string) (e : Exn).

Definition History : Type := list Event.

Record Env : Type := {
  serializeSceneState : SceneStateDefinition -> SerializedSceneState;
  (* how the promise of a request settles; a value it resolves to is not
     looked at *)
  settle : History -> Request -> Outcome unit
}.

Record World : Type := {
  trace : History;
  (* private sceneDefinition, assigned by systemDidEnable before the
     listeners are registered *)
  sceneDefinition : SceneStateDefinition;
  (* whether this.devToolsAdapter is set *)
  devToolsAdapter : bool
}.

Definition log (ev : Event) (w : World) : World :=
  {| trace := (trace w ++ [ev])%list;
     sceneDefinition := sceneDefinition w;
     devToolsAdapter := devToolsAdapter w |}.

(** The events that were added to the trace between two worlds. *)
Definition added (w w' : World) : History :=
  skipn (length (trace w)) (trace w').

Definition is_request (ev : Event) : bool :=
  match ev with Fulfilled _ | Rejected _ _ => true | _ => false end.

Definition is_report (ev : Event) : bool :=
  match ev with DevToolsError _ | LoggerError _ _ => true | _ => false end.

Definition is_loggerError (ev : Event) : bool :=
  match ev with LoggerError _ _ => true | _ => false end.

Definition request_of (ev : Event) : option Request :=
  match ev with
  | Fulfilled r | Rejected r _ => Some r
  | _ => None
  end.

Section Listeners.

Variable env : Env.

(** [private error(context, error)] *)
Definition error (context : string) (e : Exn) : M World unit :=
  adapter <- gets devToolsAdapter ;;
  if adapter
  then (fun w => (Ret tt, log (DevToolsError e) w))
  else (fun w => (Ret tt, log (LoggerError context e) w)).

(** [this.sceneStateStorage.<request>.catch((error) => this.error(context,
    error))]: the listener does not wait; the handler of [catch] runs when
    the promise is rejected. *)
Definition request (r : Request) (context : string) : M World unit :=
  fun w =>
    match settle env (trace w) r with
    | Ret _ => (Ret tt, log (Fulfilled r) w)
    | Throw e => error context e (log (Rejected r e) w)
    end.

(** [payload.<property>] *)
Definition read_payload (payload : option Payload) : M World Payload :=
  match payload with
  | Some p => ret p
  | None => throw (TypeError "Cannot read properties of undefined")
  end.

(** The first listener: publish requests. *)
Definition onPublish (sceneId : string) (data : StateEvent) : M World unit :=
  if String.eqb (event_type data) "PublishSceneState" then
    p <- read_payload (event_payload data) ;;
    definition <- gets sceneDefinition ;;
    request (PublishSceneState sceneId (payload_title p) (payload_description p)
               (payload_screenshot p) (serializeSceneState env definition))
      "Failed to store the scene's state"
  else ret tt.

(** The second listener: save scene requests. *)
Definition onSave (data : StateEvent) : M World unit :=
  if String.eqb (event_type data) "SaveSceneState" then
    definition <- gets sceneDefinition ;;
    request (SaveSceneState (serializeSceneState env definition))
      "Failed to save the scene's manifest"
  else ret tt.

(** The third listener: save project info requests.  The scene is
    serialized before the payload is read. *)
Definition onSaveInfo (data : StateEvent) : M World unit :=
  if String.eqb (event_type data) "SaveProjectInfo" then
    definition <- gets sceneDefinition ;;
    let state := serializeSceneState env definition in
    p <- read_payload (event_payload data) ;;
    request (SaveProjectInfo state (payload_title p) (payload_description p)
               (payload_screenshot p))
      "Failed to save the scene's info"
  else ret tt.

(** A state event reaches the three listeners in the order of their
    registration. *)
Definition stateEvent (sceneId : string) (data : StateEvent) : M World unit :=
  onPublish sceneId data ;;
  onSave data ;;
  onSaveInfo data.

End Listeners.

End StateEvents.

(** ** Social ids ([shared/friends/sagas.ts])

    A social id has the form [@ethAddress:server]; the user id is the
    address. *)

Module SocialIds.
Import Js.

(** [\w]: an ASCII letter, a digit or the underscore. *)
Definition is_word (c : ascii) : bool :=
  let n := nat_of_ascii c in
  ((48 <=? n) && (n <=? 57) || (65 <=? n) && (n <=? 90)
   || (97 <=? n) && (n <=? 122) || (n =? 95))%nat.

Fixpoint all_word (s : string) : bool :=
  match s with
  | EmptyString => true
  | String c s' => is_word c && all_word s'
  end.

(** The longest run of word characters at the head of a string, and what
    follows it: what a greedy [\w+] consumes. *)
Fixpoint word_run (s : string) : string * string :=
  match s with
  | EmptyString => (EmptyString, EmptyString)
  | String c s' =>
      if is_word c
      then let (run, rest) := word_run s' in (String c run, rest)
      else (EmptyString, s)
  end.

(** [s.match(/@(\w+):.*/)], by its first group.  The expression is tried at
    every position from the left; at a position it needs ["@"], then at
    least one word character, then [":"].  The greedy run cannot give back
    characters to any avail, since what it gives back is a word character
    and not [":"]; [.*] matches whatever follows, also nothing. *)
Fixpoint match_social (s : string) : option string :=
  match s with
  | EmptyString => None
  | String c s' =>
      if Ascii.eqb c "@"
      then match word_run s' with
           | (String a run, String d _) =>
               if Ascii.eqb d ":" then Some (String a run) else match_social s'
           | _ => match_social s'
           end
      else match_social s'
  end.

Definition could_not_match : string :=
  "Could not match social id with ethereum address, this should not happen".

(** [parseUserId(socialId)], with the warnings it logs. *)
Definition parseUserId (socialId : string) : option string * list string :=
  match match_social socialId with
  | Some userId => (Some userId, [])
  | None => (None, [could_not_match])
  end.

Record SocialData : Type := {
  userId : string;
  socialId : string;
  conversationId : option string
}.

(** [!!userId] *)
Definition truthy (userId : option string) : bool :=
  match userId with
  | Some u => negb (is_empty u)
  | None => false
  end.

(** [toSocialData(socialIds)], with the warnings it logs: the [map] parses
    every id, the [filter] keeps the ids that gave a user id. *)
Fixpoint toSocialData (socialIds : list string) : list SocialData * list string :=
  match socialIds with
  | [] => ([], [])
  | socialId :: rest =>
      let (parsed, warned) := parseUserId socialId in
      let (kept, warnings) := toSocialData rest in
      (match parsed with
       | Some u =>
           if truthy parsed
           then {| userId := u; socialId := socialId; conversationId := None |} :: kept
           else kept
       | None => kept
       end,
       (warned ++ warnings)%list)
  end.

(** [`@${x}:${domain}`], the social id that [initializeStatusUpdateInterval]
    makes of a friend's user id. *)
Definition socialIdOf (domain x : string) : string :=
  "@" ++ x ++ ":" ++ domain.

End SocialIds.

(** ** The user's own status ([initializeStatusUpdateInterval])

    [sendOwnStatusIfNecessary] is called with every position report and
    with every change of realm; it keeps the last report it sent in
    [lastStatus]. *)

Module OwnStatus.
Import Js.

Definition SEND_STATUS_INTERVAL_MILLIS : Z := 5000.

Section Throttle.

(** World positions, grid positions and realms are not looked into. *)
Variables Position Grid Realm : Type.

(** [worldToGrid] of [atomicHelpers/parcelScenePositions] and [deepEqual]
    of [atomicHelpers/deepEqual], at the two types they are used at. *)
Variable worldToGrid : Position -> Grid.
Variable deepEqual_position : Grid -> Grid -> bool.
Variable deepEqual_realm : Realm -> option Realm -> bool.
Variable catalystName : Realm -> string.

(** How [client.setStatus] settles. *)
Variable setStatus_settles : string -> Grid -> Outcome unit.

(** [type StatusReport]; time stamps are [Date.now()], whole milliseconds. *)
Record StatusReport : Type := {
  worldPosition : Position;
  realm : option Realm;
  timestamp : Z
}.

(** What is done with a report. *)
Inductive Event : Type :=
(* client.setStatus({realm: {layer: '', serverName}, position, presence: ONLINE}) *)
| SetStatus (report : StatusReport) (serverName : string) (position : Grid)
(* logger.error(`error while setting status`, e), from the catch *)
| LogError (e : Exn).

Definition settle (serverName : string) (position : Grid) : list Event :=
  match setStatus_settles serverName position with
  | Ret _ => []
  | Throw e => [LogError e]
  end.

(** [sendOwnStatusIfNecessary(status)]: the events, and [lastStatus]
    afterwards. *)
Definition sendOwnStatusIfNecessary
    (lastStatus : option StatusReport) (status : StatusReport)
  : list Event * option StatusReport :=
  match realm status with
  | None => ([], lastStatus)
  | Some r =>
      let position := worldToGrid (worldPosition status) in
      let skipped :=
        match lastStatus with
        | Some last =>
            if (timestamp status <? timestamp last + SEND_STATUS_INTERVAL_MILLIS)%Z
            then true
            else deepEqual_position position (worldToGrid (worldPosition last))
                 && deepEqual_realm r (realm last)
        | None => false
        end in
      if skipped then ([], lastStatus)
      else (SetStatus status (catalystName r) position
              :: settle (catalystName r) position,
            Some status)
  end.

(** The reports in the order they arrive. *)
Fixpoint reports_arrive (lastStatus : option StatusReport) (reports : list StatusReport)
  : list Event * option StatusReport :=
  match reports with
  | [] => ([], lastStatus)
  | status :: later =>
      let (events, lastStatus') := sendOwnStatusIfNecessary lastStatus status in
      let (events', final) := reports_arrive lastStatus' later in
      ((events ++ events')%list, final)
  end.

(** The reports for which a status was sent. *)
Fixpoint sent (events : list Event) : list StatusReport :=
  match events with
  | [] => []
  | SetStatus report _ _ :: later => report :: sent later
  | LogError _ :: later => sent later
  end.

(** [b] may be sent after [a]: at least the interval later, and from
    another grid position or in another realm. *)
Definition may_follow (a b : StatusReport) : Prop :=
  (timestamp a + SEND_STATUS_INTERVAL_MILLIS <= timestamp b)%Z /\
  exists r,
    realm b = Some r /\
    deepEqual_position (worldToGrid (worldPosition b)) (worldToGrid (worldPosition a))
    && deepEqual_realm r (realm a) = false.

End Throttle.

(** Every element is related to the next. *)
Fixpoint chain {A} (R : A -> A -> Prop) (l : list A) : Prop :=
  match l with
  | a :: ((b :: _) as later) => R a b /\ chain R later
  | _ => True
  end.

(** [sub] holds elements of [l], in the order of [l]. *)
Fixpoint subsequence {A} (sub l : list A) : Prop :=
  match sub, l with
  | [], _ => True
  | _ :: _, [] => False
  | a :: sub', b :: l' => (a = b /\ subsequence sub' l') \/ subsequence sub l'
  end.

End OwnStatus.

(** ** Friendship updates ([handleUpdateFriendship])

    The saga runs for every [UPDATE_FRIENDSHIP] action, once the social
    client is logged in.  [state] is the object the store holds: what the
    saga writes into its arrays and objects is written into the store. *)

Module Friendship.
Import Js SocialIds.
Local Open Scope js_scope.

Inductive FriendshipAction : Type :=
| NONE
| APPROVED
| REJECTED
| CANCELED
| REQUESTED_FROM
| REQUESTED_TO
| DELETED.

(** The friends slice of the store, without the client. *)
Record FriendsState : Type := {
  socialInfo : JsMap SocialData;
  friends : list string;
  fromFriendRequests : list string;
  toFriendRequests : list string
}.

Record Profile : Type := {
  name : option string
}.

Inductive Call : Type :=
(* SocialAPI *)
| CreateDirectConversation (socialId : string)
| ApproveFriendshipRequestFrom (socialId : string)
| RejectFriendshipRequestFrom (socialId : string)
| CancelFriendshipRequestTo (socialId : string)
| AddAsFriend (socialId : string)
| DeleteFriendshipWith (socialId : string)
(* logger.error *)
| LoggerError (message detail : string)
(* put(updatePrivateMessagingState(newState)) *)
| Put (newState : FriendsState)
(* call(waitForRendererInstance) *)
| WaitForRendererInstance
(* getUnityInstance() *)
| UpdateFriendshipStatus (action : FriendshipAction) (userId : string)
| ShowNotification (message : string)
(* updateUserStatus(client, socialId) *)
| UpdateUserStatus (socialId : string)
(* delay(500) *)
| Delay (ms : Z)
(* call(initializeFriends, client) *)
| InitializeFriends
| EnsureFriendProfile (userId : string).

Inductive Event : Type :=
| Done (c : Call)
| Failed (c : Call) (e : Exn).

Definition History : Type := list Event.

Definition call_of (ev : Event) : Call :=
  match ev with Done c => c | Failed c _ => c end.

Record Env : Type := {
  (* the selector findByUserId and the reducer of
     updatePrivateMessagingState, which are not among the sources *)
  findByUserId : FriendsState -> string -> option SocialData;
  reduce : FriendsState -> FriendsState -> FriendsState;
  (* e instanceof UnknownUsersError *)
  isUnknownUsersError : Exn -> bool;
  (* SocialAPI *)
  createDirectConversation : History -> string -> Outcome string;
  approveFriendshipRequestFrom : History -> string -> Outcome unit;
  rejectFriendshipRequestFrom : History -> string -> Outcome unit;
  cancelFriendshipRequestTo : History -> string -> Outcome unit;
  addAsFriend : History -> string -> Outcome unit;
  deleteFriendshipWith : History -> string -> Outcome unit;
  (* sagas and helpers that are called as a whole *)
  waitForRendererInstance : History -> Outcome unit;
  updateUserStatus : History -> string -> Outcome unit;
  initializeFriends : History -> Outcome unit;
  ensureFriendProfile : History -> string -> Outcome (option Profile)
}.

Record World : Type := {
  trace : History;
  store : FriendsState
}.

Definition log (ev : Event) (w : World) : World :=
  {| trace := (trace w ++ [ev])%list; store := store w |}.

Definition set_store (s : FriendsState) (w : World) : World :=
  {| trace := trace w; store := s |}.

Definition added (w w' : World) : History :=
  skipn (length (trace w)) (trace w').

Definition call {A} (c : Call) (o : History -> Outcome A) : M World A :=
  fun w =>
    let r := o (trace w) in
    (r, log (match r with Ret _ => Done c | Throw e => Failed c e end) w).

Definition emit (c : Call) : M World unit :=
  call c (fun _ => Ret tt).

(** [array.includes(x)], and [array.indexOf(x)] followed by
    [array.splice(index, 1)]. *)
Definition includes (x : string) (l : list string) : bool :=
  existsb (String.eqb x) l.

Fixpoint remove_first (x : string) (l : list string) : list string :=
  match l with
  | [] => []
  | y :: l' => if String.eqb y x then l' else y :: remove_first x l'
  end.

Definition set_friends (l : list string) (s : FriendsState) : FriendsState :=
  {| socialInfo := socialInfo s;
     friends := l;
     fromFriendRequests := fromFriendRequests s;
     toFriendRequests := toFriendRequests s |}.

Definition set_fromFriendRequests (l : list string) (s : FriendsState) : FriendsState :=
  {| socialInfo := socialInfo s;
     friends := friends s;
     fromFriendRequests := l;
     toFriendRequests := toFriendRequests s |}.

Definition set_toFriendRequests (l : list string) (s : FriendsState) : FriendsState :=
  {| socialInfo := socialInfo s;
     friends := friends s;
     fromFriendRequests := fromFriendRequests s;
     toFriendRequests := l |}.

Definition set_socialInfo (i : JsMap SocialData) (s : FriendsState) : FriendsState :=
  {| socialInfo := i;
     friends := friends s;
     fromFriendRequests := fromFriendRequests s;
     toFriendRequests := toFriendRequests s |}.

(** ['toFriendRequests'] or ['fromFriendRequests'], as a selector of the
    state. *)
Inductive Selector : Type :=
| ToFriendRequests
| FromFriendRequests.

Definition selected (sel : Selector) (s : FriendsState) : list string :=
  match sel with
  | ToFriendRequests => toFriendRequests s
  | FromFriendRequests => fromFriendRequests s
  end.

Definition set_selected (sel : Selector) (l : list string) (s : FriendsState)
  : FriendsState :=
  match sel with
  | ToFriendRequests => set_toFriendRequests l s
  | FromFriendRequests => set_fromFriendRequests l s
  end.

Section Saga.

Variable env : Env.

(** [newState.friends.push(userId)]: [newState] was made by a spread of
    [state], so its [friends] is the array of the store, and the push is
    seen there at once. *)
Definition push_friend (userId : string) (newState : FriendsState)
  : M World FriendsState :=
  modify (fun w => set_store (set_friends (friends (store w) ++ [userId])%list (store w)) w) ;;
  ret (set_friends (friends newState ++ [userId])%list newState).

(** [newState.socialInfo[userId] = data]: the same for the object
    [socialInfo]. *)
Definition write_socialInfo (userId : string) (data : SocialData)
    (newState : FriendsState) : M World FriendsState :=
  modify (fun w =>
            set_store (set_socialInfo (map_set userId data (socialInfo (store w)))
                         (store w)) w) ;;
  ret (set_socialInfo (map_set userId data (socialInfo newState)) newState).

(** [socialData.socialId] of the second [select(findByUserId, userId)] *)
Definition read_socialData (data : option SocialData) : M World SocialData :=
  match data with
  | Some data => ret data
  | None => throw (TypeError "Cannot read properties of undefined")
  end.

(** The [switch] of [handleUpdateFriendship]: the new state, if any. *)
Definition updated (action : FriendshipAction) (userId : string) (incoming : bool)
    (state : FriendsState) : M World (option FriendsState) :=
  match action with
  | NONE => ret None
  | APPROVED | REJECTED =>
      let selector := if incoming then ToFriendRequests else FromFriendRequests in
      let requests := selected selector state in
      if includes userId requests then
        let newState := set_selected selector (remove_first userId requests) state in
        match action with
        | APPROVED =>
            if negb (includes userId (friends state)) then
              newState <- push_friend userId newState ;;
              found <- gets (fun w => findByUserId env (store w) userId) ;;
              socialData <- read_socialData found ;;
              conversation <-
                call (CreateDirectConversation (socialId socialData))
                  (fun h => createDirectConversation env h (socialId socialData)) ;;
              newState <-
                write_socialInfo userId
                  {| userId := userId;
                     socialId := socialId socialData;
                     conversationId := Some conversation |}
                  newState ;;
              ret (Some newState)
            else ret (Some newState)
        | _ => ret (Some newState)
        end
      else ret None
  | CANCELED =>
      let selector := if incoming then FromFriendRequests else ToFriendRequests in
      let requests := selected selector state in
      if includes userId requests
      then ret (Some (set_selected selector (remove_first userId requests) state))
      else ret None
  | REQUESTED_FROM =>
      if negb (includes userId (fromFriendRequests state))
      then ret (Some (set_fromFriendRequests
                        (fromFriendRequests state ++ [userId])%list state))
      else ret None
  | REQUESTED_TO =>
      if negb (includes userId (toFriendRequests state))
      then ret (Some (set_toFriendRequests
                        (toFriendRequests state ++ [userId])%list state))
      else ret None
  | DELETED =>
      if includes userId (friends state)
      then ret (Some (set_friends (remove_first userId (friends state)) state))
      else ret None
  end.

(** [handleOutgoingUpdateFriendshipStatus(update)] *)
Definition handleOutgoingUpdateFriendshipStatus
    (action : FriendshipAction) (userId : string) : M World unit :=
  socialData <- gets (fun w => findByUserId env (store w) userId) ;;
  match socialData with
  | None => emit (LoggerError "could not find social data for" userId)
  | Some socialData =>
      let socialId := socialId socialData in
      match action with
      | NONE => ret tt
      | APPROVED =>
          call (ApproveFriendshipRequestFrom socialId)
            (fun h => approveFriendshipRequestFrom env h socialId) ;;
          call (UpdateUserStatus socialId) (fun h => updateUserStatus env h socialId)
      | REJECTED =>
          call (RejectFriendshipRequestFrom socialId)
            (fun h => rejectFriendshipRequestFrom env h socialId)
      | CANCELED =>
          call (CancelFriendshipRequestTo socialId)
            (fun h => cancelFriendshipRequestTo env h socialId)
      | REQUESTED_FROM => ret tt
      | REQUESTED_TO =>
          call (AddAsFriend socialId) (fun h => addAsFriend env h socialId)
      | DELETED =>
          call (DeleteFriendshipWith socialId)
            (fun h => deleteFriendshipWith env h socialId)
      end ;;
      emit (Delay 500)
  end.

Definition must_log_in (profile : option Profile) (userId : string) : string :=
  let id := match profile with
            | Some {| name := Some n |} =>
                if is_empty n then "with address '" ++ userId ++ "'" else n
            | _ => "with address '" ++ userId ++ "'"
            end in
  "User " ++ id ++ " must log in at least once before befriending them".

(** [handleUpdateFriendship({ payload: { action, userId }, meta: { incoming }
    })].  The reducer runs inside [put]. *)
Definition handleUpdateFriendship
    (action : FriendshipAction) (userId : string) (incoming : bool) : M World unit :=
  try_catch
    (state <- gets store ;;
     socialData <- gets (fun w => findByUserId env (store w) userId) ;;
     match socialData with
     | Some socialData =>
         call (CreateDirectConversation (socialId socialData))
           (fun h => createDirectConversation env h (socialId socialData)) ;;
         newState <- updated action userId incoming state ;;
         match newState with
         | Some newState =>
             emit (Put newState) ;;
             modify (fun w => set_store (reduce env (store w) newState) w) ;;
             if incoming then
               call WaitForRendererInstance (waitForRendererInstance env) ;;
               emit (UpdateFriendshipStatus action userId)
             else handleOutgoingUpdateFriendshipStatus action userId
         | None => ret tt
         end ;;
         if negb incoming
         then call InitializeFriends (initializeFriends env)
         else ret tt
     | None => emit (LoggerError "user not loaded!" userId)
     end)
    (fun e =>
       (if isUnknownUsersError env e then
          profile <- call (EnsureFriendProfile userId)
                       (fun h => ensureFriendProfile env h userId) ;;
          emit (ShowNotification (must_log_in profile userId))
        else ret tt) ;;
       call InitializeFriends (initializeFriends env)).

End Saga.

(** The calls to the social server that change a friendship. *)
Definition is_serverUpdate (c : Call) : bool :=
  match c with
  | ApproveFriendshipRequestFrom _ | RejectFriendshipRequestFrom _
  | CancelFriendshipRequestTo _ | AddAsFriend _ | DeleteFriendshipWith _ => true
  | _ => false
  end.

(** The request that tells the social server of an action. *)
Definition serverUpdate_of (action : FriendshipAction) (socialId : string)
  : option Call :=
  match action with
  | APPROVED => Some (ApproveFriendshipRequestFrom socialId)
  | REJECTED => Some (RejectFriendshipRequestFrom socialId)
  | CANCELED => Some (CancelFriendshipRequestTo socialId)
  | REQUESTED_TO => Some (AddAsFriend socialId)
  | DELETED => Some (DeleteFriendshipWith socialId)
  | NONE | REQUESTED_FROM => None
  end.

Definition is_put (c : Call) : bool :=
  match c with Put _ => true | _ => false end.

Definition is_rendererUpdate (c : Call) : bool :=
  match c with UpdateFriendshipStatus _ _ => true | _ => false end.

Definition is_initializeFriends (c : Call) : bool :=
  match c with InitializeFriends => true | _ => false end.

Definition is_failed (ev : Event) : bool :=
  match ev with Failed _ _ => true | Done _ => false end.

Definition count (p : Call -> bool) (t : History) : nat :=
  length (filter (fun ev => p (call_of ev)) t).

(** The three lists of user ids hold no id twice. *)
Definition well_formed (s : FriendsState) : Prop :=
  NoDup (friends s) /\ NoDup (fromFriendRequests s) /\ NoDup (toFriendRequests s).

End Friendship.

(** ** Sample situations of the social features *)

Module SocialSamples.
Import Js SocialIds Friendship.

Definition bob : SocialData :=
  {| userId := "0xb0b";
     socialId := "@0xb0b:decentraland.org";
     conversationId := None |}.

(** Bob has asked to be my friend. *)
Definition requested : FriendsState :=
  {| socialInfo := [("@0xb0b:decentraland.org", bob)];
     friends := [];
     fromFriendRequests := ["0xb0b"];
     toFriendRequests := [] |}.

(** A social server that answers; the selector looks the user up in
    [socialInfo], the reducer takes the state it is given. *)
Definition server : Env :=
  {| findByUserId :=
       fun s u => find_first (fun d => String.eqb (userId d) u)
                    (map_values (socialInfo s));
     reduce := fun _ newState => newState;
     isUnknownUsersError := fun _ => false;
     createDirectConversation := fun _ _ => Ret "!conversation";
     approveFriendshipRequestFrom := fun _ _ => Ret tt;
     rejectFriendshipRequestFrom := fun _ _ => Ret tt;
     cancelFriendshipRequestTo := fun _ _ => Ret tt;
     addAsFriend := fun _ _ => Ret tt;
     deleteFriendshipWith := fun _ _ => Ret tt;
     waitForRendererInstance := fun _ => Ret tt;
     updateUserStatus := fun _ _ => Ret tt;
     initializeFriends := fun _ => Ret tt;
     ensureFriendProfile := fun _ _ => Ret None |}.

Definition start : World := {| trace := []; store := requested |}.

(** The state after I approved Bob's request. *)
Definition befriended : FriendsState :=
  {| socialInfo :=
       [ ("@0xb0b:decentraland.org", bob);
         ("0xb0b", {| userId := "0xb0b";
                      socialId := "@0xb0b:decentraland.org";
                      conversationId := Some "!conversation" |}) ];
     friends := ["0xb0b"];
     fromFriendRequests := [];
     toFriendRequests := [] |}.

End SocialSamples.

(** ** Fetching the meta configuration and the feature flags

    The two [async] functions at the end of the meta sagas. *)

Module Meta.
Import Js.
Local Open Scope js_scope.

(** A parsed response body; it is handed on as it is. *)
Definition Json : Type := string.

(** What the functions look at in a [Response]: the [ok] flag, and how the
    promise of [response.json()] settles. *)
Record Response : Type := {
  ok : bool;
  json : Outcome Json
}.

(** What [fetchMetaConfiguration] resolves to: the body of the response, or
    the object literal of its [catch] block ([explorer.minBuildNumber] 0,
    empty server lists, no banned users, the default synapse url, no points
    of interest, 4 target and 6 maximal connections), in which only
    [explorer.assetBundlesFetchUrl] varies. *)
Inductive MetaConfiguration : Type :=
| FromServer (body : Json)
| DefaultConfiguration (assetBundlesFetchUrl : string).

Inductive Call : Type :=
| Fetch (url : string) (credentials : option string)
| ResponseJson (url : string)
| Warn (message : string).

Inductive Event : Type :=
| Done (c : Call)
| Failed (c : Call) (e : Exn).

Definition History : Type := list Event.

Definition call_of (ev : Event) : Call :=
  match ev with Done c => c | Failed c _ => c end.

Definition is_warning (ev : Event) : bool :=
  match ev with Done (Warn _) => true | _ => false end.

Definition is_fetch (ev : Event) : bool :=
  match call_of ev with Fetch _ _ => true | _ => false end.

Record Env : Type := {
  (* getServerConfigurations(network) and getAssetBundlesBaseUrl(network)
     of config, for the selected network *)
  explorerConfiguration : string;
  explorerFeatureFlags : string;
  assetBundlesBaseUrl : string;
  fetch : History -> string -> option string -> Outcome Response
}.

Definition call {A} (c : Call) (o : History -> Outcome A) : M History A :=
  fun h =>
    let r := o h in
    (r, (h ++ [match r with Ret _ => Done c | Throw e => Failed c e end])%list).

Definition emit (c : Call) : M History unit :=
  call c (fun _ => Ret tt).

(** What a function body leaves to its caller: a value, or a promise that
    the caller's [await] settles.  A promise that an [async] function
    returns from inside a [try] block is settled after the block was
    left, so that its rejection does not reach the [catch]. *)
Inductive Returned (A : Type) : Type :=
| Value (a : A)
| Promise (url : string) (settles : Outcome Json).
Arguments Value {A} a.
Arguments Promise {A} url settles.

Section Fetching.

Variable env : Env.

(** The [try] statement of [fetchMetaConfiguration]. *)
Definition fetchMetaConfiguration_body : M History (Returned MetaConfiguration) :=
  let explorerConfigurationEndpoint := explorerConfiguration env in
  try_catch
    (response <- call (Fetch explorerConfigurationEndpoint None)
                   (fun h => fetch env h explorerConfigurationEndpoint None) ;;
     if ok response
     then ret (Promise explorerConfigurationEndpoint (json response))
     else throw (Error "Meta Response Not Ok"))
    (fun e =>
       emit (Warn ("Error while fetching meta configuration from '"
                   ++ explorerConfigurationEndpoint ++ "' using default config")) ;;
       ret (Value (DefaultConfiguration (assetBundlesBaseUrl env)))).

(** [fetchMetaConfiguration(network)], as its caller sees it settle. *)
Definition fetchMetaConfiguration : M History MetaConfiguration :=
  returned <- fetchMetaConfiguration_body ;;
  match returned with
  | Value configuration => ret configuration
  | Promise url settles =>
      body <- call (ResponseJson url) (fun _ => settles) ;;
      ret (FromServer body)
  end.

(** The [try] statement of [fetchFeatureFlagsAndVariants]; the function
    ends after it, with [undefined]. *)
Definition fetchFeatureFlagsAndVariants_body : M History (Returned (option Json)) :=
  let featureFlagsEndpoint := explorerFeatureFlags env in
  try_catch
    (response <- call (Fetch featureFlagsEndpoint (Some "include"))
                   (fun h => fetch env h featureFlagsEndpoint (Some "include")) ;;
     if ok response
     then ret (Promise featureFlagsEndpoint (json response))
     else ret (Value None))
    (fun e =>
       emit (Warn ("Error while fetching feature flags from '"
                   ++ featureFlagsEndpoint ++ "'. Using default config")) ;;
       ret (Value None)).

(** [fetchFeatureFlagsAndVariants(network)] *)
Definition fetchFeatureFlagsAndVariants : M History (option Json) :=
  returned <- fetchFeatureFlagsAndVariants_body ;;
  match returned with
  | Value flags => ret flags
  | Promise url settles =>
      body <- call (ResponseJson url) (fun _ => settles) ;;
      ret (Some body)
  end.

End Fetching.

End Meta.

(** ** Analytics of the player's position ([hookAnalyticsObservables])

    The listener that [hookAnalyticsObservables] adds to
    [positionObservable], with the variables it closes over. *)

Module ParcelTracking.
Import Js.

Section Tracker.

(** Positions and the readings of [performance.now()] are not looked
    into. *)
Variables Position Time : Type.

(** [worldToGrid(position, gridPosition)] followed by [gridPosition.x | 0]
    and [gridPosition.y | 0].  The listener compares the texts
    [`${x},${y}`], which are equal exactly when the pairs are. *)
Variable parcel_of : Position -> Z * Z.

(** [now - lastTime > 1000] *)
Variable over_a_second : Time -> Time -> bool.

(** The data of a ['Move to Parcel'] event. *)
Record MoveToParcel : Type := {
  newParcel : Z * Z;
  oldParcel : option (Z * Z);
  exactPosition : Position
}.

(** How [trackEvent] completes. *)
Variable trackEvent : MoveToParcel -> Outcome unit.

(** A notification of [positionObservable], with what [performance.now()]
    reads in the condition and, if it is read again, in the assignment to
    [lastTime]. *)
Record Sample : Type := {
  position : Position;
  now : Time;
  now_after : Time
}.

(** [lastTime] and [previousPosition] *)
Record State : Type := {
  lastTime : Time;
  previousPosition : option (Z * Z)
}.

Definition same_parcel (a b : Z * Z) : bool :=
  (fst a =? fst b)%Z && (snd a =? snd b)%Z.

(** [previousPosition !== currentPosition] *)
Definition differs (previous : option (Z * Z)) (current : Z * Z) : bool :=
  match previous with
  | Some p => negb (same_parcel p current)
  | None => true
  end.

(** A call of [trackEvent] and whether it returned. *)
Definition Attempt : Type := (MoveToParcel * bool)%type.

(** The listener.  An exception of [trackEvent] leaves it before the two
    assignments. *)
Definition onPosition (st : State) (s : Sample) : list Attempt * State :=
  if over_a_second (now s) (lastTime st) then
    let currentPosition := parcel_of (position s) in
    if differs (previousPosition st) currentPosition then
      let event := {| newParcel := currentPosition;
                      oldParcel := previousPosition st;
                      exactPosition := position s |} in
      match trackEvent event with
      | Ret _ =>
          ([(event, true)],
           {| lastTime := now_after s; previousPosition := Some currentPosition |})
      | Throw _ => ([(event, false)], st)
      end
    else ([], {| lastTime := now_after s; previousPosition := previousPosition st |})
  else ([], st).

(** [a] is the attempt made for the sample [s]. *)
Definition reported (s : Sample) (a : Attempt) : Prop :=
  exactPosition (fst a) = position s /\
  newParcel (fst a) = parcel_of (position s) /\
  returns (trackEvent (fst a)) = snd a.

(** The notifications in the order they arrive. *)
Fixpoint positions_arrive (st : State) (samples : list Sample) : list Attempt * State :=
  match samples with
  | [] => ([], st)
  | s :: later =>
      let (attempts, st') := onPosition st s in
      let (attempts', final) := positions_arrive st' later in
      ((attempts ++ attempts')%list, final)
  end.

(** The parcel of the last event that [trackEvent] accepted. *)
Fixpoint last_tracked (previous : option (Z * Z)) (attempts : list Attempt)
  : option (Z * Z) :=
  match attempts with
  | [] => previous
  | (event, true) :: later => last_tracked (Some (newParcel event)) later
  | (_, false) :: later => last_tracked previous later
  end.

(** Every event leaves the parcel of the last accepted event for another
    parcel. *)
Fixpoint leaves_the_last_tracked (previous : option (Z * Z)) (attempts : list Attempt)
  : Prop :=
  match attempts with
  | [] => True
  | (event, accepted) :: later =>
      oldParcel event = previous /\
      Some (newParcel event) <> previous /\
      leaves_the_last_tracked
        (if accepted then Some (newParcel event) else previous) later
  end.

End Tracker.

End ParcelTracking.


(** * Properties *)

(** ** [Map] and [Set] *)

Module JsFacts.
Import Js.

Lemma skipn_length_app A (l l' : list A) : skipn (length l) (l ++ l')%list = l'.
Proof.
  induction l as [| a l IH]; simpl; auto.
Qed.

Lemma map_set_keys_in V (k : string) (v : V) (m : JsMap V) (k' : string) :
  In k' (map_keys (map_set k v m)) <-> k' = k \/ In k' (map_keys m).
Proof.
  induction m as [| [k0 v0] m IH]; simpl.
  - intuition.
  - destruct (String.eqb_spec k k0) as [-> | Hne]; simpl.
    + intuition.
    + rewrite IH. intuition.
Qed.

Lemma map_set_keys_nodup V (k : string) (v : V) (m : JsMap V) :
  NoDup (map_keys m) -> NoDup (map_keys (map_set k v m)).
Proof.
  induction m as [| [k0 v0] m IH]; simpl; intros Hnd.
  - constructor; [intros [] | constructor].
  - inversion Hnd as [| ? ? Hnotin Hnd']; subst.
    destruct (String.eqb_spec k k0) as [-> | Hne]; simpl.
    + constructor; assumption.
    + constructor; [| apply IH; assumption].
      intros Hin. apply map_set_keys_in in Hin. destruct Hin as [-> | Hin]; auto.
Qed.

(** A [Map] filled from an accumulator holds the accumulator's keys and the
    keys of the entries. *)
Lemma fold_map_set_keys V (entries : list (string * V)) (acc : JsMap V) (k : string) :
  In k (map_keys (fold_left (fun m kv => map_set (fst kv) (snd kv) m) entries acc))
  <-> In k (map_keys acc) \/ In k (List.map fst entries).
Proof.
  revert acc. induction entries as [| [k0 v0] entries IH]; intros acc; simpl.
  - intuition.
  - rewrite IH, map_set_keys_in. intuition.
Qed.

Lemma fold_map_set_nodup V (entries : list (string * V)) (acc : JsMap V) :
  NoDup (map_keys acc) ->
  NoDup (map_keys (fold_left (fun m kv => map_set (fst kv) (snd kv) m) entries acc)).
Proof.
  revert acc. induction entries as [| [k0 v0] entries IH]; intros acc Hnd; simpl.
  - assumption.
  - apply IH, map_set_keys_nodup, Hnd.
Qed.

Lemma map_of_entries_keys V (entries : list (string * V)) (k : string) :
  In k (map_keys (map_of_entries entries)) <-> In k (List.map fst entries).
Proof.
  unfold map_of_entries. rewrite fold_map_set_keys. simpl. intuition.
Qed.

Lemma map_of_entries_nodup V (entries : list (string * V)) :
  NoDup (map_keys (map_of_entries entries)).
Proof.
  apply fold_map_set_nodup. constructor.
Qed.

Lemma map_set_fresh V (k : string) (v : V) (m : JsMap V) :
  ~ In k (map_keys m) -> map_set k v m = (m ++ [(k, v)])%list.
Proof.
  induction m as [| [k0 v0] m IH]; simpl; intros Hnotin.
  - reflexivity.
  - destruct (String.eqb_spec k k0) as [-> | Hne].
    + contradiction Hnotin. left. reflexivity.
    + rewrite IH; [reflexivity |]. intros Hin. apply Hnotin. right. exact Hin.
Qed.

(** Entries with pairwise distinct keys are kept as they are. *)
Lemma fold_map_set_fresh V (entries : list (string * V)) (acc : JsMap V) :
  NoDup (map_keys acc ++ List.map fst entries)%list ->
  fold_left (fun m kv => map_set (fst kv) (snd kv) m) entries acc
  = (acc ++ entries)%list.
Proof.
  revert acc. induction entries as [| [k0 v0] entries IH]; intros acc Hnd; simpl.
  - rewrite app_nil_r. reflexivity.
  - simpl in Hnd. rewrite map_set_fresh.
    + rewrite IH.
      * rewrite <- app_assoc. reflexivity.
      * unfold map_keys in *. rewrite map_app, <- app_assoc. simpl. exact Hnd.
    + apply NoDup_remove_2 in Hnd. intros Hin. apply Hnd.
      apply in_or_app. left. exact Hin.
Qed.

Lemma map_of_entries_distinct V (entries : list (string * V)) :
  NoDup (List.map fst entries) -> map_of_entries entries = entries.
Proof.
  intros Hnd. unfold map_of_entries. rewrite fold_map_set_fresh; auto.
Qed.

Lemma set_add_in (x : string) (s : list string) (y : string) :
  In y (set_add x s) <-> y = x \/ In y s.
Proof.
  induction s as [| z s IH]; simpl.
  - intuition.
  - destruct (String.eqb_spec x z) as [-> | Hne]; simpl.
    + intuition.
    + rewrite IH. intuition.
Qed.

Lemma set_add_nodup (x : string) (s : list string) :
  NoDup s -> NoDup (set_add x s).
Proof.
  induction s as [| z s IH]; simpl; intros Hnd.
  - constructor; [intros [] | constructor].
  - destruct (String.eqb_spec x z) as [-> | Hne]; [assumption |].
    inversion Hnd as [| ? ? Hnotin Hnd']; subst.
    constructor; [| apply IH; assumption].
    rewrite set_add_in. intros [-> | Hin]; auto.
Qed.

Lemma skipn_length_all A (l : list A) : skipn (length l) l = [].
Proof.
  induction l as [| a l IH]; simpl; auto.
Qed.




End JsFacts.

(** ** Asset resolution *)

Module AssetFacts.
Import Js Scene Controller JsFacts.

Section WithEnv.

Variable env : Env.

Lemma truthy_assetId_spec (v : ComponentValue) :
  truthy_assetId v = true <-> exists a, assetId v = Some a /\ a <> "".
Proof.
  unfold truthy_assetId. destruct (assetId v) as [a |].
  - destruct a as [| ch a]; simpl.
    + split; [discriminate | intros (a' & Ha & Hne); inversion Ha; subst; contradiction].
    + split; [intros _; eexists; split; [reflexivity | discriminate] | reflexivity].
  - split; [discriminate | intros (a & Ha & _); discriminate].
Qed.

Lemma fold_add_in (cs : list Component) (acc : list AssetId) (a : AssetId) :
  In a (fold_left
          (fun s c => match assetId (value c) with
                      | Some x => set_add x s
                      | None => s
                      end) cs acc)
  <-> In a acc \/ exists c, In c cs /\ assetId (value c) = Some a.
Proof.
  revert acc. induction cs as [| c cs IH]; intros acc; simpl.
  - split; [auto | intros [H | (c & [] & _)]; assumption].
  - rewrite IH. destruct (assetId (value c)) as [x |] eqn:Hx.
    + rewrite set_add_in. split.
      * intros [[-> | H] | (c' & Hin & Hc')]; eauto 6.
      * intros [H | (c' & [<- | Hin] & Hc')]; eauto 6.
        rewrite Hx in Hc'. inversion Hc'. auto.
    + split.
      * intros [H | (c' & Hin & Hc')]; eauto 6.
      * intros [H | (c' & [<- | Hin] & Hc')]; eauto 6. congruence.
Qed.

Lemma fold_add_nodup (cs : list Component) (acc : list AssetId) :
  NoDup acc ->
  NoDup (fold_left
           (fun s c => match assetId (value c) with
                       | Some x => set_add x s
                       | None => s
                       end) cs acc).
Proof.
  revert acc. induction cs as [| c cs IH]; intros acc Hnd; simpl; [assumption |].
  apply IH. destruct (assetId (value c)); [apply set_add_nodup |]; assumption.
Qed.

(** What one entity adds to the set: the asset ids of its GLTF shapes. *)
Lemma add_entity_assetIds_in (acc : list AssetId) (e : SerializedEntity) (a : AssetId) :
  In a (add_entity_assetIds env acc e)
  <-> In a acc \/
      exists c, In c (components e) /\ type c = GLTF_SHAPE env /\
                assetId (value c) = Some a /\ a <> "".
Proof.
  unfold add_entity_assetIds. rewrite fold_add_in. split.
  - intros [H | (c & Hin & Ha)]; [auto | right].
    apply filter_In in Hin. destruct Hin as [Hin Hc].
    apply andb_true_iff in Hc. destruct Hc as [Hty Htr].
    apply Z.eqb_eq in Hty. apply truthy_assetId_spec in Htr.
    destruct Htr as (a' & Ha' & Hne). rewrite Ha in Ha'. inversion Ha'; subst.
    exists c. auto.
  - intros [H | (c & Hin & Hty & Ha & Hne)]; [auto | right].
    exists c. split; [| assumption].
    apply filter_In. split; [assumption |].
    apply andb_true_iff. split; [apply Z.eqb_eq; assumption |].
    apply truthy_assetId_spec. eauto.
Qed.

Lemma fold_entities_in (es : list SerializedEntity) (acc : list AssetId) (a : AssetId) :
  In a (fold_left (add_entity_assetIds env) es acc)
  <-> In a acc \/
      exists e c, In e es /\ In c (components e) /\ type c = GLTF_SHAPE env /\
                  assetId (value c) = Some a /\ a <> "".
Proof.
  revert acc. induction es as [| e es IH]; intros acc; simpl.
  - split; [auto | intros [H | (e & c & [] & _)]; assumption].
  - rewrite IH, add_entity_assetIds_in. split.
    + intros [[H | (c & Hc)] | (e' & c & Hin & Hc)].
      * auto.
      * right. exists e, c. tauto.
      * right. exists e', c. tauto.
    + intros [H | (e' & c & [<- | Hin] & Hc)].
      * auto.
      * left. right. exists c. tauto.
      * right. exists e', c. tauto.
Qed.

Lemma fold_entities_nodup (es : list SerializedEntity) (acc : list AssetId) :
  NoDup acc -> NoDup (fold_left (add_entity_assetIds env) es acc).
Proof.
  revert acc. induction es as [| e es IH]; intros acc Hnd; simpl; [assumption |].
  apply IH. unfold add_entity_assetIds. apply fold_add_nodup, Hnd.
Qed.

Lemma collectAssetIds_in (state : SerializedSceneState) (a : AssetId) :
  In a (collectAssetIds env state) <-> carries env state a.
Proof.
  unfold collectAssetIds, carries. rewrite fold_entities_in. simpl. tauto.
Qed.

Lemma collectAssetIds_nodup (state : SerializedSceneState) :
  NoDup (collectAssetIds env state).
Proof.
  apply fold_entities_nodup. constructor.
Qed.

End WithEnv.

(** C7.  Asset resolution over any serialized scene state: the ids that
    [getAllBuilderAssets], [getAllAssets] and [sendAssetsToRenderer] request
    are exactly the asset ids carried by the GLTF shape components that
    have one; each id is requested once, in a single bulk request; and
    [sendAssetsToRenderer] forwards to the renderer the very descriptors the
    backend resolved. *)
Theorem asset_resolution_requests_each_id_once
    (env : Env) (state : SerializedSceneState) (w : World) :
  let ids := collectAssetIds env state in
  (forall a, In a ids <-> carries env state a) /\
  (forall a, carries env state a -> count_occ string_dec ids a = 1) /\
  getAllBuilderAssets env state w =
    (api_getBuilderAssets env (trace w) ids,
     log (match api_getBuilderAssets env (trace w) ids with
          | Ret _ => Done (GetBuilderAssets ids)
          | Throw e => Failed (GetBuilderAssets ids) e
          end) w) /\
  getAllAssets env state w =
    (api_getConvertedAssets env (trace w) ids,
     log (match api_getConvertedAssets env (trace w) ids with
          | Ret _ => Done (GetConvertedAssets ids)
          | Throw e => Failed (GetConvertedAssets ids) e
          end) w) /\
  sendAssetsToRenderer env state w =
    match api_getBuilderAssets env (trace w) ids with
    | Ret assets =>
        (Ret "OK",
         log (Done (SendSceneAssets assets)) (log (Done (GetBuilderAssets ids)) w))
    | Throw e => (Throw e, log (Failed (GetBuilderAssets ids) e) w)
    end.
Proof.
  intros ids. split; [| split; [| split; [| split]]].
  - intros a. apply collectAssetIds_in.
  - intros a Ha. apply NoDup_count_occ'.
    + apply collectAssetIds_nodup.
    + apply collectAssetIds_in, Ha.
  - reflexivity.
  - reflexivity.
  - unfold sendAssetsToRenderer, getAllBuilderAssets, bind, call, emit. fold ids.
    destruct (api_getBuilderAssets env (trace w) ids); reflexivity.
Qed.

End AssetFacts.

(** ** Runs of the controller *)

Module RunFacts.
Import Js Scene Controller JsFacts.
Local Open Scope list_scope.

Lemma add_events_add_events (a b : History) (w : World) :
  add_events b (add_events a w) = add_events (a ++ b) w.
Proof.
  unfold add_events. simpl. rewrite app_assoc. reflexivity.
Qed.

Lemma add_events_nil (w : World) : add_events [] w = w.
Proof.
  destruct w. unfold add_events. simpl. rewrite app_nil_r. reflexivity.
Qed.

Lemma events_since_add_events (evs : History) (w : World) :
  events_since w (add_events evs w) = evs.
Proof.
  unfold events_since. simpl. apply skipn_length_app.
Qed.

Lemma events_since_trace (w w' : World) (evs : History) :
  trace w' = (trace w ++ evs)%list -> events_since w w' = evs.
Proof.
  unfold events_since. intros ->. apply skipn_length_app.
Qed.

Lemma count_calls_app (p : Call -> bool) (a b : History) :
  count_calls p (a ++ b) = count_calls p a + count_calls p b.
Proof.
  unfold count_calls. rewrite filter_app, length_app. reflexivity.
Qed.

Lemma count_calls_zero (p : Call -> bool) (t : History) :
  count_calls p t = 0 <-> forall ev, In ev t -> p (call_of ev) = false.
Proof.
  unfold count_calls. induction t as [| ev t IH]; simpl.
  - split; [intros _ ev [] | reflexivity].
  - destruct (p (call_of ev)) eqn:Hp; simpl.
    + split; [discriminate | intros H; specialize (H ev (or_introl eq_refl)); congruence].
    + rewrite IH. split.
      * intros H ev' [<- | Hin]; auto.
      * intros H ev' Hin. apply H. right. assumption.
Qed.

(** Download tasks only make download calls. *)
Lemma downloads_count_zero (p : Call -> bool) (devs : History) :
  (forall c, is_downloadCall c = true -> p c = false) ->
  Forall (fun ev => is_downloadCall (call_of ev) = true) devs ->
  count_calls p devs = 0.
Proof.
  intros Hp Hall. apply count_calls_zero. intros ev Hin.
  rewrite Forall_forall in Hall. auto.
Qed.

Lemma downloads_existsb_false (p : Event -> bool) (devs : History) :
  (forall ev, is_downloadCall (call_of ev) = true -> p ev = false) ->
  Forall (fun ev => is_downloadCall (call_of ev) = true) devs ->
  existsb p devs = false.
Proof.
  intros Hp Hall. induction Hall as [| ev devs Hev Hall IH]; simpl.
  - reflexivity.
  - rewrite (Hp ev Hev), IH. reflexivity.
Qed.

Section WithEnv.

Variable env : Env.

(** One download task: what it appends to the trace, and how it ends. *)
Lemma download_run (entry : string * string) (w : World) :
  exists devs,
    snd (download env entry w) = add_events devs w /\
    Forall (fun ev => is_downloadCall (call_of ev) = true) devs /\
    List.map call_of (filter (fun ev => is_fetch (call_of ev)) devs)
    = [Fetch (snd entry)] /\
    match fst (download env entry w) with
    | Ret r =>
        fst r = fst entry /\
        existsb is_failedDownload devs = false /\
        filter (fun ev => is_fetch (call_of ev)) devs = [Done (Fetch (snd entry))]
    | Throw _ => existsb is_failedDownload devs = true
    end.
Proof.
  destruct entry as [path url]. unfold download, bind, call, ret, log. simpl.
  destruct (fetch env (trace w) url) as [response | e] eqn:Hf; simpl.
  - destruct (response_blob env (trace w ++ [Done (Fetch url)]) response)
      as [blob | e] eqn:Hb; simpl.
    + destruct (blobToBuffer env
                  ((trace w ++ [Done (Fetch url)]) ++ [Done (ResponseBlob url)]) blob)
        as [buffer | e] eqn:Hc; simpl.
      * exists [Done (Fetch url); Done (ResponseBlob url); Done (BlobToBuffer blob)].
        rewrite !add_events_add_events. simpl. repeat split; auto.
      * exists [Done (Fetch url); Done (ResponseBlob url); Failed (BlobToBuffer blob) e].
        rewrite !add_events_add_events. simpl. repeat split; auto.
    + exists [Done (Fetch url); Failed (ResponseBlob url) e].
      rewrite !add_events_add_events. simpl. repeat split; auto.
  - exists [Failed (Fetch url) e]. simpl. repeat split; auto.
Qed.

(** The download tasks, each run to its end: they make download calls
    only; every task makes its [fetch]; when none is rejected there is one
    result per entry, under the entry's path, and no failed call. *)
Lemma settle_downloads (entries : list (string * string)) (w : World) :
  exists devs,
    snd (settle_all (List.map (download env) entries) w) = add_events devs w /\
    Forall (fun ev => is_downloadCall (call_of ev) = true) devs /\
    List.map call_of (filter (fun ev => is_fetch (call_of ev)) devs)
    = List.map (fun entry => Fetch (snd entry)) entries /\
    match rejections (fst (settle_all (List.map (download env) entries) w)) with
    | [] =>
        List.map fst (fulfilled (fst (settle_all (List.map (download env) entries) w)))
        = List.map fst entries /\
        existsb is_failedDownload devs = false /\
        filter (fun ev => is_fetch (call_of ev)) devs
        = List.map (fun entry => Done (Fetch (snd entry))) entries
    | _ :: _ => existsb is_failedDownload devs = true
    end.
Proof.
  revert w. induction entries as [| entry entries IH]; intros w; simpl.
  - exists []. rewrite add_events_nil. simpl. repeat split; auto.
  - destruct (download_run entry w) as (d1 & Hw1 & Hall1 & Hq1 & Hr1).
    destruct (download env entry w) as [r1 w1] eqn:Hd. simpl in Hw1, Hr1. subst w1.
    destruct (IH (add_events d1 w)) as (d2 & Hw2 & Hall2 & Hq2 & Hr2).
    destruct (settle_all (List.map (download env) entries) (add_events d1 w))
      as [rs w2] eqn:Hs. simpl in Hw2, Hq2, Hr2. subst w2.
    exists (d1 ++ d2). simpl. rewrite add_events_add_events.
    split; [reflexivity |]. split; [apply Forall_app; auto |].
    split; [rewrite filter_app, map_app, Hq1, Hq2; reflexivity |].
    destruct r1 as [a | e]; simpl.
    + destruct Hr1 as (Hk1 & Hf1 & Hu1).
      destruct (rejections rs) as [| e es].
      * destruct Hr2 as (Hk2 & Hf2 & Hu2).
        rewrite existsb_app, Hf1, Hf2, filter_app, Hu1, Hu2, Hk1, Hk2. auto.
      * rewrite existsb_app, Hr2. apply orb_true_r.
    + rewrite existsb_app, Hr1. reflexivity.
Qed.

(** [Promise.all] over the download tasks: the result is a list with one
    buffer per entry, under the entry's path, exactly when no download
    failed. *)
Lemma downloads_run (entries : list (string * string)) (w : World) :
  exists devs,
    snd (promise_all (fun w' => first_rejection env (trace w'))
           (List.map (download env) entries) w) = add_events devs w /\
    Forall (fun ev => is_downloadCall (call_of ev) = true) devs /\
    match fst (promise_all (fun w' => first_rejection env (trace w'))
                 (List.map (download env) entries) w) with
    | Ret l =>
        List.map fst l = List.map fst entries /\
        existsb is_failedDownload devs = false /\
        filter (fun ev => is_fetch (call_of ev)) devs
        = List.map (fun entry => Done (Fetch (snd entry))) entries
    | Throw _ => existsb is_failedDownload devs = true
    end.
Proof.
  unfold promise_all.
  destruct (settle_downloads entries w) as (devs & Hw & Hall & _ & Hr).
  destruct (settle_all (List.map (download env) entries) w) as [rs w'].
  simpl in Hw, Hr. subst w'. exists devs.
  destruct (rejections rs) as [| e es]; simpl; auto.
Qed.

Lemma add_events_inj (a b : History) (w : World) :
  add_events a w = add_events b w -> a = b.
Proof.
  intros H. apply (f_equal trace) in H. simpl in H.
  apply app_inv_head in H. exact H.
Qed.

(** A download task that is fulfilled: the three calls it made, and what
    it returns. *)
Lemma download_resolved (entry : string * string) (w : World) (r : string * Buffer) :
  fst (download env entry w) = Ret r ->
  exists response blob,
    fetch env (trace w) (snd entry) = Ret response /\
    response_blob env (trace w ++ [Done (Fetch (snd entry))]) response = Ret blob /\
    blobToBuffer env
      (trace w ++ [Done (Fetch (snd entry)); Done (ResponseBlob (snd entry))]) blob
    = Ret (snd r) /\
    fst r = fst entry /\
    snd (download env entry w)
    = add_events [ Done (Fetch (snd entry)); Done (ResponseBlob (snd entry));
                   Done (BlobToBuffer blob) ] w.
Proof.
  destruct entry as [path url]. unfold download, bind, call, ret, log. simpl.
  destruct (fetch env (trace w) url) as [response | e] eqn:Hf; simpl;
    [| discriminate].
  destruct (response_blob env (trace w ++ [Done (Fetch url)]) response)
    as [blob | e] eqn:Hb; simpl; [| discriminate].
  rewrite <- app_assoc. simpl.
  destruct (blobToBuffer env (trace w ++ [Done (Fetch url); Done (ResponseBlob url)]) blob)
    as [buffer | e] eqn:Hc; simpl; [| discriminate].
  intros Hr. inversion Hr; subst r. exists response, blob.
  rewrite !add_events_add_events. simpl. repeat split; assumption || reflexivity.
Qed.

Lemma settle_resolved (entries : list (string * string)) (w : World) (devs : History) :
  snd (settle_all (List.map (download env) entries) w) = add_events devs w ->
  rejections (fst (settle_all (List.map (download env) entries) w)) = [] ->
  Observations.downloaded env (trace w) entries devs
    (fulfilled (fst (settle_all (List.map (download env) entries) w))).
Proof.
  revert w devs. induction entries as [| entry entries IH]; intros w devs; simpl.
  - intros Hw _. rewrite <- (add_events_nil w) in Hw at 1.
    apply add_events_inj in Hw. symmetry. exact Hw.
  - pose proof (download_resolved entry w) as Hone.
    destruct (download env entry w) as [r1 w1]. simpl in Hone.
    destruct (settle_downloads entries w1) as (d2 & Hw2 & _).
    specialize (IH w1 d2 Hw2).
    destruct (settle_all (List.map (download env) entries) w1) as [rs w2].
    simpl in *. destruct r1 as [r | e]; simpl; [| discriminate].
    intros Hw Hnone.
    destruct (Hone r eq_refl) as (response & blob & Hf & Hb & Hc & Hpath & Hw1).
    subst w1 w2. destruct entry as [path url]. destruct r as [path' buffer].
    simpl in *. subst path'. rewrite add_events_add_events in Hw.
    apply add_events_inj in Hw. subst devs.
    split; [reflexivity |].
    exists response, blob, d2.
    specialize (IH Hnone). rewrite <- ?app_assoc in IH. simpl in IH.
    repeat split; try assumption.
    all: rewrite <- ?app_assoc; simpl; assumption.
Qed.

(** [Promise.all] over the download tasks, fulfilled: each entry of the
    result is the path of its task with the buffer the task downloaded. *)
Lemma downloads_resolved (entries : list (string * string)) (w : World)
    (l : list (string * Buffer)) :
  fst (promise_all (fun w' => first_rejection env (trace w'))
         (List.map (download env) entries) w) = Ret l ->
  Observations.downloaded env (trace w) entries
    (events_since w
       (snd (promise_all (fun w' => first_rejection env (trace w'))
               (List.map (download env) entries) w)))
    l.
Proof.
  unfold promise_all.
  destruct (settle_downloads entries w) as (devs & Hw & _).
  pose proof (@settle_resolved entries w devs Hw) as Hall.
  destruct (settle_all (List.map (download env) entries) w) as [rs w'].
  simpl in *. subst w'.
  destruct (rejections rs) as [| e es]; simpl; [| discriminate].
  intros Hl. inversion Hl; subst l. rewrite events_since_add_events.
  apply Hall. reflexivity.
Qed.

(** Whether or not one of them fails, every download task has made its
    [fetch]. *)
Lemma downloads_fetch_every_url (entries : list (string * string)) (w : World) :
  List.map call_of
    (filter (fun ev => is_fetch (call_of ev))
       (events_since w
          (snd (promise_all (fun w' => first_rejection env (trace w'))
                  (List.map (download env) entries) w))))
  = List.map (fun entry => Fetch (snd entry)) entries.
Proof.
  unfold promise_all.
  destruct (settle_downloads entries w) as (devs & Hw & _ & Hq & _).
  destruct (settle_all (List.map (download env) entries) w) as [rs w'].
  simpl in Hw. subst w'.
  destruct (rejections rs); simpl; rewrite events_since_add_events; exact Hq.
Qed.

(** The keys of the path-to-url map: one per file of one of the assets,
    under the models folder. *)
Lemma add_asset_mappings_keys (acc : JsMap string) (asset : Asset) (p : string) :
  In p (map_keys (add_asset_mappings env acc asset))
  <-> In p (map_keys acc) \/
      exists fh, In fh (mappings asset) /\
                 p = (MODELS_FOLDER (CONTENT_PATH env) ++ "/" ++ file fh)%string.
Proof.
  unfold add_asset_mappings. generalize (mappings asset) as fhs. intros fhs.
  revert acc. induction fhs as [| fh fhs IH]; intros acc; simpl.
  - split; [auto | intros [H | (fh & [] & _)]; assumption].
  - rewrite IH, map_set_keys_in. split.
    + intros [[-> | H] | (fh' & Hin & ->)]; eauto.
    + intros [H | (fh' & [<- | Hin] & ->)]; eauto.
Qed.

Lemma gatherMappings_keys (assets : JsMap Asset) (p : string) :
  In p (map_keys (gatherMappings env assets))
  <-> exists asset fh,
        In asset (map_values assets) /\ In fh (mappings asset) /\
        p = (MODELS_FOLDER (CONTENT_PATH env) ++ "/" ++ file fh)%string.
Proof.
  unfold gatherMappings. generalize (map_values assets) as l. intros l.
  assert (H : forall acc,
             In p (map_keys (fold_left (add_asset_mappings env) l acc))
             <-> In p (map_keys acc) \/
                 exists asset fh,
                   In asset l /\ In fh (mappings asset) /\
                   p = (MODELS_FOLDER (CONTENT_PATH env) ++ "/" ++ file fh)%string).
  { induction l as [| asset l IH]; intros acc; simpl.
    - split; [auto | intros [H | (a & fh & [] & _)]; assumption].
    - rewrite IH, add_asset_mappings_keys. split.
      + intros [[H | (fh & Hin & Hp)] | (a & fh & Hin & Hfh & Hp)]; eauto 8.
      + intros [H | (a & fh & [<- | Hin] & Hfh & Hp)]; eauto 8. }
  rewrite H. simpl. tauto.
Qed.

Lemma gatherMappings_nodup (assets : JsMap Asset) :
  NoDup (map_keys (gatherMappings env assets)).
Proof.
  unfold gatherMappings. generalize (map_values assets) as l. intros l.
  assert (H : forall acc,
             NoDup (map_keys acc) ->
             NoDup (map_keys (fold_left (add_asset_mappings env) l acc))).
  { induction l as [| asset l IH]; intros acc Hnd; simpl; [exact Hnd |].
    apply IH. unfold add_asset_mappings.
    generalize (mappings asset) as fhs. intros fhs. revert acc Hnd.
    induction fhs as [| fh fhs IHf]; intros acc Hnd; simpl; [exact Hnd |].
    apply IHf, map_set_keys_nodup, Hnd. }
  apply H. constructor.
Qed.

(** The deployment bundle: the fixed paths and the paths of the downloaded
    files, nothing else, each bound once.  When the fixed paths are
    pairwise distinct and none of them is the path of a model, the bundle
    is the five fixed entries followed by the downloaded files. *)
Lemma entityFiles_keys (storableFormat : StorableSceneState) (gameFile : string)
    (sceneJson : SceneJson) (thumbnail : Buffer) (assetsArray : list BuilderAsset)
    (result : list (string * Buffer)) (entries : JsMap string) :
  List.map fst result = List.map fst entries ->
  NoDup (map_keys entries) ->
  let files :=
    map_of_entries
      (fixedFiles env storableFormat gameFile sceneJson thumbnail assetsArray
       ++ map_of_entries result) in
  NoDup (map_keys files) /\
  (forall p, In p (map_keys files) <-> In p (fixedPaths env) \/ In p (map_keys entries)) /\
  (NoDup (fixedPaths env) ->
   (forall p, In p (fixedPaths env) -> ~ In p (map_keys entries)) ->
   files = fixedFiles env storableFormat gameFile sceneJson thumbnail assetsArray ++ result).
Proof.
  intros Hkeys Hentries files. split; [apply map_of_entries_nodup |]. split.
  - intros p. unfold files. rewrite map_of_entries_keys, map_app, in_app_iff.
    change (List.map fst (map_of_entries result)) with (map_keys (map_of_entries result)).
    rewrite map_of_entries_keys, Hkeys. reflexivity.
  - intros Hfixed Hdisjoint. unfold files.
    assert (Hresult : NoDup (List.map fst result)).
    { rewrite Hkeys. exact Hentries. }
    rewrite (map_of_entries_distinct _ Hresult).
    apply map_of_entries_distinct. rewrite map_app.
    apply NoDup_app; [exact Hfixed | exact Hresult |].
    intros p Hp. rewrite Hkeys. apply Hdisjoint, Hp.
Qed.

End WithEnv.

Lemma count_calls_cons (p : Call -> bool) (ev : Event) (t : History) :
  count_calls p (ev :: t) = (if p (call_of ev) then 1 else 0) + count_calls p t.
Proof.
  unfold count_calls. simpl. destruct (p (call_of ev)); reflexivity.
Qed.

Lemma count_calls_nil (p : Call -> bool) : count_calls p [] = 0.
Proof.
  reflexivity.
Qed.

Create Rewrite HintDb trace_db.
#[export] Hint Rewrite count_calls_app count_calls_cons count_calls_nil existsb_app
  filter_app : trace_db.

(** *** Symbolic execution of a method

    [run] follows the method through every outcome of every oracle it
    consults; the downloads, an iteration over a list, go through
    [downloads_run]. *)

Ltac unfold_methods :=
  unfold publishSceneState, getStoredState, saveSceneState, saveProjectInfo,
    getProjectManifest, getProjectManifestByCoordinates, createProjectWithCoords,
    sendAssetsToRenderer, deploy, updateProjectDetails, getAllAssets,
    getAllBuilderAssets, downloadAssetFiles, getIdentity, read_builderManifest,
    emit, call, bind, try_catch, ret, throw, lift, gets, modify, log.

Ltac run_downloads :=
  match goal with
  | |- context [promise_all ?first (List.map (download ?e) ?es) ?w0] =>
      let devs := fresh "devs" in
      let Hw := fresh "Hw" in
      let Hall := fresh "Hall" in
      let Hres := fresh "Hres" in
      let r := fresh "r" in
      let wd := fresh "wd" in
      destruct (downloads_run e es w0) as (devs & Hw & Hall & Hres);
      destruct (promise_all first (List.map (download e) es) w0) as [r wd];
      simpl in Hw, Hres; subst wd;
      pose proof (downloads_count_zero is_buildEntity
                    (fun c H => ltac:(destruct c; simpl in *; congruence)) Hall);
      pose proof (downloads_count_zero is_deployEntity
                    (fun c H => ltac:(destruct c; simpl in *; congruence)) Hall);
      pose proof (downloads_count_zero is_publishResult
                    (fun c H => ltac:(destruct c; simpl in *; congruence)) Hall);
      pose proof (downloads_count_zero is_contentClient
                    (fun c H => ltac:(destruct c; simpl in *; congruence)) Hall);
      pose proof (downloads_existsb_false is_built
                    (fun ev H => ltac:(destruct ev as [[] | []]; simpl in *; congruence))
                    Hall);
      pose proof (downloads_existsb_false is_deployed
                    (fun ev H => ltac:(destruct ev as [[] | []]; simpl in *; congruence))
                    Hall);
      pose proof (downloads_existsb_false is_synced
                    (fun ev H => ltac:(destruct ev as [[] | []]; simpl in *; congruence))
                    Hall);
      destruct r; simpl
  end.

Ltac split_scrutinee :=
  match goal with
  | |- context [match ?x with _ => _ end] =>
      lazymatch x with
      | context [match _ with _ => _ end] => fail
      | _ => destruct x eqn:?; simpl
      end
  end.

Ltac run := repeat (run_downloads || split_scrutinee).

(** The events of the run, as an explicit list. *)
Ltac normalize_trace :=
  unfold events_since in *; simpl in *;
  rewrite <- ?app_assoc in *;
  rewrite ?skipn_length_app, ?skipn_length_all in *; simpl in *.

(** What is known of the download events. *)
Ltac use_downloads :=
  repeat match goal with
         | H : _ /\ _ |- _ => destruct H
         end;
  repeat match goal with
         | H : existsb _ _ = _ |- _ => rewrite H
         | H : count_calls _ _ = 0 |- _ => rewrite H
         end.

(** Case analysis on the membership of an event in an explicit trace. *)
Ltac split_in H :=
  simpl in H;
  lazymatch type of H with
  | _ \/ _ => let H1 := fresh H in destruct H as [H1 | H]; [| split_in H]
  | In _ (_ ++ _) =>
      apply in_app_or in H;
      let H1 := fresh H in destruct H as [H1 | H]; [| split_in H]
  | False => contradiction
  | _ => idtac
  end.

(** An explicit trace without its last event. *)
Ltac all_but_last l :=
  lazymatch l with
  | ?x :: nil => constr:(@nil Event)
  | ?x :: ?t => let r := all_but_last t in constr:(x :: r)
  | ?a ++ ?b => let r := all_but_last b in constr:(a ++ r)
  end.

End RunFacts.

(** ** publishSceneState *)

Module PublishFacts.
Import Js Scene Controller JsFacts RunFacts.
Local Open Scope list_scope.

(** Names the run under study and opens the method, ready for [run]. *)
Ltac start_run run0 :=
  let Hrun := fresh "Hrun" in
  match goal with
  | run0 := ?body |- _ =>
      assert (Hrun : run0 = body) by reflexivity; clearbody run0; revert Hrun
  end;
  unfold_methods.

(** Outside DEBUG mode, when a call of a download task is rejected during
    [publishSceneState] (the [fetch], the reading of the response body or
    the conversion to a buffer), the attempt ends with [{ok:false, error}],
    and neither [buildEntity] nor [deployEntity] is called in that attempt.
    A rejected [fetch] is a request that got no response; a response with
    an error status is no rejection. *)
Theorem rejected_download_aborts_publish
    (env : Env) (sceneId sceneName sceneDescription sceneScreenshot : string)
    (sceneState : SerializedSceneState) (w : World) :
  DEBUG env = false ->
  let run := publishSceneState env sceneId sceneName sceneDescription
               sceneScreenshot sceneState w in
  existsb is_failedDownload (events_since w (snd run)) = true ->
  (exists msg, fst run = Ret {| ok := false; error := Some msg |}) /\
  count_calls is_buildEntity (events_since w (snd run)) = 0 /\
  count_calls is_deployEntity (events_since w (snd run)) = 0.
Proof.
  intros Hdebug run0. start_run run0. rewrite Hdebug. simpl.
  run.
  all: intros ->; normalize_trace; autorewrite with trace_db; simpl;
    use_downloads; simpl.
  all: try discriminate.
  all: intros _; split; [eexists; reflexivity | split; reflexivity].
Qed.

(** The server of the asset file of ["abc"] cannot be reached. *)
Lemma rejected_download_witness :
  let run := publishSceneState Samples.no_downloads "scene" "Plaza" "A plaza" "shot"
               Samples.two_entities Samples.world in
  (exists msg, fst run = Ret {| ok := false; error := Some msg |}) /\
  count_calls is_buildEntity (events_since Samples.world (snd run)) = 0 /\
  count_calls is_deployEntity (events_since Samples.world (snd run)) = 0.
Proof.
  apply (@rejected_download_aborts_publish Samples.no_downloads "scene" "Plaza" "A plaza"
           "shot" Samples.two_entities Samples.world); reflexivity.
Defined.

(** C2, on the code.  The asset file of ["abc"] is gone and the server
    answers its download with status 404: the download has failed, and
    [response.ok] is false.  The download task does not look at it: it
    reads the body of the error response as if it were the file, and the
    attempt goes on.  The bundle is built and deployed with the error page
    bound to the path of the model, the one [deployEntity] call of the
    attempt resolves, and [publishSceneState] returns [{ok:true}]. *)
Theorem missing_file_is_deployed :
  let run := publishSceneState Samples.missing_files "scene" "Plaza" "A plaza" "shot"
               Samples.two_entities Samples.world in
  let evs := events_since Samples.world (snd run) in
  let requested := [ Done (GetConvertedAssets ["abc"]); Done (GetBuilderAssets ["abc"]) ] in
  gatherMappings Samples.missing_files [("abc", Samples.abc)]
  = [("models/abc/model.glb", "https://builder/contents/Qm1")] /\
  fetch Samples.missing_files requested "https://builder/contents/Qm1"
  = Ret Samples.not_found /\
  response_ok Samples.not_found = false /\
  existsb is_failedDownload evs = false /\
  fst run = Ret {| ok := true; error := None |} /\
  count_calls is_buildEntity evs = 1 /\
  count_calls is_deployEntity evs = 1 /\
  In (Done (DeployEntity Samples.broken_bundle "entity" "signature")) evs /\
  MapLookup.map_get "models/abc/model.glb" Samples.broken_bundle
  = Some (response_body Samples.not_found).
Proof.
  repeat (split; [reflexivity |]).
  split; [vm_compute; tauto | reflexivity].
Qed.




(** C3, as the code has it.  Outside DEBUG mode, when a call of the
    manifest sync that follows the deployment (the translation to the
    builder format, the manifest update or the thumbnail update) is
    rejected with [e], [publishSceneState] returns [{ok:false, error}] with
    the text of [e] and logs "Deployment failed".  The deployment itself
    stands: [deployEntity] resolved before the sync started, it was called
    once, and nothing is sent to the content server after it.  More
    generally, after a resolved [deployEntity] the call returns [{ok:true}]
    when the sync ran to its end and [{ok:false, error}] when it did not. *)
Theorem manifest_sync_failure_fails_publish
    (env : Env) (sceneId sceneName sceneDescription sceneScreenshot : string)
    (sceneState : SerializedSceneState) (w : World) :
  DEBUG env = false ->
  let run := publishSceneState env sceneId sceneName sceneDescription
               sceneScreenshot sceneState w in
  (forall c e,
      is_manifestSync c = true ->
      In (Failed c e) (events_since w (snd run)) ->
      fst run = Ret {| ok := false; error := Some (toString e) |} /\
      In (Done (LogError "Deployment failed" (toString e))) (events_since w (snd run)) /\
      count_calls is_deployEntity (events_since w (snd run)) = 1 /\
      exists before files entityId authChain after,
        events_since w (snd run)
        = before ++ Done (DeployEntity files entityId authChain) :: after /\
        In (Failed c e) after /\
        count_calls is_contentClient after = 0) /\
  (existsb is_deployed (events_since w (snd run)) = true ->
   (fst run = Ret {| ok := true; error := None |} /\
    existsb is_synced (events_since w (snd run)) = true) \/
   (exists msg,
       fst run = Ret {| ok := false; error := Some msg |} /\
       existsb is_synced (events_since w (snd run)) = false)).
Proof.
  intros Hdebug run0. split.
  - intros c e Hsync. start_run run0. rewrite Hdebug. simpl.
    run.
    all: intros -> Hin; normalize_trace.
    all: split_in Hin;
      try match goal with
          | H : In _ ?devs, Hall : Forall _ ?devs |- _ =>
              rewrite Forall_forall in Hall; apply Hall in H; simpl in H;
              destruct c; discriminate
          end;
      try (subst; discriminate);
      try match goal with
          | H : _ = Failed _ _ |- _ => inversion H; subst; clear H
          end;
      try discriminate.
    all: split; [reflexivity |].
    all: split; [repeat (rewrite in_app_iff; simpl); tauto |].
    all: split; [autorewrite with trace_db; simpl; use_downloads; reflexivity |].
    all: match goal with
         | |- exists before files entityId authChain after,
                ?a :: ?b :: ?devs ++ ?x :: ?y :: Done (DeployEntity ?f ?i ?ch) :: ?rest = _
                /\ _ =>
             exists (a :: b :: devs ++ [x; y]), f, i, ch, rest
         end.
    all: split; [simpl; rewrite <- app_assoc; reflexivity |].
    all: split; [simpl; tauto | reflexivity].
  - start_run run0. rewrite Hdebug. simpl.
    run.
    all: intros ->; normalize_trace; autorewrite with trace_db; simpl;
      use_downloads; simpl.
    all: try discriminate.
    all: intros _; first [left; split; reflexivity | right; eexists; split; reflexivity].
Qed.

(** The builder server rejects the manifest update after the deployment
    went through. *)
Lemma manifest_sync_failure_witness :
  let run := publishSceneState Samples.no_updates "scene" "Plaza" "A plaza" "shot"
               Samples.two_entities Samples.world in
  fst run = Ret {| ok := false; error := Some (toString (Error "Failed to fetch")) |} /\
  In (Done (LogError "Deployment failed" (toString (Error "Failed to fetch"))))
     (events_since Samples.world (snd run)) /\
  count_calls is_deployEntity (events_since Samples.world (snd run)) = 1 /\
  exists before files entityId authChain after,
    events_since Samples.world (snd run)
    = before ++ Done (DeployEntity files entityId authChain) :: after /\
    In (Failed (UpdateProjectManifest
                  (set_title_description "Plaza" "A plaza" Samples.manifest))
               (Error "Failed to fetch")) after /\
    count_calls is_contentClient after = 0.
Proof.
  destruct (@manifest_sync_failure_fails_publish Samples.no_updates "scene" "Plaza"
              "A plaza" "shot" Samples.two_entities Samples.world eq_refl)
    as [Hfailure _].
  apply (Hfailure
           (UpdateProjectManifest
              (set_title_description "Plaza" "A plaza" Samples.manifest))
           (Error "Failed to fetch")).
  - reflexivity.
  - vm_compute. tauto.
Defined.

(** C3 as stated fails: the deployment resolves, the manifest update is
    rejected, and [publishSceneState] returns [{ok:false, error}]. *)
Lemma manifest_sync_failure_is_not_a_warning :
  existsb is_deployed
    (events_since Samples.world
       (snd (publishSceneState Samples.no_updates "scene" "Plaza" "A plaza" "shot"
               Samples.two_entities Samples.world))) = true /\
  In (Failed (UpdateProjectManifest
                (set_title_description "Plaza" "A plaza" Samples.manifest))
             (Error "Failed to fetch"))
     (events_since Samples.world
        (snd (publishSceneState Samples.no_updates "scene" "Plaza" "A plaza" "shot"
                Samples.two_entities Samples.world))) /\
  fst (publishSceneState Samples.no_updates "scene" "Plaza" "A plaza" "shot"
         Samples.two_entities Samples.world)
  = Ret {| ok := false; error := Some "Error: Failed to fetch" |}.
Proof.
  split; [reflexivity |]. split; [vm_compute; tauto | reflexivity].
Qed.

(** Symbolic execution that keeps, for the downloads that are fulfilled,
    what each of them fetched and returned. *)
Ltac run_resolved_downloads :=
  match goal with
  | |- context [promise_all ?first (List.map (download ?e) ?es) ?w0] =>
      let Hdl := fresh "Hdl" in
      pose proof (@downloads_resolved e es w0) as Hdl;
      run_downloads;
      simpl in Hdl;
      first [ specialize (Hdl _ eq_refl); rewrite events_since_add_events in Hdl
            | clear Hdl ]
  end.

Ltac run_bundle := repeat (run_resolved_downloads || split_scrutinee).

(** C8.  Outside DEBUG mode, in every run of [publishSceneState] that
    reaches [buildEntity], the file map handed to it is the [Map] of five
    fixed entries followed by the downloaded files:
    - the scene definition: the storable format of the scene state to
      publish, as JSON;
    - the game file that [createGameFile] made of that scene state and the
      assets the backend resolved;
    - [scene.json]: the metadata of the scene with the published display
      block, as JSON;
    - the thumbnail: the buffer of the decoded screenshot;
    - the asset manifest: the builder assets the backend returned for the
      asset ids of the scene state, as JSON;
    - for every file of a resolved asset, under the models folder, the
      buffer downloaded from the url of the file.
    The map binds, each once, the five fixed paths and the paths of the
    model files, and nothing else; there was one download per model path.
    When the fixed paths are pairwise distinct and none of them is the path
    of a model, the map is the list of these entries itself. *)
Theorem bundle_binds_fixed_paths_and_models
    (env : Env) (sceneId sceneName sceneDescription sceneScreenshot : string)
    (sceneState : SerializedSceneState) (w : World)
    (ev : Event) (pointers : list string) (files : JsMap Buffer)
    (metadata : SceneJson * SceneDeploymentSourceMetadata) :
  DEBUG env = false ->
  let run := publishSceneState env sceneId sceneName sceneDescription
               sceneScreenshot sceneState w in
  In ev (events_since w (snd run)) ->
  call_of ev = BuildEntity pointers files metadata ->
  exists storable thumbnailBlob assets assetsArray gameFile devs thumbnail models,
    fromSerializedStateToStorableFormat env sceneState = Ret storable /\
    base64ToBlob env sceneScreenshot = Ret thumbnailBlob /\
    api_getConvertedAssets env (trace w) (collectAssetIds env sceneState) = Ret assets /\
    api_getBuilderAssets env
      (trace w ++ [Done (GetConvertedAssets (collectAssetIds env sceneState))])
      (collectAssetIds env sceneState) = Ret assetsArray /\
    Observations.downloaded env
      (trace w ++ [ Done (GetConvertedAssets (collectAssetIds env sceneState));
                    Done (GetBuilderAssets (collectAssetIds env sceneState)) ])
      (gatherMappings env assets) devs models /\
    createGameFile env sceneState assets = Ret gameFile /\
    blobToBuffer env
      (trace w ++ Done (GetConvertedAssets (collectAssetIds env sceneState))
               :: Done (GetBuilderAssets (collectAssetIds env sceneState)) :: devs)
      thumbnailBlob = Ret thumbnail /\
    fst metadata
    = set_display {| display_title := Some sceneName;
                     display_description := Some sceneDescription;
                     navmapThumbnail := Some (SCENE_THUMBNAIL (CONTENT_PATH env)) |}
        (sceneJsonData w) /\
    files
    = map_of_entries
        ([ (DEFINITION_FILE (CONTENT_PATH env), JSON_stringify_storable env storable);
           (BUNDLED_GAME_FILE (CONTENT_PATH env), gameFile);
           (SCENE_FILE (CONTENT_PATH env), JSON_stringify_sceneJson env (fst metadata));
           (SCENE_THUMBNAIL (CONTENT_PATH env), thumbnail);
           (ASSETS (CONTENT_PATH env), JSON_stringify_assets env assetsArray) ]
         ++ map_of_entries models) /\
    NoDup (map_keys files) /\
    (forall p,
        In p (map_keys files)
        <-> In p [ DEFINITION_FILE (CONTENT_PATH env);
                   BUNDLED_GAME_FILE (CONTENT_PATH env);
                   SCENE_FILE (CONTENT_PATH env);
                   SCENE_THUMBNAIL (CONTENT_PATH env);
                   ASSETS (CONTENT_PATH env) ] \/
            exists asset fh,
              In asset (map_values assets) /\ In fh (mappings asset) /\
              p = (MODELS_FOLDER (CONTENT_PATH env) ++ "/" ++ file fh)%string) /\
    (forall p,
        In p (map_keys files)
        <-> In p (fixedPaths env) \/ In p (map_keys (gatherMappings env assets))) /\
    NoDup (map_keys (gatherMappings env assets)) /\
    filter (fun ev => is_fetch (call_of ev)) (events_since w (snd run))
    = List.map (fun entry => Done (Fetch (snd entry))) (gatherMappings env assets) /\
    (NoDup (fixedPaths env) ->
     (forall p, In p (fixedPaths env) -> ~ In p (map_keys (gatherMappings env assets))) ->
     files
     = [ (DEFINITION_FILE (CONTENT_PATH env), JSON_stringify_storable env storable);
         (BUNDLED_GAME_FILE (CONTENT_PATH env), gameFile);
         (SCENE_FILE (CONTENT_PATH env), JSON_stringify_sceneJson env (fst metadata));
         (SCENE_THUMBNAIL (CONTENT_PATH env), thumbnail);
         (ASSETS (CONTENT_PATH env), JSON_stringify_assets env assetsArray) ]
       ++ models /\
     map_keys models = map_keys (gatherMappings env assets)).
Proof.
  intros Hdebug run0. start_run run0. rewrite Hdebug. simpl.
  run_bundle.
  all: intros -> Hin Hcall; normalize_trace.
  all: split_in Hin;
    try match goal with
        | H : In _ ?devs, Hall : Forall _ ?devs |- _ =>
            rewrite Forall_forall in Hall; apply Hall in H;
            rewrite Hcall in H; discriminate
        end;
    try (subst; discriminate).
  all: subst ev; simpl in Hcall; inversion Hcall; subst; clear Hcall.
  all: repeat match goal with H : _ /\ _ |- _ => destruct H end.
  all: match goal with
       | Hdl : Observations.downloaded _ _ _ ?devs ?result |- _ =>
           do 5 eexists; exists devs; eexists; exists result
       end.
  all: do 7 (split; [first [reflexivity | eassumption] |]).
  all: (split; [reflexivity |]); (split; [reflexivity |]).
  all: match goal with
       | Hkeys : List.map fst ?result = List.map fst (gatherMappings ?env0 ?assets)
         |- NoDup (map_keys (map_of_entries
                               ((_, JSON_stringify_storable _ ?st) :: (_, ?game)
                                :: (_, JSON_stringify_sceneJson _ ?sj) :: (_, ?thumb)
                                :: (_, JSON_stringify_assets _ ?arr) :: _))) /\ _ =>
           destruct (@entityFiles_keys env0 st game sj thumb arr result
                       (gatherMappings env0 assets) Hkeys
                       (gatherMappings_nodup env0 assets))
             as (Hnd & Hiff & Hexact);
           pose proof (gatherMappings_nodup env0 assets) as Hmodels
       end.
  all: split; [exact Hnd |].
  all: split;
    [intros p; generalize (Hiff p); rewrite gatherMappings_keys;
     intros Hp; exact Hp |].
  all: split; [exact Hiff |].
  all: split; [exact Hmodels |].
  all: split;
    [autorewrite with trace_db; simpl;
     match goal with H : filter _ _ = _ |- _ => rewrite H end;
     rewrite ?app_nil_r; reflexivity |].
  all: intros Hfixed Hdisjoint;
    match goal with
    | Hkeys : List.map fst ?result = List.map fst (gatherMappings _ _) |- _ =>
        split; [exact (Hexact Hfixed Hdisjoint) | exact Hkeys]
    end.
Qed.

(** The bundle of the sample scene: the five fixed documents and the one
    model file of asset ["abc"]. *)
Lemma bundle_witness :
  exists storable thumbnailBlob assets assetsArray gameFile devs thumbnail models,
    fromSerializedStateToStorableFormat Samples.online Samples.two_entities
    = Ret storable /\
    base64ToBlob Samples.online "shot" = Ret thumbnailBlob /\
    api_getConvertedAssets Samples.online (trace Samples.world)
      (collectAssetIds Samples.online Samples.two_entities) = Ret assets /\
    api_getBuilderAssets Samples.online
      (trace Samples.world
       ++ [Done (GetConvertedAssets (collectAssetIds Samples.online Samples.two_entities))])
      (collectAssetIds Samples.online Samples.two_entities) = Ret assetsArray /\
    Observations.downloaded Samples.online
      (trace Samples.world
       ++ [ Done (GetConvertedAssets (collectAssetIds Samples.online Samples.two_entities));
            Done (GetBuilderAssets (collectAssetIds Samples.online Samples.two_entities)) ])
      (gatherMappings Samples.online assets) devs models /\
    createGameFile Samples.online Samples.two_entities assets = Ret gameFile /\
    blobToBuffer Samples.online
      (trace Samples.world
       ++ Done (GetConvertedAssets (collectAssetIds Samples.online Samples.two_entities))
       :: Done (GetBuilderAssets (collectAssetIds Samples.online Samples.two_entities))
       :: devs)
      thumbnailBlob = Ret thumbnail /\
    fst Samples.metadata
    = set_display {| display_title := Some "Plaza";
                     display_description := Some "A plaza";
                     navmapThumbnail :=
                       Some (SCENE_THUMBNAIL (CONTENT_PATH Samples.online)) |}
        (sceneJsonData Samples.world) /\
    Samples.bundle
    = map_of_entries
        ([ (DEFINITION_FILE (CONTENT_PATH Samples.online),
            JSON_stringify_storable Samples.online storable);
           (BUNDLED_GAME_FILE (CONTENT_PATH Samples.online), gameFile);
           (SCENE_FILE (CONTENT_PATH Samples.online),
            JSON_stringify_sceneJson Samples.online (fst Samples.metadata));
           (SCENE_THUMBNAIL (CONTENT_PATH Samples.online), thumbnail);
           (ASSETS (CONTENT_PATH Samples.online),
            JSON_stringify_assets Samples.online assetsArray) ]
         ++ map_of_entries models) /\
    NoDup (map_keys Samples.bundle) /\
    (forall p,
        In p (map_keys Samples.bundle)
        <-> In p [ DEFINITION_FILE (CONTENT_PATH Samples.online);
                   BUNDLED_GAME_FILE (CONTENT_PATH Samples.online);
                   SCENE_FILE (CONTENT_PATH Samples.online);
                   SCENE_THUMBNAIL (CONTENT_PATH Samples.online);
                   ASSETS (CONTENT_PATH Samples.online) ] \/
            exists asset fh,
              In asset (map_values assets) /\ In fh (mappings asset) /\
              p = (MODELS_FOLDER (CONTENT_PATH Samples.online) ++ "/" ++ file fh)%string) /\
    (forall p,
        In p (map_keys Samples.bundle)
        <-> In p (fixedPaths Samples.online) \/
            In p (map_keys (gatherMappings Samples.online assets))) /\
    NoDup (map_keys (gatherMappings Samples.online assets)) /\
    filter (fun ev => is_fetch (call_of ev))
      (events_since Samples.world
         (snd (publishSceneState Samples.online "scene" "Plaza" "A plaza" "shot"
                 Samples.two_entities Samples.world)))
    = List.map (fun entry => Done (Fetch (snd entry))) (gatherMappings Samples.online assets) /\
    (NoDup (fixedPaths Samples.online) ->
     (forall p, In p (fixedPaths Samples.online) ->
                ~ In p (map_keys (gatherMappings Samples.online assets))) ->
     Samples.bundle
     = [ (DEFINITION_FILE (CONTENT_PATH Samples.online),
          JSON_stringify_storable Samples.online storable);
         (BUNDLED_GAME_FILE (CONTENT_PATH Samples.online), gameFile);
         (SCENE_FILE (CONTENT_PATH Samples.online),
          JSON_stringify_sceneJson Samples.online (fst Samples.metadata));
         (SCENE_THUMBNAIL (CONTENT_PATH Samples.online), thumbnail);
         (ASSETS (CONTENT_PATH Samples.online),
          JSON_stringify_assets Samples.online assetsArray) ]
       ++ models /\
     map_keys models = map_keys (gatherMappings Samples.online assets)).
Proof.
  apply (@bundle_binds_fixed_paths_and_models Samples.online "scene" "Plaza" "A plaza"
           "shot" Samples.two_entities Samples.world
           (Done (BuildEntity ["0,0"] Samples.bundle Samples.metadata))
           ["0,0"] Samples.bundle Samples.metadata).
  - reflexivity.
  - vm_compute. tauto.
  - reflexivity.
Defined.







(** Every call of [publishSceneState] that returns has told the renderer
    its result: the publish-result notification is the last event of the
    run, it is the only one, and it carries the value returned. *)
Theorem publish_result_is_notified
    (env : Env) (sceneId sceneName sceneDescription sceneScreenshot : string)
    (sceneState : SerializedSceneState) (w : World) (result : DeploymentResult) :
  let run := publishSceneState env sceneId sceneName sceneDescription
               sceneScreenshot sceneState w in
  fst run = Ret result ->
  exists before,
    events_since w (snd run) = before ++ [Done (SendPublishSceneResult result)] /\
    count_calls is_publishResult before = 0.
Proof.
  intros run0. start_run run0. simpl.
  run.
  all: intros -> Hresult; normalize_trace; try discriminate.
  all: inversion Hresult; subst; clear Hresult.
  all: match goal with
       | |- exists before, ?evs = _ /\ _ =>
           let init := all_but_last evs in exists init
       end.
  all: split;
    [simpl; rewrite <- ?app_assoc; reflexivity
    | autorewrite with trace_db; simpl; use_downloads; reflexivity].
Qed.

(** A failed publication is notified as it is returned. *)
Lemma publish_result_witness :
  exists before,
    events_since Samples.world
      (snd (publishSceneState Samples.no_downloads "scene" "Plaza" "A plaza" "shot"
              Samples.two_entities Samples.world))
    = before ++ [Done (SendPublishSceneResult
                         {| ok := false; error := Some "Error: Failed to fetch" |})] /\
    count_calls is_publishResult before = 0.
Proof.
  apply (@publish_result_is_notified Samples.no_downloads "scene" "Plaza" "A plaza"
           "shot" Samples.two_entities Samples.world
           {| ok := false; error := Some "Error: Failed to fetch" |}).
  reflexivity.
Defined.

(** [publishSceneState] calls [deployEntity] at most once, and only after
    a [buildEntity] that resolved. *)
Theorem deploy_follows_build
    (env : Env) (sceneId sceneName sceneDescription sceneScreenshot : string)
    (sceneState : SerializedSceneState) (w : World) :
  let run := publishSceneState env sceneId sceneName sceneDescription
               sceneScreenshot sceneState w in
  count_calls is_deployEntity (events_since w (snd run)) <= 1 /\
  (count_calls is_deployEntity (events_since w (snd run)) = 1 ->
   existsb is_built (events_since w (snd run)) = true /\
   count_calls is_buildEntity (events_since w (snd run)) = 1).
Proof.
  intros run0. start_run run0. simpl.
  run.
  all: intros ->; normalize_trace; autorewrite with trace_db; simpl;
    use_downloads; simpl.
  all: split; [lia |]; intros Hone; try discriminate; split; reflexivity.
Qed.

End PublishFacts.

(** ** Which operations let an exception escape *)

Module OperationFacts.
Import Js Scene Controller JsFacts RunFacts.
Local Open Scope list_scope.

Lemma transformComponents_world (env : Env) (src : option SceneSource)
    (cs : list (string * BuilderComponent)) (w : World) :
  snd (transformComponents env src cs w) = w.
Proof.
  induction cs as [| [k v] cs IH]; simpl; [reflexivity |].
  unfold bind, lift, ret.
  destruct (transformBuilderComponent env src v); simpl; [| reflexivity].
  destruct (transformComponents env src cs w) as [r w'] eqn:Ht. simpl in IH. subst w'.
  destruct r; reflexivity.
Qed.

Ltac run_transform :=
  match goal with
  | |- context [transformComponents ?e ?src ?cs ?w0] =>
      let r := fresh "r" in
      let wt := fresh "wt" in
      let Hw := fresh "Hw" in
      pose proof (transformComponents_world e src cs w0) as Hw;
      destruct (transformComponents e src cs w0) as [r wt];
      simpl in Hw; subst wt; destruct r; simpl
  end.

Ltac run_all := repeat (run_downloads || run_transform || split_scrutinee).

Section WithEnv.

Variable env : Env.

Lemma saveSceneState_returns (state : SerializedSceneState) (w : World) :
  returns (fst (saveSceneState env state w)) = true.
Proof.
  unfold_methods. simpl. run_all. all: reflexivity.
Qed.

Lemma saveProjectInfo_returns (state : SerializedSceneState)
    (name description screenshot : string) (w : World) :
  returns (fst (saveProjectInfo env state name description screenshot w)) = true.
Proof.
  unfold_methods. simpl. run_all. all: reflexivity.
Qed.

Lemma publishSceneState_returns
    (sceneId name description screenshot : string)
    (state : SerializedSceneState) (w : World) :
  returns (fst (publishSceneState env sceneId name description screenshot state w))
  = match fromSerializedStateToStorableFormat env state with
    | Ret storable =>
        if DEBUG env
        then returns (saveToPersistentStorage env (trace w)
                        (scene_state_key sceneId) storable)
        else true
    | Throw _ => false
    end.
Proof.
  unfold_methods. simpl. run_all. all: reflexivity.
Qed.

Lemma getStoredState_returns (sceneId : string) (w : World) :
  returns (fst (getStoredState env sceneId w))
  = if DEBUG env
    then match getFromPersistentStorage env (trace w) (scene_state_key sceneId) with
         | Ret (Some stored) => returns (fromStorableFormatToSerializedState env stored)
         | Ret None => true
         | Throw _ => false
         end
    else true.
Proof.
  unfold_methods. simpl. run_all. all: reflexivity.
Qed.

Lemma createProjectFromStateDefinition_returns (w : World) :
  returns (fst (createProjectFromStateDefinition env w)) = true.
Proof.
  unfold createProjectFromStateDefinition. unfold_methods. simpl.
  run_all. all: reflexivity.
Qed.

Lemma getProjectManifest_returns (projectId : string) (w : World) :
  returns (fst (getProjectManifest env projectId w))
  = match getCurrentIdentity env (trace w) with
    | Some identity =>
        match api_getBuilderManifestFromProjectId env (trace w) projectId identity with
        | Ret (Some manifest) =>
            returns (fromBuildertoStateDefinitionFormat env (scene manifest)
                       (source (sceneJsonData w)))
        | Ret None => true
        | Throw _ => false
        end
    | None => false
    end.
Proof.
  unfold_methods. simpl. run_all. all: reflexivity.
Qed.

Lemma getProjectManifestByCoordinates_returns (land : string) (w : World) :
  returns (fst (getProjectManifestByCoordinates env land w))
  = match getCurrentIdentity env (trace w) with
    | Some identity =>
        match api_getBuilderManifestFromLandCoordinates env (trace w) land identity with
        | Ret (Some manifest) =>
            returns (fromBuildertoStateDefinitionFormat env (scene manifest)
                       (source (sceneJsonData w)))
        | Ret None => true
        | Throw _ => false
        end
    | None => false
    end.
Proof.
  unfold_methods. simpl. run_all. all: reflexivity.
Qed.

Lemma createProjectWithCoords_returns (coordinates : string) (w : World) :
  returns (fst (createProjectWithCoords env coordinates w))
  = match getCurrentIdentity env (trace w) with
    | Some identity =>
        returns (api_createProjectWithCoords env (trace w) coordinates identity)
    | None => false
    end.
Proof.
  unfold_methods. simpl. run_all. all: reflexivity.
Qed.

Lemma sendAssetsToRenderer_returns (state : SerializedSceneState) (w : World) :
  returns (fst (sendAssetsToRenderer env state w))
  = returns (api_getBuilderAssets env (trace w) (collectAssetIds env state)).
Proof.
  unfold_methods. simpl. run_all. all: reflexivity.
Qed.

End WithEnv.

(** C4, as the code has it.  The operations whose work sits in a
    [try]/[catch] return normally whatever their collaborators do:
    [saveSceneState], [saveProjectInfo], [createProjectFromStateDefinition],
    and outside DEBUG mode [getStoredState] and (once its input converted to
    the storable format) [publishSceneState].  The others have no handler
    and return normally exactly when the steps they take succeed:
    [getProjectManifest], [getProjectManifestByCoordinates] and
    [createProjectWithCoords] need a signed-in identity and a backend that
    answers, [sendAssetsToRenderer] needs the asset request to resolve, and
    in DEBUG mode [publishSceneState] and [getStoredState] need the local
    storage to answer. *)
Theorem exceptions_escape_only_unguarded_operations (env : Env) (w : World) :
  (forall state, returns (fst (saveSceneState env state w)) = true) /\
  (forall state name description screenshot,
      returns (fst (saveProjectInfo env state name description screenshot w)) = true) /\
  returns (fst (createProjectFromStateDefinition env w)) = true /\
  (forall sceneId,
      returns (fst (getStoredState env sceneId w))
      = if DEBUG env
        then match getFromPersistentStorage env (trace w) (scene_state_key sceneId) with
             | Ret (Some stored) =>
                 returns (fromStorableFormatToSerializedState env stored)
             | Ret None => true
             | Throw _ => false
             end
        else true) /\
  (forall sceneId name description screenshot state,
      returns (fst (publishSceneState env sceneId name description screenshot state w))
      = match fromSerializedStateToStorableFormat env state with
        | Ret storable =>
            if DEBUG env
            then returns (saveToPersistentStorage env (trace w)
                            (scene_state_key sceneId) storable)
            else true
        | Throw _ => false
        end) /\
  (forall projectId,
      returns (fst (getProjectManifest env projectId w))
      = match getCurrentIdentity env (trace w) with
        | Some identity =>
            match api_getBuilderManifestFromProjectId env (trace w) projectId identity with
            | Ret (Some manifest) =>
                returns (fromBuildertoStateDefinitionFormat env (scene manifest)
                           (source (sceneJsonData w)))
            | Ret None => true
            | Throw _ => false
            end
        | None => false
        end) /\
  (forall land,
      returns (fst (getProjectManifestByCoordinates env land w))
      = match getCurrentIdentity env (trace w) with
        | Some identity =>
            match api_getBuilderManifestFromLandCoordinates env (trace w) land identity with
            | Ret (Some manifest) =>
                returns (fromBuildertoStateDefinitionFormat env (scene manifest)
                           (source (sceneJsonData w)))
            | Ret None => true
            | Throw _ => false
            end
        | None => false
        end) /\
  (forall coordinates,
      returns (fst (createProjectWithCoords env coordinates w))
      = match getCurrentIdentity env (trace w) with
        | Some identity =>
            returns (api_createProjectWithCoords env (trace w) coordinates identity)
        | None => false
        end) /\
  (forall state,
      returns (fst (sendAssetsToRenderer env state w))
      = returns (api_getBuilderAssets env (trace w) (collectAssetIds env state))).
Proof.
  repeat split; intros.
  - apply saveSceneState_returns.
  - apply saveProjectInfo_returns.
  - apply createProjectFromStateDefinition_returns.
  - apply getStoredState_returns.
  - apply publishSceneState_returns.
  - apply getProjectManifest_returns.
  - apply getProjectManifestByCoordinates_returns.
  - apply createProjectWithCoords_returns.
  - apply sendAssetsToRenderer_returns.
Qed.

(** C4 as stated fails: with nobody signed in, [getProjectManifest] ends by
    the exception of [getIdentity], which nothing catches. *)
Lemma getProjectManifest_lets_exception_escape :
  getCurrentIdentity Samples.signed_out (trace Samples.world) = None /\
  fst (getProjectManifest Samples.signed_out "p1" Samples.world)
  = Throw (Error "Identity not found when trying to deploy an entity").
Proof.
  split; reflexivity.
Qed.

End OperationFacts.

(** ** The stateful scene worker *)

Module WorkerFacts.
Import Js Scene StatefulScene.
Local Open Scope list_scope.

#[local] Arguments deliver_all : simpl never.

Lemma count_app (p : Event -> bool) (a b : History) :
  count p (a ++ b) = count p a + count p b.
Proof.
  unfold count. rewrite filter_app, length_app. reflexivity.
Qed.

Section WithEnv.

Variable env : Env.

(** Before [forwardChangesTo], nobody listens to the renderer. *)
Lemma deliver_all_idle (changes : list Change) (w : World) :
  forwarding w = false -> deliver_all env changes w = w.
Proof.
  unfold deliver_all. revert w. induction changes as [| c changes IH]; intros w Hw; simpl.
  - reflexivity.
  - unfold deliver at 2. rewrite Hw. apply IH, Hw.
Qed.

(** After it, every change of the renderer is applied, in order. *)
Lemma deliver_all_forwarding (changes : list Change) (w : World) :
  forwarding w = true ->
  trace (deliver_all env changes w) = trace w ++ List.map Applied changes.
Proof.
  unfold deliver_all. revert w. induction changes as [| c changes IH]; intros w Hw; simpl.
  - rewrite app_nil_r. reflexivity.
  - unfold deliver at 2. rewrite Hw. rewrite IH by reflexivity.
    simpl. rewrite <- app_assoc. reflexivity.
Qed.

Lemma count_signal_applied (changes : list Change) :
  count is_signal (List.map Applied changes) = 0 /\
  count is_push (List.map Applied changes) = 0 /\
  count is_subscription (List.map Applied changes) = 0.
Proof.
  unfold count. induction changes as [| c changes IH]; simpl; auto.
Qed.

Ltac boot :=
  repeat first
    [ rewrite deliver_all_idle by reflexivity; simpl
    | match goal with
      | |- context [match ?x with _ => _ end] =>
          lazymatch x with
          | context [match _ with _ => _ end] => fail
          | _ => destruct x eqn:?; simpl
          end
      end ].

(** What initialization does to the freshly constructed worker. *)
Lemma systemDidEnable_run :
  (exists e,
      fst (systemDidEnable env fresh) = Throw e /\
      forwarding (snd (systemDidEnable env fresh)) = false /\
      count is_signal (trace (snd (systemDidEnable env fresh))) = 0 /\
      count is_applied (trace (snd (systemDidEnable env fresh))) = 0 /\
      count is_push (trace (snd (systemDidEnable env fresh))) = 0) \/
  (exists before after,
      fst (systemDidEnable env fresh) = Ret tt /\
      forwarding (snd (systemDidEnable env fresh)) = true /\
      trace (snd (systemDidEnable env fresh))
      = before ++ Done ForwardChangesTo :: Done SendInitFinished :: after /\
      count is_signal before = 0 /\
      count is_applied before = 0 /\
      count is_subscription before = 0 /\
      count is_signal after = 0 /\
      count is_applied after = 0 /\
      count is_push after = 0 /\
      count is_subscription after = 0).
Proof.
  unfold systemDidEnable, listenToEvents, await, emit, bind, modify, ret. simpl.
  boot.
  all: try (left; eexists; repeat split; reflexivity).
  - right.
    match goal with
    | |- context [SendStateTo ?d] =>
        exists [Done GetParcel; Done GetIsEmpty; Done GetInititalSceneState;
                Done (SendAssetsFromScene d); Done (SendStateTo d);
                Done (Log "Sent initial load")],
               [Done (Subscribe "stateEvent"); Done (Subscribe "stateEvent");
                Done (Subscribe "stateEvent")]
    end.
    repeat split; reflexivity.
  - right.
    exists [Done GetParcel; Done GetIsEmpty],
           [Done (Subscribe "stateEvent"); Done (Subscribe "stateEvent");
            Done (Subscribe "stateEvent")].
    repeat split; reflexivity.
Qed.

End WithEnv.

(** A trace without an event of a kind has none at any position. *)
Lemma count_zero_nth (p : Event -> bool) (t : History) (i : nat) (ev : Event) :
  count p t = 0 -> nth_error t i = Some ev -> p ev = false.
Proof.
  unfold count. intros Hcount Hnth. apply nth_error_In in Hnth.
  destruct (p ev) eqn:Hp; [| reflexivity].
  assert (Hin : In ev (filter p t)) by (apply filter_In; split; assumption).
  apply length_zero_iff_nil in Hcount. rewrite Hcount in Hin. contradiction Hin.
Qed.

Lemma count_zero_filter (p : Event -> bool) (t : History) :
  count p t = 0 -> filter p t = [].
Proof.
  unfold count. apply length_zero_iff_nil.
Qed.

Lemma filter_applied (changes : list Change) :
  filter is_applied (List.map Applied changes) = List.map Applied changes.
Proof.
  induction changes as [| c changes IH]; simpl; [reflexivity | rewrite IH; reflexivity].
Qed.

(** C5.  In every initialization that completes, the "initialization
    finished" signal is sent exactly once, after the initial push, and the
    renderer's changes are accepted and applied to the scene definition
    only after it: every change that is applied stands after the signal in
    the trace.  What the renderer sent while the initialization was under
    way is not applied; what it sends afterwards is applied, change by
    change and in order.  An initialization that fails at one of its awaits
    has pushed nothing, sends no signal and applies no change. *)
Theorem signal_precedes_every_applied_change (env : Env) (later : list Change) :
  let t := trace (snd (session env later)) in
  (fst (session env later) = Ret tt ->
   count is_signal t = 1 /\
   exists s,
     nth_error t s = Some (Done SendInitFinished) /\
     (forall i definition,
        nth_error t i = Some (Done (SendStateTo definition)) -> i < s) /\
     (forall i change, nth_error t i = Some (Applied change) -> s < i) /\
     filter is_applied t = List.map Applied later) /\
  (fst (session env later) <> Ret tt ->
   count is_push t = 0 /\ count is_signal t = 0 /\ count is_applied t = 0).
Proof.
  intros t. subst t. unfold session.
  destruct (systemDidEnable_run env)
    as [(e & Hr & Hf & Hs & Ha & Hp)
       | (before & after & Hr & Hf & Ht & Hsb & Hab & Hub & Hsa & Haa & Hpa & Hua)].
  - destruct (systemDidEnable env fresh) as [r w]. simpl in *. subst r. split.
    + discriminate.
    + intros _. rewrite deliver_all_idle by exact Hf. auto.
  - destruct (systemDidEnable env fresh) as [r w]. simpl in *. subst r.
    split; [| intros H; contradiction H; reflexivity].
    intros _. rewrite deliver_all_forwarding by exact Hf. rewrite Ht.
    destruct (count_signal_applied later) as (H1 & H2 & H3).
    set (pre := before ++ [Done ForwardChangesTo]).
    set (post := after ++ List.map Applied later).
    assert (Hshape :
              (before ++ Done ForwardChangesTo :: Done SendInitFinished :: after)
                ++ List.map Applied later
              = pre ++ Done SendInitFinished :: post).
    { unfold pre, post. rewrite <- !app_assoc. reflexivity. }
    rewrite Hshape.
    assert (Hpre_signal : count is_signal pre = 0).
    { unfold pre. rewrite count_app, Hsb. reflexivity. }
    assert (Hpre_applied : count is_applied (pre ++ [Done SendInitFinished]) = 0).
    { unfold pre. rewrite !count_app, Hab. reflexivity. }
    assert (Hpost_signal : count is_signal post = 0).
    { unfold post. rewrite count_app, Hsa, H1. reflexivity. }
    assert (Hpost_push : count is_push (Done SendInitFinished :: post) = 0).
    { unfold post. change (Done SendInitFinished :: after ++ List.map Applied later)
        with ([Done SendInitFinished] ++ after ++ List.map Applied later).
      rewrite !count_app, Hpa, H2. reflexivity. }
    split.
    + change (Done SendInitFinished :: post) with ([Done SendInitFinished] ++ post).
      rewrite !count_app, Hpre_signal, Hpost_signal. reflexivity.
    + exists (length pre).
      split; [rewrite nth_error_app2, Nat.sub_diag by lia; reflexivity |].
      split; [| split].
      * intros i definition Hi.
        destruct (Nat.lt_ge_cases i (length pre)) as [Hlt | Hge]; [exact Hlt |].
        rewrite nth_error_app2 in Hi by exact Hge.
        pose proof (count_zero_nth _ _ _ Hpost_push Hi) as Hno. discriminate Hno.
      * intros i change Hi.
        destruct (Nat.lt_ge_cases (length pre) i) as [Hlt | Hge]; [exact Hlt |].
        change (Done SendInitFinished :: post) with ([Done SendInitFinished] ++ post) in Hi.
        rewrite app_assoc, nth_error_app1 in Hi
          by (rewrite length_app; simpl; lia).
        pose proof (count_zero_nth _ _ _ Hpre_applied Hi) as Hno. discriminate Hno.
      * change (Done SendInitFinished :: post) with ([Done SendInitFinished] ++ post).
        rewrite app_assoc, filter_app, (count_zero_filter _ _ Hpre_applied).
        unfold post. rewrite filter_app, (count_zero_filter _ _ Haa), filter_applied.
        reflexivity.
Qed.

(** A parcel with one entity; the renderer edits while the worker still
    waits for [getIsEmpty], and once more after the initialization: the
    first edit is not heard, the second is applied, after the signal. *)
Lemma signal_witness :
  let t := trace (snd (session (Samples.worker false [Samples.edit]) [Samples.edit])) in
  count is_signal t = 1 /\
  exists s,
    nth_error t s = Some (Done SendInitFinished) /\
    (forall i definition,
       nth_error t i = Some (Done (SendStateTo definition)) -> i < s) /\
    (forall i change, nth_error t i = Some (Applied change) -> s < i) /\
    filter is_applied t = [Applied Samples.edit].
Proof.
  exact (proj1 (signal_precedes_every_applied_change
                  (Samples.worker false [Samples.edit]) [Samples.edit]) eq_refl).
Defined.

(** C6.  When [getIsEmpty] reports true, initialization completes with a
    scene definition of zero entities, asks the builder backend nothing
    (neither the stored scene nor its assets), and sends the
    "initialization finished" signal, once. *)
Theorem empty_parcel_boots_empty_scene (env : Env) (parcel : string * Land) :
  getParcel env [] = Ret parcel ->
  getIsEmpty env [Done GetParcel] = Ret true ->
  fst (systemDidEnable env fresh) = Ret tt /\
  sceneDefinition (snd (systemDidEnable env fresh)) = Some [] /\
  trace (snd (systemDidEnable env fresh))
  = [ Done GetParcel; Done GetIsEmpty; Done ForwardChangesTo; Done SendInitFinished;
      Done (Subscribe "stateEvent"); Done (Subscribe "stateEvent");
      Done (Subscribe "stateEvent") ] /\
  count is_backend (trace (snd (systemDidEnable env fresh))) = 0 /\
  count is_signal (trace (snd (systemDidEnable env fresh))) = 1.
Proof.
  intros Hparcel Hempty.
  unfold systemDidEnable, listenToEvents, await, emit, bind, modify, ret. simpl.
  rewrite deliver_all_idle by reflexivity. simpl. rewrite Hparcel. simpl.
  rewrite deliver_all_idle by reflexivity. simpl. rewrite Hempty. simpl.
  repeat split; reflexivity.
Qed.

(** An empty parcel, with a renderer that already sends an edit while the
    worker waits. *)
Lemma empty_parcel_witness :
  fst (systemDidEnable (Samples.worker true [Samples.edit]) fresh) = Ret tt /\
  sceneDefinition (snd (systemDidEnable (Samples.worker true [Samples.edit]) fresh))
  = Some [] /\
  trace (snd (systemDidEnable (Samples.worker true [Samples.edit]) fresh))
  = [ Done GetParcel; Done GetIsEmpty; Done ForwardChangesTo; Done SendInitFinished;
      Done (Subscribe "stateEvent"); Done (Subscribe "stateEvent");
      Done (Subscribe "stateEvent") ] /\
  count is_backend
    (trace (snd (systemDidEnable (Samples.worker true [Samples.edit]) fresh))) = 0 /\
  count is_signal
    (trace (snd (systemDidEnable (Samples.worker true [Samples.edit]) fresh))) = 1.
Proof.
  apply (@empty_parcel_boots_empty_scene (Samples.worker true [Samples.edit])
           ("cid", "land")); reflexivity.
Defined.

End WorkerFacts.

(** ** The storable format *)

Module TranslationFacts.
Import Js Scene StorableSceneStateTranslation.
Local Open Scope list_scope.

Lemma insert_component_perm (c : Component) (cs : list Component) :
  Permutation (insert_component c cs) (c :: cs).
Proof.
  induction cs as [| d cs IH]; simpl.
  - apply Permutation_refl.
  - destruct (type c <=? type d)%Z.
    + apply Permutation_refl.
    + apply Permutation_trans with (d :: c :: cs).
      * apply perm_skip, IH.
      * apply perm_swap.
Qed.

Lemma canonical_components_perm (cs : list Component) :
  Permutation (canonical_components cs) cs.
Proof.
  induction cs as [| c cs IH]; simpl.
  - apply Permutation_refl.
  - apply Permutation_trans with (c :: canonical_components cs).
    + apply insert_component_perm.
    + apply perm_skip, IH.
Qed.

Lemma insert_component_sorted (c : Component) (cs : list Component) :
  sorted_by_type cs -> sorted_by_type (insert_component c cs).
Proof.
  induction cs as [| d cs IH]; simpl; intros Hs.
  - auto.
  - destruct (type c <=? type d)%Z eqn:Hle.
    + apply Z.leb_le in Hle. simpl. auto.
    + apply Z.leb_gt in Hle. destruct Hs as [Hd Hs]. specialize (IH Hs).
      simpl. split; [| exact IH].
      destruct cs as [| d' cs]; simpl.
      * lia.
      * destruct (type c <=? type d')%Z; simpl; lia.
Qed.

(** The order of the storable format is deterministic: the components of
    every stored entity are sorted by type. *)
Lemma canonical_components_sorted (cs : list Component) :
  sorted_by_type (canonical_components cs).
Proof.
  induction cs as [| c cs IH]; simpl.
  - exact I.
  - apply insert_component_sorted, IH.
Qed.

Lemma canonical_entity_equivalent (e : SerializedEntity) :
  equivalent_entity (canonical_entity e) e.
Proof.
  split; [reflexivity | apply canonical_components_perm].
Qed.

(** C9.  For every serialized scene state [S], decoding the storable
    encoding of [S] yields a state structurally equivalent to [S] modulo
    component ordering: the same entities in the same order, each with the
    same components up to their order. *)
Theorem storable_round_trip (S : SerializedSceneState) :
  equivalent
    (fromStorableFormatToSerializedState (fromSerializedStateToStorableFormat S)) S.
Proof.
  unfold equivalent, fromStorableFormatToSerializedState,
    fromSerializedStateToStorableFormat. simpl.
  induction (entities S) as [| e es IH]; simpl.
  - constructor.
  - constructor; [apply canonical_entity_equivalent | exact IH].
Qed.

(** On the scene of the specification's scenario the round trip is the
    identity. *)
Example storable_round_trip_two_entities :
  fromStorableFormatToSerializedState
    (fromSerializedStateToStorableFormat Samples.two_entities)
  = Samples.two_entities.
Proof.
  reflexivity.
Qed.

End TranslationFacts.

(** ** The model at work on small inputs *)

Module Examples.
Import Js Scene Controller.
Local Open Scope list_scope.

(** A later entry of a [Map] replaces an earlier one under the same key,
    in the earlier one's place. *)
Example map_of_entries_last_wins :
  map_of_entries [("a", "1"); ("b", "2"); ("a", "3")] = [("a", "3"); ("b", "2")].
Proof.
  reflexivity.
Qed.

Example toString_of_error :
  toString (Error identity_not_found)
  = "Error: Identity not found when trying to deploy an entity"%string.
Proof.
  reflexivity.
Qed.

(** Two shapes that share an asset, a shape with an empty asset id, and a
    component of another type that carries an asset id: one id is
    requested. *)
Example collectAssetIds_deduplicates :
  collectAssetIds Samples.online
    {| entities :=
         [ {| id := "E1"; components := [Samples.transform; Samples.shape] |};
           {| id := "E2"; components := [Samples.shape] |};
           {| id := "E3";
              components :=
                [ {| type := 54; value := {| assetId := Some ""; payload := "" |} |};
                  {| type := 1; value := {| assetId := Some "xyz"; payload := "" |} |} ] |} ] |}
  = ["abc"%string].
Proof.
  reflexivity.
Qed.

(** A publication in which everything answers. *)
Example publish_online :
  let run := publishSceneState Samples.online "scene" "Plaza" "A plaza" "shot"
               Samples.two_entities Samples.world in
  fst run = Ret {| ok := true; error := None |} /\
  List.map call_of (events_since Samples.world (snd run))
  = [ GetConvertedAssets ["abc"%string];
      GetBuilderAssets ["abc"%string];
      Fetch "https://builder/contents/Qm1";
      ResponseBlob "https://builder/contents/Qm1";
      BlobToBuffer "response";
      BlobToBuffer "shot";
      BuildEntity ["0,0"%string] Samples.bundle Samples.metadata;
      DeployEntity Samples.bundle "entity" "signature";
      ToBuilderFromStateDefinitionFormat;
      UpdateProjectManifest (set_title_description "Plaza" "A plaza" Samples.manifest);
      UpdateProjectThumbnail "p1" "shot";
      SendPublishSceneResult {| ok := true; error := None |} ] /\
  builderManifest (snd run) = Some (clear_creation_coords Samples.manifest).
Proof.
  repeat split.
Qed.

(** Saving without an identity is reported, not thrown. *)
Example save_signed_out :
  fst (saveSceneState Samples.signed_out Samples.two_entities Samples.world)
  = Ret {| ok := false;
           error := Some "Error: Identity not found when trying to deploy an entity"%string |}.
Proof.
  reflexivity.
Qed.

End Examples.
(** ** Saving to the builder server *)

Module SaveFacts.
Import Js Scene Controller Observations JsFacts RunFacts PublishFacts OperationFacts.
Local Open Scope list_scope.

#[local] Arguments toString : simpl never.

(** A run that ended in the handler: the log line is its last event. *)
Ltac ends_with_log :=
  match goal with
  | |- _ /\ _ /\ count_calls _ ?evs = 0 \/ _ =>
      let init := all_but_last evs in right; eexists; exists init
  end;
  repeat split; reflexivity.

(** One goal per conjunct, without entering the hypotheses of a conjunct. *)
Ltac conjuncts :=
  repeat match goal with
         | |- _ /\ _ => split
         end.

(** Settles a statement about every event of an explicit trace. *)
Ltac each_event :=
  let ev := fresh "ev" in
  intros ev; intros;
  try match goal with
      | H : In ev _ |- _ => split_in H
      | H : _ \/ _ |- _ => split_in H
      end;
  subst; simpl in *; try discriminate; try contradiction.

(** [saveSceneState] answers [{ok:true}] exactly when the manifest update
    on the builder server resolved, and logs nothing then.  In every other
    run it answers [{ok:false, error}] with the text of the exception, which
    it logs once, as its last action, under "Saving manifest failed".  It
    asks for at most one manifest update, never talks to the content
    server or to the renderer, and leaves the controller's fields as they
    were. *)
Theorem saveSceneState_reports_the_manifest_update
    (env : Env) (state : SerializedSceneState) (w : World) :
  let run := saveSceneState env state w in
  let evs := events_since w (snd run) in
  ((fst run = Ret {| ok := true; error := None |} /\
    existsb is_manifestUpdated evs = true /\
    count_calls is_logged evs = 0) \/
   (exists e before,
      fst run = Ret {| ok := false; error := Some (toString e) |} /\
      existsb is_manifestUpdated evs = false /\
      evs = before ++ [Done (LogError "Saving manifest failed" (toString e))] /\
      count_calls is_logged before = 0)) /\
  count_calls is_manifestUpdate evs <= 1 /\
  count_calls is_contentClient evs = 0 /\
  count_calls is_renderer evs = 0 /\
  same_fields w (snd run).
Proof.
  intros run0 evs. subst evs. start_run run0. simpl.
  run.
  all: intros ->; normalize_trace; unfold same_fields; simpl.
  all: split;
    [| autorewrite with trace_db; simpl; repeat split; reflexivity || lia].
  all: first [left; repeat split; reflexivity | ends_with_log].
Qed.

(** [saveProjectInfo] answers [true] exactly when the thumbnail update,
    its last request, resolved; otherwise it answers [false] and its last
    action is the log line "Project details updating failed".  The
    manifest it sends carries the given name and description.  The
    thumbnail is only sent after that manifest update resolved, for the
    project of that manifest, and it is the decoded screenshot.  Each of
    the two updates is requested at most once; the content server and the
    renderer are not contacted.  The translator and the scene's
    [scene.json] stay as they were.  The controller's manifest stays as it
    was unless the translation resolved with a manifest that shares its
    project object; then the title and the description written for the
    update are written into the controller's manifest too, and nothing
    else of it changes, whether or not the updates go through. *)
Theorem saveProjectInfo_updates_manifest_then_thumbnail
    (env : Env) (state : SerializedSceneState)
    (projectName projectDescription projectScreenshot : string) (w : World) :
  let run := saveProjectInfo env state projectName projectDescription
               projectScreenshot w in
  let evs := events_since w (snd run) in
  ((fst run = Ret true /\
    existsb is_synced evs = true /\
    count_calls is_logged evs = 0) \/
   (exists e before,
      fst run = Ret false /\
      existsb is_synced evs = false /\
      evs = before
            ++ [Done (LogError "Project details updating failed" (toString e))] /\
      count_calls is_logged before = 0)) /\
  (forall ev manifest,
     In ev evs -> call_of ev = UpdateProjectManifest manifest ->
     title (project manifest) = projectName /\
     description (project manifest) = projectDescription) /\
  (forall ev projectId thumbnail,
     In ev evs -> call_of ev = UpdateProjectThumbnail projectId thumbnail ->
     base64ToBlob env projectScreenshot = Ret thumbnail /\
     exists manifest,
       In (Done (UpdateProjectManifest manifest)) evs /\
       projectId = project_id (project manifest)) /\
  count_calls is_manifestUpdate evs <= 1 /\
  count_calls is_thumbnailUpdate evs <= 1 /\
  count_calls is_contentClient evs = 0 /\
  count_calls is_renderer evs = 0 /\
  transformTranslator (snd run) = transformTranslator w /\
  sceneJsonData (snd run) = sceneJsonData w /\
  (existsb is_translated evs = false ->
   builderManifest (snd run) = builderManifest w) /\
  (shares_project env (trace w ++ [Done ToBuilderFromStateDefinitionFormat]) = false ->
   builderManifest (snd run) = builderManifest w) /\
  (existsb is_translated evs = true ->
   shares_project env (trace w ++ [Done ToBuilderFromStateDefinitionFormat]) = true ->
   (builderManifest w = None -> builderManifest (snd run) = None) /\
   (forall m,
      builderManifest w = Some m ->
      exists m',
        builderManifest (snd run) = Some m' /\
        retitled projectName projectDescription m m')).
Proof.
  intros run0 evs. subst evs. start_run run0. simpl.
  run.
  all: intros ->; normalize_trace; simpl.
  all: split; [first [left; repeat split; reflexivity | ends_with_log] |].
  all: split;
    [ each_event;
      match goal with H : _ = UpdateProjectManifest _ |- _ => inversion H end;
      subst; split; reflexivity
    | ].
  all: split;
    [ each_event;
      match goal with H : _ = UpdateProjectThumbnail _ _ |- _ => inversion H end;
      subst;
      (split; [reflexivity | eexists; (split; [simpl; eauto | reflexivity])])
    | ].
  all: autorewrite with trace_db; simpl.
  all: conjuncts; try reflexivity; try lia.
  all: try (intros; congruence).
  all: intros _ _; split;
    [ intros Hnone; rewrite Hnone; reflexivity
    | intros m Hm; rewrite Hm; simpl; eexists; split; [reflexivity |];
      repeat split; reflexivity ].
Qed.

(** The translator answers with the manifest it was handed: the new title
    and description of the project are in the controller's manifest after
    [saveProjectInfo]. *)
Lemma saveProjectInfo_witness :
  let run := saveProjectInfo Samples.echoing Samples.two_entities "Square" "A square"
               "shot" Samples.world in
  exists m',
    builderManifest (snd run) = Some m' /\
    retitled "Square" "A square" Samples.manifest m'.
Proof.
  destruct (@saveProjectInfo_updates_manifest_then_thumbnail Samples.echoing
              Samples.two_entities "Square" "A square" "shot" Samples.world)
    as (_ & _ & _ & _ & _ & _ & _ & _ & _ & _ & _ & Hshared).
  destruct (Hshared eq_refl eq_refl) as [_ Hsome].
  exact (Hsome Samples.manifest eq_refl).
Defined.

End SaveFacts.

(** ** Loading and creating a project *)

Module ProjectFacts.
Import Js Scene Controller Observations JsFacts RunFacts PublishFacts OperationFacts.
Import SaveFacts.
Local Open Scope list_scope.

#[local] Arguments toString : simpl never.

(** With somebody signed in, the three operations that obtain a project
    from the builder server make one request each.  A project that is found
    ([getProjectManifest], [getProjectManifestByCoordinates]) or created
    ([createProjectWithCoords]) becomes the controller's current project,
    the transform translator is rebuilt from the scene's source block, and
    the renderer is told the title and the description, with the "new
    empty project" flag only for a created project.  For the two lookups
    this is done before the manifest is translated, so the project stays
    installed when the translation throws.  A lookup that finds nothing
    answers [undefined], tells the renderer nothing and keeps the fields.
    [createProjectWithCoords] answers [true] whenever it answers. *)
Theorem loaders_install_the_project
    (env : Env) (key : string) (w : World) (identity : ExplorerIdentity) :
  getCurrentIdentity env (trace w) = Some identity ->
  let byId := getProjectManifest env key w in
  let byCoordinates := getProjectManifestByCoordinates env key w in
  let created := createProjectWithCoords env key w in
  (forall m,
     api_getBuilderManifestFromProjectId env (trace w) key identity = Ret (Some m) ->
     installed w (snd byId) (GetBuilderManifestFromProjectId key) m false /\
     fst byId
     = match fromBuildertoStateDefinitionFormat env (scene m)
               (source (sceneJsonData w)) with
       | Ret definition => Ret (Some (serializeSceneState env definition))
       | Throw e => Throw e
       end) /\
  (api_getBuilderManifestFromProjectId env (trace w) key identity = Ret None ->
   fst byId = Ret None /\
   same_fields w (snd byId) /\
   events_since w (snd byId) = [Done (GetBuilderManifestFromProjectId key)]) /\
  (forall m,
     api_getBuilderManifestFromLandCoordinates env (trace w) key identity
     = Ret (Some m) ->
     installed w (snd byCoordinates) (GetBuilderManifestFromLandCoordinates key)
       m false /\
     fst byCoordinates
     = match fromBuildertoStateDefinitionFormat env (scene m)
               (source (sceneJsonData w)) with
       | Ret definition => Ret (Some (serializeSceneState env definition))
       | Throw e => Throw e
       end) /\
  (api_getBuilderManifestFromLandCoordinates env (trace w) key identity = Ret None ->
   fst byCoordinates = Ret None /\
   same_fields w (snd byCoordinates) /\
   events_since w (snd byCoordinates)
   = [Done (GetBuilderManifestFromLandCoordinates key)]) /\
  (forall m,
     api_createProjectWithCoords env (trace w) key identity = Ret m ->
     installed w (snd created) (ApiCreateProjectWithCoords key) m true /\
     fst created = Ret true) /\
  fst created <> Ret false.
Proof.
  intros Hid byId byCoordinates created.
  subst byId byCoordinates created. unfold installed, same_fields.
  unfold_methods. simpl. rewrite Hid. simpl.
  repeat match goal with
         | |- _ /\ _ => split
         end.
  1-5: intros; match goal with H : _ = Ret _ |- _ => rewrite H end; simpl.
  1-5: try (destruct (fromBuildertoStateDefinitionFormat env (scene m)
                        (source (sceneJsonData w))); simpl).
  1-8: normalize_trace; repeat split; reflexivity.
  destruct (api_createProjectWithCoords env (trace w) key identity); simpl;
    discriminate.
Qed.

(** [alice] looks up, and creates, the sample project. *)
Lemma loaders_witness :
  installed Samples.world (snd (getProjectManifest Samples.online "p1" Samples.world))
    (GetBuilderManifestFromProjectId "p1") Samples.manifest false /\
  installed Samples.world
    (snd (getProjectManifestByCoordinates Samples.online "0,0" Samples.world))
    (GetBuilderManifestFromLandCoordinates "0,0") Samples.manifest false /\
  installed Samples.world
    (snd (createProjectWithCoords Samples.online "0,0" Samples.world))
    (ApiCreateProjectWithCoords "0,0") Samples.manifest true.
Proof.
  destruct (@loaders_install_the_project Samples.online "p1" Samples.world
              Samples.alice eq_refl) as (Hid & _).
  destruct (@loaders_install_the_project Samples.online "0,0" Samples.world
              Samples.alice eq_refl) as (_ & _ & Hcoord & _ & Hcreate & _).
  split; [exact (proj1 (Hid _ eq_refl)) |].
  split; [exact (proj1 (Hcoord _ eq_refl)) | exact (proj1 (Hcreate _ eq_refl))].
Defined.

(** Closes the branches in which somebody is signed in. *)
Ltac signed_out Hid :=
  try match goal with
      | H : getCurrentIdentity _ _ = Some _ |- _ => rewrite Hid in H; discriminate
      end.

(** While nobody is signed in, the operations that need an identity ask
    the builder server for nothing: the lookups and the creation throw the
    missing identity before any request, and the two saves, which catch it,
    answer [{ok:false, error}] and [false] without a manifest or thumbnail
    update.  The error of [saveSceneState] is the missing identity once the
    translation to the builder's format resolved. *)
Theorem signed_out_reaches_no_builder_request
    (env : Env) (key : string) (state : SerializedSceneState)
    (projectName projectDescription projectScreenshot : string) (w : World) :
  (forall h, getCurrentIdentity env h = None) ->
  let save := saveSceneState env state w in
  let info := saveProjectInfo env state projectName projectDescription
                projectScreenshot w in
  fst (getProjectManifest env key w) = Throw (Error identity_not_found) /\
  snd (getProjectManifest env key w) = w /\
  fst (getProjectManifestByCoordinates env key w) = Throw (Error identity_not_found) /\
  snd (getProjectManifestByCoordinates env key w) = w /\
  fst (createProjectWithCoords env key w) = Throw (Error identity_not_found) /\
  snd (createProjectWithCoords env key w) = w /\
  count_calls is_builderWrite (events_since w (snd save)) = 0 /\
  (exists message,
     fst save = Ret {| ok := false; error := Some message |} /\
     (existsb is_translated (events_since w (snd save)) = true ->
      message = toString (Error identity_not_found))) /\
  count_calls is_builderWrite (events_since w (snd info)) = 0 /\
  fst info = Ret false.
Proof.
  intros Hid save info. subst save info.
  repeat match goal with
         | |- _ /\ _ => split
         end.
  1-6: unfold_methods; simpl; rewrite Hid; reflexivity.
  - set (run0 := saveSceneState env state w). start_run run0. simpl.
    run.
    all: intros ->; normalize_trace; signed_out Hid; reflexivity.
  - set (run0 := saveSceneState env state w). start_run run0. simpl.
    run.
    all: intros ->; normalize_trace; signed_out Hid.
    all: eexists; split; [reflexivity |]; intros H; try discriminate; reflexivity.
  - set (run0 := saveProjectInfo env state projectName projectDescription
                   projectScreenshot w).
    start_run run0. simpl. run.
    all: intros ->; normalize_trace; signed_out Hid; reflexivity.
  - unfold_methods. simpl. run. all: signed_out Hid; reflexivity.
Qed.

(** Nobody is signed in and everything else answers. *)
Lemma signed_out_witness :
  fst (getProjectManifest Samples.signed_out "p1" Samples.world)
  = Throw (Error identity_not_found) /\
  count_calls is_builderWrite
    (events_since Samples.world
       (snd (saveSceneState Samples.signed_out Samples.two_entities Samples.world)))
  = 0 /\
  fst (saveSceneState Samples.signed_out Samples.two_entities Samples.world)
  = Ret {| ok := false;
           error := Some "Error: Identity not found when trying to deploy an entity" |} /\
  fst (saveProjectInfo Samples.signed_out Samples.two_entities "Plaza" "A plaza" "shot"
         Samples.world)
  = Ret false.
Proof.
  destruct (@signed_out_reaches_no_builder_request Samples.signed_out "p1"
              Samples.two_entities "Plaza" "A plaza" "shot" Samples.world
              (fun h => eq_refl))
    as (Hlookup & _ & _ & _ & _ & _ & Hcount & Hsave & _ & Hinfo).
  split; [exact Hlookup |]. split; [exact Hcount |]. split; [reflexivity | exact Hinfo].
Defined.

End ProjectFacts.

(** ** What a publication builds, deploys and leaves behind *)

Module DeploymentFacts.
Import Js Scene Controller Observations JsFacts RunFacts PublishFacts OperationFacts.
Import SaveFacts.
Local Open Scope list_scope.

#[local] Arguments toString : simpl never.

(** An event of the downloads is a download call. *)
Ltac not_a_download :=
  match goal with
  | Hall : Forall _ ?devs, Hin : In ?ev ?devs, Hcall : call_of ?ev = _ |- _ =>
      rewrite Forall_forall in Hall; specialize (Hall _ Hin);
      rewrite Hcall in Hall; discriminate
  end.

(** The downloads make no call of the kind [p]. *)
Ltac downloads_make_no p :=
  repeat match goal with
         | Hall : Forall (fun ev => is_downloadCall (call_of ev) = true) ?devs |- _ =>
             lazymatch goal with
             | _ : count_calls p devs = 0 |- _ => fail
             | _ =>
                 pose proof (downloads_count_zero p
                               (fun c H => ltac:(destruct c; simpl in *; congruence))
                               Hall)
             end
         end.

(** The events of an explicit trace that make a given call. *)
Ltac the_event Hin Hcall :=
  split_in Hin; subst; simpl in Hcall; try discriminate; try not_a_download;
  inversion Hcall; subst; clear Hcall.



(** An explicit trace up to its [buildEntity]. *)
Ltac upto_build l :=
  lazymatch l with
  | Done (BuildEntity _ _ _) :: _ => constr:(@nil Event)
  | ?x :: ?t => let r := upto_build t in constr:(x :: r)
  | ?a ++ ?b => let r := upto_build b in constr:(a ++ r)
  end.

(** What [publishSceneState] deploys is what it built: a [deployEntity]
    call comes right after a [buildEntity] that resolved, and carries the
    files and the entity id which that [buildEntity] returned, with the
    signature of this entity id by the identity that is signed in once the
    entity is built. *)
Theorem deploy_sends_what_was_built
    (env : Env) (sceneId sceneName sceneDescription sceneScreenshot : string)
    (sceneState : SerializedSceneState) (w : World)
    (ev : Event) (files : JsMap Buffer) (entityId : string) (authChain : AuthChain) :
  let run := publishSceneState env sceneId sceneName sceneDescription
               sceneScreenshot sceneState w in
  In ev (events_since w (snd run)) ->
  call_of ev = DeployEntity files entityId authChain ->
  exists before after pointers bundle metadata identity,
    events_since w (snd run)
    = before ++ Done (BuildEntity pointers bundle metadata) :: ev :: after /\
    client_buildEntity env (trace w ++ before) pointers bundle metadata
    = Ret (files, entityId) /\
    getCurrentIdentity env
      (trace w ++ before ++ [Done (BuildEntity pointers bundle metadata)])
    = Some identity /\
    signPayload env identity entityId = Ret authChain.
Proof.
  intros run0. start_run run0. simpl.
  run.
  all: intros ->; normalize_trace.
  all: intros Hin Hcall; the_event Hin Hcall.
  all: match goal with
       | |- context [?l = _ ++ _ :: _ :: _] =>
           let init := upto_build l in exists init
       end.
  all: do 5 eexists.
  all: split; [simpl; rewrite <- ?app_assoc; simpl; reflexivity |].
  all: simpl; rewrite <- ?app_assoc; simpl.
  all: repeat split; eassumption.
Qed.

(** [alice] publishes the two sample entities. *)
Lemma deploy_witness :
  exists before after pointers bundle metadata identity,
    events_since Samples.world
      (snd (publishSceneState Samples.online "scene" "Plaza" "A plaza" "shot"
              Samples.two_entities Samples.world))
    = before ++ Done (BuildEntity pointers bundle metadata)
             :: Done (DeployEntity Samples.bundle "entity" "signature") :: after /\
    client_buildEntity Samples.online (trace Samples.world ++ before) pointers bundle
      metadata
    = Ret (Samples.bundle, "entity"%string) /\
    getCurrentIdentity Samples.online
      (trace Samples.world ++ before ++ [Done (BuildEntity pointers bundle metadata)])
    = Some identity /\
    signPayload Samples.online identity "entity" = Ret "signature"%string.
Proof.
  apply (@deploy_sends_what_was_built Samples.online "scene" "Plaza" "A plaza" "shot"
           Samples.two_entities Samples.world
           (Done (DeployEntity Samples.bundle "entity" "signature"))
           Samples.bundle "entity"%string "signature"%string).
  - vm_compute. tauto.
  - reflexivity.
Defined.

(** Publishing before any project was loaded or created: outside DEBUG
    mode, once the scene state converted to the storable format, the
    attempt answers [{ok:false, error}]; it calls neither [buildEntity] nor
    [deployEntity], changes nothing on the builder server, and the
    controller still has no project afterwards. *)
Theorem publish_without_project_builds_nothing
    (env : Env) (sceneId sceneName sceneDescription sceneScreenshot : string)
    (sceneState : SerializedSceneState) (w : World) :
  builderManifest w = None ->
  DEBUG env = false ->
  returns (fromSerializedStateToStorableFormat env sceneState) = true ->
  let run := publishSceneState env sceneId sceneName sceneDescription
               sceneScreenshot sceneState w in
  let evs := events_since w (snd run) in
  (exists message, fst run = Ret {| ok := false; error := Some message |}) /\
  count_calls is_buildEntity evs = 0 /\
  count_calls is_deployEntity evs = 0 /\
  count_calls is_builderWrite evs = 0 /\
  builderManifest (snd run) = None.
Proof.
  intros Hm Hdebug Hconv run0 evs. subst evs. start_run run0.
  revert Hm Hconv. rewrite Hdebug. simpl.
  run.
  all: intros Hm Hconv ->; normalize_trace; try discriminate.
  all: downloads_make_no is_builderWrite.
  all: autorewrite with trace_db; simpl; use_downloads; simpl.
  all: conjuncts; try reflexivity; try assumption.
  all: eexists; reflexivity.
Qed.

(** [alice] publishes from a controller that has no project. *)
Lemma publish_without_project_witness :
  let run := publishSceneState Samples.online "scene" "Plaza" "A plaza" "shot"
               Samples.two_entities Scenarios.unloaded in
  (exists message, fst run = Ret {| ok := false; error := Some message |}) /\
  count_calls is_buildEntity (events_since Scenarios.unloaded (snd run)) = 0.
Proof.
  destruct (@publish_without_project_builds_nothing Samples.online "scene" "Plaza"
              "A plaza" "shot" Samples.two_entities Scenarios.unloaded
              eq_refl eq_refl eq_refl) as (Hresult & Hbuild & _).
  split; [exact Hresult | exact Hbuild].
Defined.





End DeploymentFacts.

(** ** Reading the deployed scene back *)

Module StoredStateFacts.
Import Js Scene Controller Observations JsFacts RunFacts PublishFacts OperationFacts.
Import SaveFacts DeploymentFacts.
Local Open Scope list_scope.

#[local] Arguments toString : simpl never.

(** [xs.find(({ file }) => file === name)?.hash]: the first entry of that
    name decides.  The lookup yields its hash when this is not empty; it
    yields nothing when no entry has the name, and also when the first
    entry of the name has an empty hash, whatever entries follow. *)
Theorem hash_of_file_is_decided_by_the_first_entry
    (name : string) (xs : list ContentMapping) :
  match hash_of_file name xs with
  | Some h =>
      exists before entry after,
        xs = before ++ entry :: after /\
        (forall e, In e before -> file e <> name) /\
        file entry = name /\ hash entry = h /\ h <> ""%string
  | None =>
      (forall e, In e xs -> file e <> name) \/
      exists before entry after,
        xs = before ++ entry :: after /\
        (forall e, In e before -> file e <> name) /\
        file entry = name /\ hash entry = ""%string
  end.
Proof.
  unfold hash_of_file.
  assert (Hfind :
            match find_first (fun entry => String.eqb (file entry) name) xs with
            | Some entry =>
                exists before after,
                  xs = before ++ entry :: after /\
                  (forall e, In e before -> file e <> name) /\
                  file entry = name
            | None => forall e, In e xs -> file e <> name
            end).
  { induction xs as [| x xs IH]; simpl.
    - intros e [].
    - destruct (String.eqb_spec (file x) name) as [Heq | Hne].
      + exists [], xs. repeat split; [intros e [] | exact Heq].
      + destruct (find_first (fun entry => String.eqb (file entry) name) xs)
          as [entry |].
        * destruct IH as (before & after & Hxs & Hbefore & Hfile).
          exists (x :: before), after. rewrite Hxs. repeat split; [| exact Hfile].
          intros e [<- | Hin]; auto.
        * intros e [<- | Hin]; auto. }
  destruct (find_first (fun entry => String.eqb (file entry) name) xs) as [entry |].
  - destruct Hfind as (before & after & Hxs & Hbefore & Hfile).
    destruct (hash entry) as [| c h] eqn:Hhash; simpl.
    + right. exists before, entry, after. auto.
    + exists before, entry, after. repeat split; auto. discriminate.
  - left. exact Hfind.
Qed.



End StoredStateFacts.

(** ** A project made from the deployed scene *)

Module ProjectFromStateFacts.
Import Js Scene Controller Observations JsFacts RunFacts PublishFacts OperationFacts.
Import SaveFacts DeploymentFacts.
Local Open Scope list_scope.

#[local] Arguments toString : simpl never.
#[local] Arguments String.append : simpl never.

(** The reduction that passes the components of a manifest through the
    transform translator keeps the keys and their order and changes
    nothing in the controller.  Each component is replaced by its
    transform; when the translator rejects a component, the reduction
    throws that exception, at the first such component. *)
Theorem transformComponents_keeps_the_keys
    (env : Env) (src : option SceneSource) (cs : list (string * BuilderComponent))
    (w : World) :
  snd (transformComponents env src cs w) = w /\
  match fst (transformComponents env src cs w) with
  | Ret cs' =>
      List.map fst cs' = List.map fst cs /\
      Forall2 (fun c c' => transformBuilderComponent env src (snd c) = Ret (snd c'))
        cs cs'
  | Throw e =>
      exists before c after,
        cs = before ++ c :: after /\
        transformBuilderComponent env src (snd c) = Throw e /\
        Forall (fun c' => returns (transformBuilderComponent env src (snd c')) = true)
          before
  end.
Proof.
  split; [apply transformComponents_world |].
  induction cs as [| [k v] cs IH]; simpl.
  - split; constructor.
  - unfold bind, lift, ret.
    destruct (transformBuilderComponent env src v) as [v' | e] eqn:Hv; simpl.
    + pose proof (transformComponents_world env src cs w) as Hw.
      destruct (transformComponents env src cs w) as [r w'].
      simpl in Hw, IH. subst w'.
      destruct r as [cs' | e]; simpl.
      * destruct IH as [Hkeys Hall]. split; [rewrite Hkeys; reflexivity |].
        constructor; [exact Hv | exact Hall].
      * destruct IH as (before & c & after & Hcs & Hc & Hbefore).
        exists ((k, v) :: before), c, after. rewrite Hcs.
        repeat split; [exact Hc |].
        constructor; [simpl; rewrite Hv; reflexivity | exact Hbefore].
    + exists [], (k, v), cs. repeat split; [exact Hv | constructor].
Qed.

(** An explicit trace up to the start of the manifest update, and after
    it. *)
Ltac upto_update l :=
  lazymatch l with
  | Done (SpawnUpdateProjectManifest _) :: _ => constr:(@nil Event)
  | ?x :: ?t => let r := upto_update t in constr:(x :: r)
  | ?a ++ ?b => let r := upto_update b in constr:(a ++ r)
  end.

Ltac after_update l :=
  lazymatch l with
  | Done (SpawnUpdateProjectManifest _) :: ?t => constr:(t)
  | _ :: ?t => after_update t
  end.

(** An explicit trace holds the event. *)
Ltac member := simpl; repeat first [left; reflexivity | right].

(** An event that a trace is known to hold. *)
Ltac the_member Hin :=
  split_in Hin;
  match goal with
  | H : _ = Done _ |- _ => first [discriminate H | inversion H; subst; clear H]
  end.

(** [createProjectFromStateDefinition] starts the update of the builder
    server's manifest and the publication, and waits for neither: its own
    run holds no manifest or thumbnail update, no [buildEntity], no
    [deployEntity] and no publish result.  The manifest whose update is
    started is the controller's current project from then on, built with
    the translator of the scene's source block, and the renderer was told
    its title and description.  The publication is started after the
    update, as the last action, exactly in the runs that answer a state; it
    is given that state, the scene id of the parcel and the title and the
    description of that manifest.  A run that starts neither answers
    [undefined], keeps the current project and tells the renderer nothing.
    The scene's [scene.json] is never changed. *)
Theorem project_from_state_starts_update_then_publication (env : Env) (w : World) :
  let run := createProjectFromStateDefinition env w in
  let evs := events_since w (snd run) in
  count_calls is_manifestUpdate evs = 0 /\
  count_calls is_thumbnailUpdate evs = 0 /\
  count_calls is_buildEntity evs = 0 /\
  count_calls is_deployEntity evs = 0 /\
  count_calls is_publishResult evs = 0 /\
  count_calls is_spawn evs <= 2 /\
  sceneJsonData (snd run) = sceneJsonData w /\
  (forall m,
     In (Done (SpawnUpdateProjectManifest m)) evs ->
     builderManifest (snd run) = Some m /\
     transformTranslator (snd run) = Some (source (sceneJsonData w)) /\
     In (Done (SendBuilderProjectInfo (title (project m)) (description (project m))
                 false)) evs) /\
  (forall args,
     In (Done (SpawnPublishSceneState args)) evs ->
     fst run = Ret (Some (arg_sceneState args)) /\
     arg_sceneId args = parcel_sceneId env /\
     exists m before between,
       evs = before ++ Done (SpawnUpdateProjectManifest m)
                    :: between ++ [Done (SpawnPublishSceneState args)] /\
       arg_sceneName args = title (project m) /\
       arg_sceneDescription args = description (project m)) /\
  (forall state,
     fst run = Ret (Some state) ->
     exists args,
       In (Done (SpawnPublishSceneState args)) evs /\ arg_sceneState args = state) /\
  (count_calls is_spawn evs = 0 ->
   fst run = Ret None /\
   builderManifest (snd run) = builderManifest w /\
   count_calls is_renderer evs = 0).
Proof.
  intros run0 evs. subst evs.
  match goal with
  | run0 := ?body |- _ =>
      assert (Hrun : run0 = body) by reflexivity; clearbody run0; revert Hrun
  end.
  unfold createProjectFromStateDefinition. unfold_methods. simpl.
  run_all.
  all: intros ->; normalize_trace.
  all: conjuncts; try reflexivity; try (unfold count_calls; simpl; lia).
  all: try (intros H; unfold count_calls in H; simpl in H; discriminate H).
  all: try (intros state H; discriminate H).
  all: try (intros m Hin; the_member Hin; fail).
  all: try (intros m Hin; the_member Hin; simpl; conjuncts;
            first [reflexivity | congruence | member]; fail).
  all: try (intros state Hstate; inversion Hstate; subst; clear Hstate;
            eexists; split; [member | reflexivity]).
  all: try (intros _; repeat split; reflexivity).
  all: intros args Hin; the_member Hin; simpl.
  all: split; [reflexivity |]; split; [reflexivity |].
  all: match goal with
       | |- context [?l = _ ++ _ :: _ ++ _] =>
           let init := upto_update l in
           let rest := after_update l in
           let between := all_but_last rest in
           eexists; exists init, between
       end.
  all: split; [simpl; reflexivity | split; reflexivity].
Qed.

End ProjectFromStateFacts.

(** ** Asset files that share a path *)

Module DownloadFacts.
Import Js Scene Controller Observations MapLookup JsFacts RunFacts.
Local Open Scope list_scope.

Lemma map_get_map_set V (k k' : string) (v : V) (m : JsMap V) :
  map_get k' (map_set k v m) = if String.eqb k k' then Some v else map_get k' m.
Proof.
  induction m as [| [k0 v0] m IH]; simpl.
  - reflexivity.
  - destruct (String.eqb_spec k k0) as [-> | Hne]; simpl.
    + destruct (String.eqb k0 k'); reflexivity.
    + rewrite IH. destruct (String.eqb_spec k0 k') as [-> | Hne'].
      * destruct (String.eqb_spec k k'); [contradiction | reflexivity].
      * reflexivity.
Qed.

Lemma map_get_fold_map_set V (entries : list (string * V)) (acc : JsMap V)
    (k : string) :
  map_get k (fold_left (fun m kv => map_set (fst kv) (snd kv) m) entries acc)
  = match last_bound k entries with
    | Some v => Some v
    | None => map_get k acc
    end.
Proof.
  revert acc. induction entries as [| [k0 v0] entries IH]; intros acc; simpl.
  - reflexivity.
  - rewrite IH. destruct (last_bound k entries); [reflexivity |].
    rewrite map_get_map_set. destruct (String.eqb k0 k); reflexivity.
Qed.

Lemma gatherMappings_fold (env : Env) (l : list Asset) (acc : JsMap string) :
  fold_left (add_asset_mappings env) l acc
  = fold_left (fun m kv => map_set (fst kv) (snd kv) m)
      (flat_map
         (fun asset =>
            List.map (fun fh => ((MODELS_FOLDER (CONTENT_PATH env) ++ "/" ++ file fh)%string,
                                 (baseUrl asset ++ "/" ++ hash fh)%string))
                     (mappings asset))
         l)
      acc.
Proof.
  revert acc. induction l as [| asset l IH]; intros acc; simpl.
  - reflexivity.
  - rewrite fold_left_app, IH. f_equal.
    unfold add_asset_mappings. generalize (mappings asset) as fhs. intros fhs.
    revert acc. induction fhs as [| fh fhs IHf]; intros acc; simpl; auto.
Qed.

(** The path-to-url map of [downloadAssetFiles] is the [Map] of the pairs
    it is fed, in their order: a path that several asset files share is
    bound once, at the position of its first pair and with the url of its
    last pair. *)
Theorem a_shared_path_keeps_its_last_url (env : Env) (assets : JsMap Asset) :
  gatherMappings env assets = map_of_entries (asset_files env assets) /\
  NoDup (map_keys (gatherMappings env assets)) /\
  forall path,
    map_get path (gatherMappings env assets)
    = last_bound path (asset_files env assets).
Proof.
  assert (Heq : gatherMappings env assets = map_of_entries (asset_files env assets)).
  { unfold gatherMappings, map_of_entries, asset_files. apply gatherMappings_fold. }
  split; [exact Heq |]. split; [apply gatherMappings_nodup |].
  intros path. rewrite Heq. unfold map_of_entries.
  rewrite map_get_fold_map_set. destruct (last_bound path (asset_files env assets));
    reflexivity.
Qed.

(** A [downloadAssetFiles] that resolves has fetched one url per path of
    the path-to-url map, in the order of the map, and answers a map with
    the same paths in the same order: asset files that share a path are
    downloaded once. *)
Theorem each_path_is_downloaded_once
    (env : Env) (assets : JsMap Asset) (w : World) (models : JsMap Buffer) :
  fst (downloadAssetFiles env assets w) = Ret models ->
  let evs := events_since w (snd (downloadAssetFiles env assets w)) in
  map_keys models = map_keys (gatherMappings env assets) /\
  filter (fun ev => is_fetch (call_of ev)) evs
  = List.map (fun entry => Done (Fetch (snd entry))) (gatherMappings env assets) /\
  existsb is_failedDownload evs = false.
Proof.
  unfold downloadAssetFiles, bind, ret.
  destruct (downloads_run env (gatherMappings env assets) w)
    as (devs & Hw & Hall & Hres).
  destruct (promise_all (fun w' => first_rejection env (trace w'))
              (List.map (download env) (gatherMappings env assets)) w)
    as [r w']. simpl in Hw, Hres. subst w'.
  destruct r as [result | e]; simpl; [| discriminate].
  intros Hmodels. inversion Hmodels; subst; clear Hmodels.
  destruct Hres as (Hkeys & Hfailed & Hfetch).
  rewrite events_since_add_events. split; [| split; assumption].
  rewrite map_of_entries_distinct; [exact Hkeys |].
  rewrite Hkeys. apply gatherMappings_nodup.
Qed.

(** The chair and the table both ship [model.glb]: it is downloaded once,
    from the table's url. *)
Lemma shared_path_witness :
  filter (fun ev => is_fetch (call_of ev))
    (events_since Samples.world
       (snd (downloadAssetFiles Samples.online Scenarios.furniture Samples.world)))
  = [ Done (Fetch "https://builder/contents/QmTable");
      Done (Fetch "https://builder/contents/QmWood") ].
Proof.
  exact (proj1 (proj2
           (@each_path_is_downloaded_once Samples.online Scenarios.furniture
              Samples.world
              [ ("models/model.glb"%string, "response"%string);
                ("models/chair.png"%string, "response"%string) ]
              eq_refl))).
Defined.

End DownloadFacts.

(** ** [blobToBuffer] *)

Module PromiseFacts.
Import Js Scene Controller Promises.
Local Open Scope list_scope.

Lemma callback_settled (i : Invocation) (s : Settlement (option Buffer)) :
  s <> Pending -> callback i s = s.
Proof.
  unfold callback. destruct s; [contradiction | |]; destruct (err i); reflexivity.
Qed.

Lemma callbacks_settled (invocations : list Invocation) (s : Settlement (option Buffer)) :
  s <> Pending -> fold_left (fun s i => callback i s) invocations s = s.
Proof.
  revert s. induction invocations as [| i invocations IH]; intros s Hs; simpl.
  - reflexivity.
  - rewrite callback_settled by exact Hs. apply IH, Hs.
Qed.

(** The promise of [blobToBuffer] is settled by the first invocation of
    the callback: rejected with the error when there is one (the
    [resolve] that follows the [reject] does nothing), fulfilled with the
    buffer otherwise.  Later invocations change nothing.  It is rejected
    as well when [toBuffer] throws, and stays pending when the callback is
    never invoked. *)
Theorem blobToBuffer_settles_by_the_first_invocation
    (toBuffer : Blob -> Outcome (list Invocation)) (blob : Blob) :
  blobToBuffer toBuffer blob
  = match toBuffer blob with
    | Throw e => Rejected e
    | Ret [] => Pending
    | Ret (first :: _) =>
        match err first with
        | Some e => Rejected e
        | None => Fulfilled (buffer first)
        end
    end.
Proof.
  unfold blobToBuffer. destruct (toBuffer blob) as [[| first later] | e]; simpl.
  - reflexivity.
  - rewrite callbacks_settled.
    + unfold callback. destruct (err first); reflexivity.
    + unfold callback. destruct (err first); discriminate.
  - reflexivity.
Qed.

End PromiseFacts.

(** ** The listeners of the worker *)

Module ListenerFacts.
Import Js Scene StateEvents.
Local Open Scope list_scope.

(** A state event makes at most one request to the storage controller,
    the one its type names, and none when the type is none of the three;
    the request carries the serialization of the scene definition as it is
    when the event is handled, the scene id of the parcel for a
    publication, and the title, description and screenshot of the payload.
    Only the rejection of the request is reported, once; with the dev tools
    adapter set, as it is since the start of [systemDidEnable], the report
    goes to the adapter and never to the logger, so that the context
    message is not used.  A listener throws only on a missing payload,
    before it requests anything.  The scene definition is not changed. *)
Theorem a_state_event_makes_the_request_of_its_type
    (env : Env) (sceneId : string) (data : StateEvent) (w : World) :
  let run := stateEvent env sceneId data w in
  let evs := added w (snd run) in
  let state := serializeSceneState env (sceneDefinition w) in
  sceneDefinition (snd run) = sceneDefinition w /\
  devToolsAdapter (snd run) = devToolsAdapter w /\
  length (filter is_request evs) <= 1 /\
  (forall ev r,
     In ev evs -> request_of ev = Some r ->
     match r with
     | PublishSceneState id title description screenshot published =>
         event_type data = "PublishSceneState"%string /\
         id = sceneId /\ published = state /\
         event_payload data
         = Some {| payload_title := title;
                   payload_description := description;
                   payload_screenshot := screenshot |}
     | SaveSceneState saved =>
         event_type data = "SaveSceneState"%string /\ saved = state
     | SaveProjectInfo saved title description screenshot =>
         event_type data = "SaveProjectInfo"%string /\ saved = state /\
         event_payload data
         = Some {| payload_title := title;
                   payload_description := description;
                   payload_screenshot := screenshot |}
     end) /\
  (event_type data = "SaveSceneState"%string ->
   exists ev, In ev evs /\ request_of ev = Some (SaveSceneState state)) /\
  (forall p,
     event_payload data = Some p ->
     (event_type data = "PublishSceneState"%string ->
      exists ev,
        In ev evs /\
        request_of ev
        = Some (PublishSceneState sceneId (payload_title p) (payload_description p)
                  (payload_screenshot p) state)) /\
     (event_type data = "SaveProjectInfo"%string ->
      exists ev,
        In ev evs /\
        request_of ev
        = Some (SaveProjectInfo state (payload_title p) (payload_description p)
                  (payload_screenshot p)))) /\
  (forall r e,
     In (Rejected r e) evs ->
     evs = [ Rejected r e;
             if devToolsAdapter w then DevToolsError e
             else LoggerError
                    (match r with
                     | PublishSceneState _ _ _ _ _ => "Failed to store the scene's state"
                     | SaveSceneState _ => "Failed to save the scene's manifest"
                     | SaveProjectInfo _ _ _ _ => "Failed to save the scene's info"
                     end) e ]) /\
  (existsb is_report evs = true -> exists r e, In (Rejected r e) evs) /\
  (devToolsAdapter w = true -> existsb is_loggerError evs = false) /\
  (fst run = Ret tt \/
   (event_payload data = None /\ evs = [] /\
    fst run = Throw (TypeError "Cannot read properties of undefined"))).
Proof.
  intros run evs state. subst run evs state.
  unfold added, stateEvent, onPublish, onSave, onSaveInfo, request, error,
    read_payload, bind, ret, throw, gets, log.
  destruct data as [type payload]. simpl.
  destruct (String.eqb_spec type "PublishSceneState") as [-> | Hpublish];
    [| destruct (String.eqb_spec type "SaveSceneState") as [-> | Hsave];
       [| destruct (String.eqb_spec type "SaveProjectInfo") as [-> | Hinfo]]];
    simpl.
  all: destruct payload as [[title description screenshot] |]; simpl.
  all: repeat match goal with
              | |- context [settle ?e ?h ?r] => destruct (settle e h r); simpl
              | |- context [devToolsAdapter ?w0] =>
                  is_var w0; destruct (devToolsAdapter w0); simpl
              end.
  all: rewrite <- ?app_assoc;
    rewrite ?JsFacts.skipn_length_app, ?JsFacts.skipn_length_all; simpl.
  all: repeat match goal with
              | |- _ /\ _ => split
              end.
  all: try reflexivity; try lia; try discriminate; try tauto.
  all: try (intros; discriminate).
  all: try (intros ev r [<- | [<- | []]]; simpl; intros Hr;
            inversion Hr; subst; auto; fail).
  all: try (intros ev r [<- | []]; simpl; intros Hr; inversion Hr; subst; auto; fail).
  all: try (intros _; eexists; split; [left; reflexivity | reflexivity]).
  all: try (intros p Hp; inversion Hp; subst; split; intros Ht;
            try discriminate Ht; try contradiction;
            eexists; split; [left; reflexivity | reflexivity]).
  all: try (intros p Hp; inversion Hp; subst; split; intros Ht;
            discriminate Ht || contradiction).
  all: try (intros r0 e0 [Hr | [Hr | []]]; inversion Hr; subst; reflexivity).
  all: try (intros r0 e0 [Hr | []]; inversion Hr).
  all: try (intros _; do 2 eexists; left; reflexivity).
  all: try (left; reflexivity).
  all: try (right; repeat split; reflexivity).
Qed.

End ListenerFacts.

(** ** Initialization over a parcel that holds a scene *)

Module BootFacts.
Import Js Scene StatefulScene WorkerFacts.
Local Open Scope list_scope.

#[local] Arguments deliver_all : simpl never.

(** Follows [systemDidEnable] through every outcome of its collaborators;
    before [forwardChangesTo] nobody listens to the renderer. *)
Ltac boot_steps :=
  repeat first
    [ rewrite deliver_all_idle by reflexivity; simpl
    | match goal with
      | |- context [match ?x with _ => _ end] =>
          lazymatch x with
          | context [match _ with _ => _ end] => fail
          | _ => destruct x eqn:?; simpl
          end
      end ].

(** An explicit trace of the worker without its last event. *)
Ltac worker_all_but_last l :=
  lazymatch l with
  | ?x :: nil => constr:(@nil Event)
  | ?x :: ?t => let r := worker_all_but_last t in constr:(x :: r)
  end.

(** Case analysis on the membership of an event in an explicit trace. *)
Ltac cases_of_membership :=
  repeat match goal with
         | H : _ \/ _ |- _ => destruct H as [H | H]
         end;
  try discriminate; try contradiction.

(** [systemDidEnable] pushes a state to the renderer at most once, and the
    state it pushes is the one the builder backend returned for a parcel
    reported as not empty, after the assets of that very state were sent;
    the run then completes with that state as the scene definition.  When
    one of the awaited steps is rejected, [systemDidEnable] is rejected with
    that error at once: it pushes no state, does not subscribe to the
    renderer's changes nor to the state events, and never sends the
    "initialization finished" signal. *)
Theorem stored_scene_is_pushed_after_its_assets (env : Env) :
  let run := systemDidEnable env fresh in
  count is_push (trace (snd run)) <= 1 /\
  (forall definition,
     In (Done (SendStateTo definition)) (trace (snd run)) ->
     getIsEmpty env [Done GetParcel] = Ret false /\
     getInititalSceneState env [Done GetParcel; Done GetIsEmpty] = Ret definition /\
     trace (snd run)
     = [ Done GetParcel; Done GetIsEmpty; Done GetInititalSceneState;
         Done (SendAssetsFromScene definition); Done (SendStateTo definition);
         Done (Log "Sent initial load");
         Done ForwardChangesTo; Done SendInitFinished;
         Done (Subscribe "stateEvent"); Done (Subscribe "stateEvent");
         Done (Subscribe "stateEvent") ] /\
     sceneDefinition (snd run) = Some definition /\
     fst run = Ret tt) /\
  (forall c e,
     In (Failed c e) (trace (snd run)) ->
     fst run = Throw e /\
     (exists before, trace (snd run) = before ++ [Failed c e]) /\
     forwarding (snd run) = false /\
     count is_push (trace (snd run)) = 0 /\
     count is_subscription (trace (snd run)) = 0 /\
     count is_signal (trace (snd run)) = 0 /\
     ~ In (Done (Subscribe "stateEvent")) (trace (snd run))) /\
  (fst run = Ret tt \/
   exists c e, In (Failed c e) (trace (snd run)) /\ fst run = Throw e).
Proof.
  intros run. subst run.
  unfold systemDidEnable, listenToEvents, await, emit, bind, modify, ret. simpl.
  boot_steps.
  all: repeat match goal with
              | H : negb ?b = _ |- _ => destruct b; simpl in H; try discriminate H
              end.
  all: repeat match goal with
              | |- _ /\ _ => split
              end.
  all: try (unfold count; simpl; lia).
  all: try (intros definition Hin; simpl in Hin;
            cases_of_membership;
            match goal with
            | H : Done _ = Done _ |- _ => inversion H; subst; clear H
            end;
            repeat split; assumption || reflexivity).
  all: try (intros c e0 Hin; simpl in Hin;
            cases_of_membership;
            match goal with
            | H : Failed _ _ = Failed _ _ |- _ => inversion H; subst; clear H
            end;
            repeat match goal with
                   | |- _ /\ _ => split
                   end;
            try reflexivity;
            first
              [ match goal with
                | |- exists before, ?t = _ =>
                    let init := worker_all_but_last t in exists init; reflexivity
                end
              | simpl; intros Hsub; cases_of_membership ]).
  all: try (left; reflexivity).
  all: right; do 2 eexists; split; [simpl; eauto 10 | reflexivity].
Qed.

End BootFacts.

(** ** Social ids and user ids *)

Module SocialIdFacts.
Import Js SocialIds.
Local Open Scope list_scope.

Lemma colon_is_no_word : is_word ":" = false.
Proof.
  reflexivity.
Qed.

Lemma append_nil_r (s : string) : (s ++ "")%string = s.
Proof.
  induction s as [| c s IH]; simpl; [reflexivity | rewrite IH; reflexivity].
Qed.

Lemma word_run_append (x rest : string) :
  all_word x = true ->
  word_run (x ++ rest)%string
  = (let (run, after) := word_run rest in ((x ++ run)%string, after)).
Proof.
  induction x as [| c x IH]; simpl; intros Hx.
  - destruct (word_run rest); reflexivity.
  - apply andb_true_iff in Hx. destruct Hx as [Hc Hx]. rewrite Hc, (IH Hx).
    destruct (word_run rest); reflexivity.
Qed.



Lemma parseUserId_formatted (domain x : string) :
  x <> ""%string ->
  all_word x = true ->
  parseUserId (socialIdOf domain x) = (Some x, []).
Proof.
  intros Hne Hword. unfold parseUserId, socialIdOf. simpl.
  rewrite word_run_append by exact Hword. simpl.
  destruct x as [| a x]; [contradiction Hne; reflexivity |]. simpl.
  rewrite append_nil_r. reflexivity.
Qed.



(** [toSocialData] undoes the formatting of
    [initializeStatusUpdateInterval]: user ids made of word characters
    (as Ethereum addresses are), formatted as [`@${userId}:${domain}`],
    are read back one for one and in order, whatever the domain, and no
    warning is logged. *)
Theorem formatted_friends_are_read_back (domain : string) (friends : list string) :
  Forall (fun x => x <> ""%string /\ all_word x = true) friends ->
  toSocialData (List.map (socialIdOf domain) friends)
  = (List.map (fun x => {| userId := x;
                           socialId := socialIdOf domain x;
                           conversationId := None |}) friends,
     []).
Proof.
  induction 1 as [| x friends [Hne Hword] Hall IH]; simpl; [reflexivity |].
  rewrite (parseUserId_formatted domain Hne Hword), IH.
  destruct x as [| a x]; [contradiction Hne; reflexivity | reflexivity].
Qed.

(** Two addresses and the domain of the social server. *)
Lemma formatted_friends_witness :
  toSocialData (List.map (socialIdOf "decentraland.org") ["0xa11ce"; "0xb0b"]%string)
  = ([ {| userId := "0xa11ce";
          socialId := "@0xa11ce:decentraland.org";
          conversationId := None |};
       {| userId := "0xb0b";
          socialId := "@0xb0b:decentraland.org";
          conversationId := None |} ],
     []).
Proof.
  apply (@formatted_friends_are_read_back "decentraland.org" ["0xa11ce"; "0xb0b"]%string).
  repeat constructor; discriminate.
Defined.

End SocialIdFacts.

(** ** The user's own status *)

Module OwnStatusFacts.
Import Js OwnStatus.
Local Open Scope list_scope.

Section Throttle.

Variables Position Grid Realm : Type.
Variable worldToGrid : Position -> Grid.
Variable deepEqual_position : Grid -> Grid -> bool.
Variable deepEqual_realm : Realm -> option Realm -> bool.
Variable catalystName : Realm -> string.
Variable setStatus_settles : string -> Grid -> Outcome unit.

Let Report := StatusReport Position Realm.
Let step := sendOwnStatusIfNecessary worldToGrid deepEqual_position deepEqual_realm
              catalystName setStatus_settles.
Let arrive := reports_arrive worldToGrid deepEqual_position deepEqual_realm
                catalystName setStatus_settles.
Let follows := may_follow worldToGrid deepEqual_position deepEqual_realm.

(** Names what the later reports do. *)
Ltac later_reports :=
  match goal with
  | |- context [reports_arrive ?a ?b ?c ?d ?e ?f ?g] =>
      let events := fresh "events'" in
      let final := fresh "final" in
      destruct (reports_arrive a b c d e f g) as [events final]
  end.

Lemma sent_app (a b : list (Event Position Grid Realm)) :
  sent (a ++ b) = sent a ++ sent b.
Proof.
  induction a as [| [report name position | e] a IH]; simpl;
    [reflexivity | rewrite IH; reflexivity | exact IH].
Qed.

Lemma sent_settle (name : string) (position : Grid) :
  sent (settle Position Realm setStatus_settles name position) = [].
Proof.
  unfold settle. destruct (setStatus_settles name position); reflexivity.
Qed.

(** One report: either nothing is sent and [lastStatus] is kept, or the
    report is sent, may follow the last one sent, and becomes
    [lastStatus]. *)
Lemma step_spec (lastStatus : option Report) (status : Report) :
  (sent (fst (step lastStatus status)) = [] /\
   fst (step lastStatus status) = [] /\
   snd (step lastStatus status) = lastStatus) \/
  (sent (fst (step lastStatus status)) = [status] /\
   snd (step lastStatus status) = Some status /\
   realm status <> None /\
   forall last, lastStatus = Some last -> follows last status).
Proof.
  unfold step, sendOwnStatusIfNecessary.
  destruct (realm status) as [r |] eqn:Hrealm; [| left; repeat split].
  destruct lastStatus as [last |]; simpl.
  - destruct (Z.ltb_spec (timestamp status) (timestamp last + SEND_STATUS_INTERVAL_MILLIS))
      as [Hearly | Hlate]; [left; repeat split |].
    destruct (deepEqual_position (worldToGrid (worldPosition status))
                (worldToGrid (worldPosition last))
              && deepEqual_realm r (realm last)) eqn:Hsame; [left; repeat split |].
    right. simpl. rewrite sent_settle.
    split; [reflexivity |]. split; [reflexivity |].
    split; [discriminate |].
    intros last' Hlast. inversion Hlast; subst last'.
    split; [lia |]. exists r. split; [exact Hrealm | exact Hsame].
  - right. simpl. rewrite sent_settle.
    split; [reflexivity |]. split; [reflexivity |].
    split; [discriminate |].
    intros last Hlast. discriminate Hlast.
Qed.

Lemma arrive_spec (reports : list Report) (lastStatus : option Report) :
  let sends := sent (fst (arrive lastStatus reports)) in
  chain follows sends /\
  (forall last first later,
     lastStatus = Some last -> sends = first :: later -> follows last first) /\
  Forall (fun s => realm s <> None) sends /\
  snd (arrive lastStatus reports)
  = match rev sends with
    | s :: _ => Some s
    | [] => lastStatus
    end /\
  subsequence sends reports.
Proof.
  revert lastStatus. induction reports as [| status reports IH]; intros lastStatus; simpl.
  - split; [exact I |]. split; [intros last first later _ H; discriminate H |].
    split; [constructor |]. split; [reflexivity | exact I].
  - unfold arrive in *. simpl.
    fold (step lastStatus status).
    destruct (step_spec lastStatus status)
      as [(Hsent & Hevents & Hlast) | (Hsent & Hlast & Hrealm & Hfollows)];
      destruct (step lastStatus status) as [events lastStatus'] eqn:Hstep;
      simpl in Hsent, Hlast; subst lastStatus'.
    + simpl in Hevents. subst events.
      specialize (IH lastStatus).
      later_reports. simpl in *.
      destruct IH as (Hchain & Hfirst & Hall & Hfinal & Hsub).
      split; [exact Hchain |]. split; [exact Hfirst |]. split; [exact Hall |].
      split; [exact Hfinal |].
      destruct (sent events'); [exact I | right; exact Hsub].
    + specialize (IH (Some status)).
      later_reports. simpl in *.
      destruct IH as (Hchain & Hfirst & Hall & Hfinal & Hsub).
      rewrite sent_app, Hsent. simpl.
      split; [| split; [| split; [| split]]].
      * destruct (sent events') as [| next later] eqn:Hnext; [exact I |].
        split; [apply (Hfirst status next later); reflexivity | exact Hchain].
      * intros last first later Hl Hs. inversion Hs; subst first.
        apply Hfollows. exact Hl.
      * constructor; [exact Hrealm | exact Hall].
      * rewrite Hfinal. destruct (rev (sent events')) as [| s l]; reflexivity.
      * left. split; [reflexivity | exact Hsub].
Qed.

Lemma first_realm_is_sent (before : list Report) (status : Report)
    (later : list Report) :
  Forall (fun s => realm s = None) before ->
  realm status <> None ->
  exists later', sent (fst (arrive None (before ++ status :: later))) = status :: later'.
Proof.
  intros Hbefore Hrealm. unfold arrive.
  induction Hbefore as [| s before Hs Hbefore IH]; simpl.
  - unfold sendOwnStatusIfNecessary.
    destruct (realm status) as [r |]; [| contradiction Hrealm; reflexivity].
    simpl.
    later_reports. simpl. rewrite sent_app, sent_settle. simpl. eexists. reflexivity.
  - unfold sendOwnStatusIfNecessary at 1. rewrite Hs. simpl.
    later_reports. simpl in *. exact IH.
Qed.

End Throttle.

(** Whatever reports arrive, in whatever order, the statuses sent are
    spaced: each one carries a realm, comes at least five seconds (by the
    reports' time stamps) after the one sent before it, and differs from it
    in the grid position or in the realm.  The reports sent are among the
    reports that arrived, in their order; [lastStatus] is the last report
    sent, also when [client.setStatus] was rejected for it; and while no
    status was sent yet, the first report that carries a realm is sent. *)
Theorem own_status_updates_are_spaced
    (Position Grid Realm : Type) (worldToGrid : Position -> Grid)
    (deepEqual_position : Grid -> Grid -> bool)
    (deepEqual_realm : Realm -> option Realm -> bool)
    (catalystName : Realm -> string)
    (setStatus_settles : string -> Grid -> Outcome unit)
    (reports : list (StatusReport Position Realm)) :
  let run := reports_arrive worldToGrid deepEqual_position deepEqual_realm
               catalystName setStatus_settles None reports in
  let sends := sent (fst run) in
  chain (may_follow worldToGrid deepEqual_position deepEqual_realm) sends /\
  Forall (fun s => realm s <> None) sends /\
  subsequence sends reports /\
  snd run = match rev sends with s :: _ => Some s | [] => None end /\
  (forall before status later,
     reports = before ++ status :: later ->
     Forall (fun s => realm s = None) before ->
     realm status <> None ->
     exists later', sends = status :: later').
Proof.
  intros run sends. subst run sends.
  destruct (arrive_spec worldToGrid deepEqual_position deepEqual_realm catalystName
              setStatus_settles reports None) as (Hchain & _ & Hall & Hfinal & Hsub).
  split; [exact Hchain |]. split; [exact Hall |]. split; [exact Hsub |].
  split; [exact Hfinal |].
  intros before status later -> Hbefore Hrealm.
  apply first_realm_is_sent; assumption.
Qed.

End OwnStatusFacts.

(** ** Friendship updates *)

Module FriendshipFacts.
Import Js SocialIds Friendship.
Local Open Scope list_scope.

Lemma includes_In (x : string) (l : list string) :
  includes x l = true <-> In x l.
Proof.
  unfold includes. rewrite existsb_exists. split.
  - intros (y & Hin & Heq). apply String.eqb_eq in Heq. subst y. exact Hin.
  - intros Hin. exists x. split; [exact Hin | apply String.eqb_refl].
Qed.

Lemma includes_not_In (x : string) (l : list string) :
  includes x l = false <-> ~ In x l.
Proof.
  rewrite <- includes_In. destruct (includes x l); split; congruence.
Qed.

Lemma remove_first_In (x u : string) (l : list string) :
  In u (remove_first x l) -> In u l.
Proof.
  induction l as [| y l IH]; simpl; [auto |].
  destruct (String.eqb_spec y x); simpl; intuition.
Qed.

Lemma remove_first_other (x u : string) (l : list string) :
  u <> x -> In u l -> In u (remove_first x l).
Proof.
  intros Hne. induction l as [| y l IH]; simpl; [auto |].
  destruct (String.eqb_spec y x) as [-> | Hy]; simpl.
  - intros [<- | Hin]; [contradiction Hne; reflexivity | exact Hin].
  - intuition.
Qed.

Lemma remove_first_NoDup (x : string) (l : list string) :
  NoDup l -> NoDup (remove_first x l).
Proof.
  induction 1 as [| y l Hnotin Hnd IH]; simpl; [constructor |].
  destruct (String.eqb_spec y x); [exact Hnd |].
  constructor; [| exact IH]. intros Hin. apply Hnotin. eapply remove_first_In, Hin.
Qed.

Lemma remove_first_gone (x : string) (l : list string) :
  NoDup l -> ~ In x (remove_first x l).
Proof.
  induction 1 as [| y l Hnotin Hnd IH]; simpl; [auto |].
  destruct (String.eqb_spec y x) as [-> | Hy]; [exact Hnotin |].
  intros [Heq | Hin]; [contradiction | contradiction].
Qed.

Lemma NoDup_snoc (x : string) (l : list string) :
  NoDup l -> ~ In x l -> NoDup (l ++ [x]).
Proof.
  intros Hnd Hnotin. apply NoDup_app; [exact Hnd | repeat constructor; intros [] |].
  intros y Hy [<- | []]. contradiction.
Qed.

Lemma In_snoc (u x : string) (l : list string) :
  In u (l ++ [x]) <-> In u l \/ u = x.
Proof.
  rewrite in_app_iff. simpl. intuition.
Qed.

Create HintDb friends.
#[local] Hint Resolve remove_first_NoDup remove_first_gone remove_first_other
  remove_first_In NoDup_snoc : friends.

(** Follows the saga through every outcome of what it consults. *)
Ltac unfold_saga :=
  unfold handleUpdateFriendship, handleOutgoingUpdateFriendshipStatus, updated,
    push_friend, write_socialInfo, read_socialData, emit, call, bind, try_catch, ret,
    throw, gets, modify, log, set_store, added.

Ltac step_saga :=
  match goal with
  | |- context [match ?x with _ => _ end] =>
      lazymatch x with
      | context [match _ with _ => _ end] => fail
      | _ => destruct x eqn:?; simpl
      end
  end.

Ltac trace_added :=
  simpl in *; rewrite <- ?app_assoc in *;
  rewrite ?JsFacts.skipn_length_app, ?JsFacts.skipn_length_all in *; simpl in *.

(** The [Put] among the events of an explicit trace. *)
Ltac the_put Hin Hcall :=
  simpl in Hin;
  repeat match type of Hin with
         | _ \/ _ => destruct Hin as [Hin | Hin]
         end;
  try contradiction; subst; simpl in Hcall; try discriminate Hcall;
  inversion Hcall; subst; clear Hcall.

(** What was tested on the lists, as memberships. *)
Ltac memberships :=
  repeat match goal with
         | H : includes _ _ = true |- _ => apply includes_In in H
         | H : includes _ _ = false |- _ => apply includes_not_In in H
         | H : negb _ = true |- _ => apply negb_true_iff in H
         | H : negb _ = false |- _ => apply negb_false_iff in H
         end.

(** The state that [handleUpdateFriendship] dispatches.  The request list
    looked at is the list of my requests to others when an approval, or a
    rejection, comes in, and the list of the requests to me when I approve
    or reject; for a cancellation it is the other way round.  A state is
    dispatched only for an action that changes a list; it moves the user
    and nobody else: an approval takes the user out of the request list
    and makes him a friend, a rejection or a cancellation takes him out of
    the request list, a request puts him on the request list, a deletion
    takes him out of the friends.  Lists that held no user twice hold no
    user twice afterwards. *)
Theorem a_friendship_update_moves_one_user
    (env : Env) (action : FriendshipAction) (userId : string) (incoming : bool)
    (w : World) (ev : Event) (newState : FriendsState) :
  well_formed (store w) ->
  let run := handleUpdateFriendship env action userId incoming w in
  In ev (added w (snd run)) ->
  call_of ev = Put newState ->
  let old := store w in
  let approving := if incoming then ToFriendRequests else FromFriendRequests in
  let cancelling := if incoming then FromFriendRequests else ToFriendRequests in
  well_formed newState /\
  (forall u,
     u <> userId ->
     (In u (friends newState) <-> In u (friends old)) /\
     (In u (fromFriendRequests newState) <-> In u (fromFriendRequests old)) /\
     (In u (toFriendRequests newState) <-> In u (toFriendRequests old))) /\
  match action with
  | NONE => False
  | APPROVED =>
      In userId (selected approving old) /\
      ~ In userId (selected approving newState) /\
      In userId (friends newState) /\
      selected cancelling newState = selected cancelling old
  | REJECTED =>
      In userId (selected approving old) /\
      ~ In userId (selected approving newState) /\
      friends newState = friends old /\
      selected cancelling newState = selected cancelling old
  | CANCELED =>
      In userId (selected cancelling old) /\
      ~ In userId (selected cancelling newState) /\
      friends newState = friends old /\
      selected approving newState = selected approving old
  | REQUESTED_FROM =>
      ~ In userId (fromFriendRequests old) /\
      fromFriendRequests newState = fromFriendRequests old ++ [userId] /\
      friends newState = friends old /\
      toFriendRequests newState = toFriendRequests old
  | REQUESTED_TO =>
      ~ In userId (toFriendRequests old) /\
      toFriendRequests newState = toFriendRequests old ++ [userId] /\
      friends newState = friends old /\
      fromFriendRequests newState = fromFriendRequests old
  | DELETED =>
      In userId (friends old) /\
      ~ In userId (friends newState) /\
      fromFriendRequests newState = fromFriendRequests old /\
      toFriendRequests newState = toFriendRequests old
  end.
Proof.
  intros (Hfriends & Hfrom & Hto) run0.
  assert (Hrun : run0 = handleUpdateFriendship env action userId incoming w)
    by reflexivity.
  clearbody run0. revert Hrun. unfold_saga.
  destruct w as [t old]. simpl in *.
  destruct action, incoming; simpl.
  all: repeat step_saga.
  all: intros ->; trace_added.
  all: intros Hin Hcall; the_put Hin Hcall.
  all: memberships; unfold well_formed; simpl.
  all: repeat match goal with
              | |- _ /\ _ => split
              | |- _ <-> _ => split
              end.
  all: intros; try rewrite In_snoc in *.
  all: eauto 6 with friends.
  all: try tauto.
  all: try (intuition (subst; eauto with friends; congruence)).
Qed.

(** I approve Bob's request: the state dispatched has him as a friend and
    no request of his. *)
Lemma friendship_update_witness :
  well_formed SocialSamples.befriended /\
  In "0xb0b"%string (fromFriendRequests SocialSamples.requested) /\
  ~ In "0xb0b"%string (fromFriendRequests SocialSamples.befriended) /\
  In "0xb0b"%string (friends SocialSamples.befriended).
Proof.
  assert (Hstart : well_formed (store SocialSamples.start)).
  { repeat split; repeat constructor; simpl; tauto. }
  assert (Hin : In (Done (Put SocialSamples.befriended))
                  (added SocialSamples.start
                     (snd (handleUpdateFriendship SocialSamples.server APPROVED
                             "0xb0b"%string false SocialSamples.start)))).
  { vm_compute. tauto. }
  destruct (@a_friendship_update_moves_one_user SocialSamples.server APPROVED
              "0xb0b"%string false SocialSamples.start
              (Done (Put SocialSamples.befriended)) SocialSamples.befriended
              Hstart Hin eq_refl)
    as (Hwf & _ & Hwas & Hgone & Hfriend & _).
  split; [exact Hwf |]. split; [exact Hwas |]. split; [exact Hgone | exact Hfriend].
Defined.

(** An explicit trace without its last event, and that event. *)
Ltac friends_all_but_last l :=
  lazymatch l with
  | ?x :: nil => constr:(@nil Event)
  | ?x :: ?t => let r := friends_all_but_last t in constr:(x :: r)
  end.

Ltac friends_last l :=
  lazymatch l with
  | ?x :: nil => constr:(x)
  | ?x :: ?t => friends_last t
  end.

Ltac ends_in_resync :=
  match goal with
  | |- exists before last, ?l = _ /\ _ =>
      let init := friends_all_but_last l in
      let final := friends_last l in
      exists init, final; split; [reflexivity |];
      first [left; reflexivity | right; eexists; reflexivity]
  end.

Ltac cases_of Hin :=
  repeat match type of Hin with
         | _ \/ _ => destruct Hin as [Hin | Hin]
         end;
  try contradiction.

(** How far a friendship update reaches.  The saga dispatches at most one
    state.  It tells the social server (outgoing updates) or the renderer
    (incoming updates) at most once, with the request of the action, and
    only after it dispatched a state: an update that changes no list
    reaches neither.  For a user that [findByUserId] does not know it logs
    an error and does nothing else.  Every outgoing update of a known
    user, and every run in which a call failed, ends with a call of
    [initializeFriends], unless the profile of an unknown user could not be
    fetched; [initializeFriends] is called a second time only when its
    first call failed.  The saga itself throws only what its last call
    threw, [initializeFriends] or that profile fetch. *)
Theorem an_unchanged_friendship_reaches_nobody
    (env : Env) (action : FriendshipAction) (userId : string) (incoming : bool)
    (w : World) :
  let run := handleUpdateFriendship env action userId incoming w in
  let evs := added w (snd run) in
  let ends_in_resync :=
    exists before last,
      evs = before ++ [last] /\
      (call_of last = InitializeFriends \/
       exists e, last = Failed (EnsureFriendProfile userId) e) in
  count is_put evs <= 1 /\
  count is_serverUpdate evs <= count is_put evs /\
  count is_rendererUpdate evs <= count is_put evs /\
  (incoming = true -> count is_serverUpdate evs = 0) /\
  (incoming = false -> count is_rendererUpdate evs = 0) /\
  (forall ev,
     In ev evs -> is_serverUpdate (call_of ev) = true ->
     exists socialId, serverUpdate_of action socialId = Some (call_of ev)) /\
  (forall ev,
     In ev evs -> is_rendererUpdate (call_of ev) = true ->
     ev = Done (UpdateFriendshipStatus action userId)) /\
  (findByUserId env (store w) userId = None ->
   run = (Ret tt, log (Done (LoggerError "user not loaded!" userId)) w)) /\
  (incoming = false -> findByUserId env (store w) userId <> None -> ends_in_resync) /\
  (forall c e, In (Failed c e) evs -> ends_in_resync) /\
  count is_initializeFriends evs <= 2 /\
  (count is_initializeFriends evs = 2 ->
   incoming = false /\ exists e, In (Failed InitializeFriends e) evs) /\
  (forall e,
     fst run = Throw e ->
     exists before c,
       evs = before ++ [Failed c e] /\
       (c = InitializeFriends \/ c = EnsureFriendProfile userId)).
Proof.
  intros run0 evs resync. subst evs resync.
  assert (Hrun : run0 = handleUpdateFriendship env action userId incoming w)
    by reflexivity.
  clearbody run0. revert Hrun. unfold_saga.
  destruct w as [t old]. simpl in *.
  destruct action, incoming; simpl.
  all: repeat step_saga.
  all: intros ->; trace_added; unfold count; simpl.
  all: repeat match goal with
              | |- _ /\ _ => split
              end.
  all: try lia; try reflexivity.
  all: try (intros H; discriminate H).
  all: try (intros H; exfalso; lia).
  all: try (intros _; split; [reflexivity |]; eexists; simpl; eauto 12; fail).
  all: try (intros ev Hin Hcall; cases_of Hin; subst; simpl in Hcall;
            try discriminate Hcall; first [reflexivity | eexists; reflexivity]).
  all: try (intros _ Hknown; first [contradiction Hknown; reflexivity | ends_in_resync]).
  all: try (intros failedCall failure Hin; cases_of Hin; try discriminate Hin;
            ends_in_resync).
  all: try (intros thrown Hthrown; inversion Hthrown; subst;
            match goal with
            | |- exists before c, ?l = _ /\ _ =>
                let init := friends_all_but_last l in
                exists init; eexists; split; [reflexivity |];
                first [left; reflexivity | right; reflexivity]
            end).
Qed.

End FriendshipFacts.

(** ** Fetching the meta configuration and the feature flags *)

Module MetaFacts.
Import Js Meta.
Local Open Scope list_scope.

#[local] Arguments String.append : simpl never.

(** Runs a fetcher on the three ways its request can end. *)
Ltac fetched env h url credentials :=
  unfold fetchMetaConfiguration, fetchMetaConfiguration_body,
         fetchFeatureFlagsAndVariants, fetchFeatureFlagsAndVariants_body,
         bind, try_catch, call, emit, ret, throw;
  simpl;
  destruct (fetch env h url credentials) as [response | failure] eqn:Hfetch;
  simpl;
  [destruct (ok response) eqn:Hok; simpl;
   [destruct (json response) as [body | unparsed] eqn:Hjson; simpl |] |].

(** [fetchMetaConfiguration] is rejected in one case only: the response was
    [ok] and reading its body as JSON failed; the rejection is that of
    [response.json()], no warning is logged and the default configuration
    is not used.  When the request fails or the response is not [ok], it
    resolves to the default configuration after exactly one warning; a
    readable body is handed on as it is, without a warning.  There is one
    request, without options, to the configuration endpoint. *)
Theorem fetchMetaConfiguration_rejects_on_an_unreadable_body
    (env : Env) (h : History) :
  let run := fetchMetaConfiguration env h in
  let url := explorerConfiguration env in
  let request := fetch env h url None in
  exists added,
    snd run = h ++ added /\
    length (filter is_fetch added) = 1 /\
    (forall e,
       fst run = Throw e <->
       exists response,
         request = Ret response /\ ok response = true /\ json response = Throw e) /\
    (fst run = Ret (DefaultConfiguration (assetBundlesBaseUrl env)) <->
     ~ exists response, request = Ret response /\ ok response = true) /\
    (forall body,
       fst run = Ret (FromServer body) <->
       exists response,
         request = Ret response /\ ok response = true /\ json response = Ret body) /\
    length (filter is_warning added)
    = match fst run with Ret (DefaultConfiguration _) => 1 | _ => 0 end.
Proof.
  intros run url request. subst run url request.
  fetched env h (explorerConfiguration env) (@None string).
  - eexists. split; [rewrite <- ?app_assoc; reflexivity |]. split; [reflexivity |].
    split; [| split; [| split; [| reflexivity]]].
    + intros e. split; [discriminate |].
      intros (r & Hr & _ & Hj). inversion Hr; subst r. congruence.
    + split; [discriminate |].
      intros Hno. exfalso. apply Hno. exists response. split; [reflexivity | exact Hok].
    + intros b. split.
      * intros Hb. inversion Hb; subst b. exists response. repeat split; assumption.
      * intros (r & Hr & _ & Hj). inversion Hr; subst r. congruence.
  - eexists. split; [rewrite <- ?app_assoc; reflexivity |]. split; [reflexivity |].
    split; [| split; [| split; [| reflexivity]]].
    + intros e. split.
      * intros He. inversion He; subst e. exists response. repeat split; assumption.
      * intros (r & Hr & _ & Hj). inversion Hr; subst r. congruence.
    + split; [discriminate |].
      intros Hno. exfalso. apply Hno. exists response. split; [reflexivity | exact Hok].
    + intros b. split; [discriminate |].
      intros (r & Hr & _ & Hj). inversion Hr; subst r. congruence.
  - eexists. split; [rewrite <- ?app_assoc; reflexivity |]. split; [reflexivity |].
    split; [| split; [| split; [| reflexivity]]].
    + intros e. split; [discriminate |].
      intros (r & Hr & Hk & _). inversion Hr; subst r. congruence.
    + split; [| reflexivity].
      intros _ (r & Hr & Hk). inversion Hr; subst r. congruence.
    + intros b. split; [discriminate |].
      intros (r & Hr & Hk & _). inversion Hr; subst r. congruence.
  - eexists. split; [rewrite <- ?app_assoc; reflexivity |]. split; [reflexivity |].
    split; [| split; [| split; [| reflexivity]]].
    + intros e. split; [discriminate |].
      intros (r & Hr & _). discriminate Hr.
    + split; [| reflexivity].
      intros _ (r & Hr & _). discriminate Hr.
    + intros b. split; [discriminate |].
      intros (r & Hr & _). discriminate Hr.
Qed.

(** [fetchFeatureFlagsAndVariants] logs its warning only when the request
    itself failed: a response that is not [ok] gives [undefined] silently,
    and an [ok] response whose body cannot be read rejects the function
    with the rejection of [response.json()], again without a warning.  The
    request is made once, with [credentials: 'include'], and the function
    resolves to a value other than [undefined] only with the body of an
    [ok] response. *)
Theorem fetchFeatureFlags_warns_only_for_a_failed_request
    (env : Env) (h : History) :
  let run := fetchFeatureFlagsAndVariants env h in
  let url := explorerFeatureFlags env in
  let request := fetch env h url (Some "include") in
  exists added,
    snd run = h ++ added /\
    filter is_fetch added
    = [match request with
       | Ret _ => Done (Fetch url (Some "include"))
       | Throw e => Failed (Fetch url (Some "include")) e
       end] /\
    (length (filter is_warning added)
     = match request with Ret _ => 0 | Throw _ => 1 end) /\
    (forall e,
       fst run = Throw e <->
       exists response,
         request = Ret response /\ ok response = true /\ json response = Throw e) /\
    (forall body,
       fst run = Ret (Some body) <->
       exists response,
         request = Ret response /\ ok response = true /\ json response = Ret body).
Proof.
  intros run url request. subst run url request.
  fetched env h (explorerFeatureFlags env) (Some "include").
  - eexists. split; [rewrite <- ?app_assoc; reflexivity |]. split; [reflexivity |]. split; [reflexivity |].
    split.
    + intros e. split; [discriminate |].
      intros (r & Hr & _ & Hj). inversion Hr; subst r. congruence.
    + intros b. split.
      * intros Hb. inversion Hb; subst b. exists response. repeat split; assumption.
      * intros (r & Hr & _ & Hj). inversion Hr; subst r. congruence.
  - eexists. split; [rewrite <- ?app_assoc; reflexivity |]. split; [reflexivity |]. split; [reflexivity |].
    split.
    + intros e. split.
      * intros He. inversion He; subst e. exists response. repeat split; assumption.
      * intros (r & Hr & _ & Hj). inversion Hr; subst r. congruence.
    + intros b. split; [discriminate |].
      intros (r & Hr & _ & Hj). inversion Hr; subst r. congruence.
  - eexists. split; [rewrite <- ?app_assoc; reflexivity |]. split; [reflexivity |]. split; [reflexivity |].
    split.
    + intros e. split; [discriminate |].
      intros (r & Hr & Hk & _). inversion Hr; subst r. congruence.
    + intros b. split; [discriminate |].
      intros (r & Hr & Hk & _). inversion Hr; subst r. congruence.
  - eexists. split; [rewrite <- ?app_assoc; reflexivity |]. split; [reflexivity |]. split; [reflexivity |].
    split.
    + intros e. split; [discriminate |].
      intros (r & Hr & _). discriminate Hr.
    + intros b. split; [discriminate |].
      intros (r & Hr & _). discriminate Hr.
Qed.

End MetaFacts.

(** ** Analytics of the player's position *)

Module ParcelTrackingFacts.
Import Js ParcelTracking.
Local Open Scope list_scope.

Section Tracker.

Variables Position Time : Type.
Variable parcel_of : Position -> Z * Z.
Variable over_a_second : Time -> Time -> bool.
Variable trackEvent : MoveToParcel Position -> Outcome unit.

Let arrive := positions_arrive parcel_of over_a_second trackEvent.
Let step := onPosition parcel_of over_a_second trackEvent.
Let reported := reported (Time := Time) parcel_of trackEvent.

Lemma differs_iff (previous : option (Z * Z)) (current : Z * Z) :
  differs previous current = true <-> Some current <> previous.
Proof.
  destruct previous as [[px py] |]; destruct current as [cx cy];
    unfold differs, same_parcel; simpl.
  - rewrite negb_true_iff, andb_false_iff, !Z.eqb_neq. split.
    + intros [H | H] Heq; inversion Heq; subst; apply H; reflexivity.
    + intros H. destruct (Z.eq_dec px cx) as [-> | Hx]; [| left; exact Hx].
      right. intros ->. apply H. reflexivity.
  - split; [discriminate | reflexivity].
Qed.

(** One notification makes at most one attempt, for its own position. *)
Lemma onPosition_spec (st : State Time) (s : Sample Position Time) :
  (fst (step st s) = [] /\ previousPosition (snd (step st s)) = previousPosition st) \/
  exists event accepted,
    fst (step st s) = [(event, accepted)] /\
    reported s (event, accepted) /\
    oldParcel event = previousPosition st /\
    Some (newParcel event) <> previousPosition st /\
    previousPosition (snd (step st s))
    = (if accepted then Some (newParcel event) else previousPosition st).
Proof.
  unfold step, onPosition.
  destruct (over_a_second (now s) (lastTime st)); [| left; split; reflexivity].
  destruct (differs (previousPosition st) (parcel_of (position s))) eqn:Hdiffers;
    [| left; split; reflexivity].
  apply differs_iff in Hdiffers.
  right.
  destruct (trackEvent _) eqn:Htracked; eexists; eexists;
    (split; [reflexivity |]);
    (split; [split; [reflexivity | split; [reflexivity | simpl; rewrite Htracked; reflexivity]] |]);
    (split; [reflexivity |]); (split; [exact Hdiffers | reflexivity]).
Qed.

Lemma positions_arrive_spec (samples : list (Sample Position Time)) (st : State Time) :
  leaves_the_last_tracked (previousPosition st) (fst (arrive st samples)) /\
  previousPosition (snd (arrive st samples))
  = last_tracked (previousPosition st) (fst (arrive st samples)) /\
  Forall (fun a => exists s, In s samples /\ reported s a) (fst (arrive st samples)) /\
  length (fst (arrive st samples)) <= length samples.
Proof.
  revert st. induction samples as [| s samples IH]; intros st.
  - simpl. split; [exact I |]. split; [reflexivity |]. split; [constructor | lia].
  - unfold arrive in *. simpl. fold (step st s).
    destruct (onPosition_spec st s)
      as [(Hnone & Hprev) | (event & accepted & Hone & Hrep & Hold & Hnew & Hprev)];
      destruct (step st s) as [attempts st'] eqn:Hstep; simpl in *; subst attempts;
      specialize (IH st');
      destruct (positions_arrive parcel_of over_a_second trackEvent st' samples)
        as [attempts' final];
      simpl in *; rewrite Hprev in IH;
      destruct IH as (Hchain & Hfinal & Hall & Hlen).
    + split; [exact Hchain |]. split; [exact Hfinal |].
      split; [| lia].
      eapply Forall_impl; [| exact Hall].
      intros a (s' & Hin & Hr). exists s'. split; [right; exact Hin | exact Hr].
    + split; [split; [exact Hold | split; [exact Hnew | exact Hchain]] |].
      split; [destruct accepted; exact Hfinal |].
      split; [| lia].
      constructor.
      * exists s. split; [left; reflexivity | exact Hrep].
      * eapply Forall_impl; [| exact Hall].
        intros a (s' & Hin & Hr). exists s'. split; [right; exact Hin | exact Hr].
Qed.

End Tracker.

(** Whatever positions are notified and whatever the clock reads, every
    ['Move to Parcel'] event allowed to leave names as [oldParcel] the
    [newParcel] of the last event that [trackEvent] accepted ([null] before
    the first), and a [newParcel] different from it; an event that
    [trackEvent] refused with an exception is not remembered.
    [previousPosition] ends as the parcel of the last accepted event, every
    event reports the exact position and the parcel of a notified position,
    and a notification makes at most one event. *)
Theorem parcel_moves_leave_the_last_tracked_parcel
    (Position Time : Type) (parcel_of : Position -> Z * Z)
    (over_a_second : Time -> Time -> bool)
    (trackEvent : MoveToParcel Position -> Outcome unit)
    (started : Time) (samples : list (Sample Position Time)) :
  let run := positions_arrive parcel_of over_a_second trackEvent
               {| lastTime := started; previousPosition := None |} samples in
  leaves_the_last_tracked None (fst run) /\
  previousPosition (snd run) = last_tracked None (fst run) /\
  Forall (fun a => exists s,
            In s samples /\
            exactPosition (fst a) = position s /\
            newParcel (fst a) = parcel_of (position s) /\
            returns (trackEvent (fst a)) = snd a)
         (fst run) /\
  length (fst run) <= length samples.
Proof.
  intros run. subst run.
  destruct (positions_arrive_spec parcel_of over_a_second trackEvent samples
              {| lastTime := started; previousPosition := None |})
    as (Hchain & Hfinal & Hall & Hlen).
  split; [exact Hchain |]. split; [exact Hfinal |]. split; [| exact Hlen].
  eapply Forall_impl; [| exact Hall].
  intros a (s & Hin & Hexact & Hparcel & Haccepted).
  exists s. repeat split; assumption.
Qed.

End ParcelTrackingFacts.
